(** * Streamlit-App: security / validation and data-profiling pipeline

    A shallow embedding of
      - [utils/__init__.py]       (class [SecureFileHandler]),
      - [utils/security.py]       (classes [SecurityLimits], [SecurityConfig]),
      - [utils/data_processor.py] (class [DataProcessor]),
    together with the parts of Python's [re] and of pandas that these
    classes call.

    Conventions.
    - Text is a [string] of code points below 128 (ASCII); the character
      classes of [re] are given on that range.
    - Python [int] is [Z], counts of cells are [nat]. A number in a cell
      is the rational [Q] it stands for, a missing one ([NaN]) is [None].
      The arithmetic of the quality report, of the quartiles and of the
      fences is that of float64 ([Float64]: every result rounded to
      nearest, ties to even, with infinities and [nan]; the two zeros
      are not told apart). A column of dtype [int64] behaves like one
      of [float64] as long as its values are floats, which whole
      numbers below [2 ^ 53] are. The reading of the clock and the
      median that [clean_data] fills in are exact rationals.
    - numpy is 1.22 or later: its [percentile] interpolates with
      [_lerp].
    - A raised exception is the constructor [Raise] of [result].
    - pandas is the one the code was written for: a column of text has
      dtype [object], and [fillna(inplace=True)] on [frame[col]] writes
      into [frame]. Calls of the logger and of [print] do not change
      what the functions return; of these only the line [clean_data]
      prints and the sheet [validate_and_process] announces are kept.
    - What a function reads from outside is an argument of its model:
      the reading of [time.time()], what opening and reading the
      uploaded workbook gives, the entries of [st.session_state].
    - Of a dict that a function returns, the entries that are counts,
      labels or flags are kept, and of the quality report the
      missing-data percentage as its format [.2f] writes it; other
      formatted texts, memory sizes and descriptive statistics are
      not. *)

From Stdlib Require Import ZArith QArith Qround Qpower Qabs Lqa Ascii String List Bool Lia.
From stdpp Require Import gmap strings list fin_maps.

Local Open Scope string_scope.
Local Open Scope list_scope.

(* ===================================================================== *)
(** * Python text *)
(* ===================================================================== *)

Module Py.

Definition code (c : ascii) : nat := nat_of_ascii c.

Definition in_range (lo hi : nat) (c : ascii) : bool :=
  (lo <=? code c)%nat && (code c <=? hi)%nat.

Definition is_upper (c : ascii) : bool := in_range 65 90 c.
Definition is_lower (c : ascii) : bool := in_range 97 122 c.
Definition is_digit (c : ascii) : bool := in_range 48 57 c.
Definition is_alpha (c : ascii) : bool := is_upper c || is_lower c.
Definition is_alnum (c : ascii) : bool := is_alpha c || is_digit c.

(** [str.lower] / [str.upper] on one character. *)
Definition lower (c : ascii) : ascii :=
  if is_upper c then ascii_of_nat (code c + 32) else c.
Definition upper (c : ascii) : ascii :=
  if is_lower c then ascii_of_nat (code c - 32) else c.

Definition chars (s : string) : list ascii := list_ascii_of_string s.

Definition str_lower (s : string) : string :=
  string_of_list_ascii (map lower (chars s)).

(** [sub in s] *)
Fixpoint contains (sub s : string) : bool :=
  String.prefix sub s ||
  match s with
  | EmptyString => false
  | String _ s' => contains sub s'
  end.

(** [s.split('.')[-1]] : the text after the last [sep], the whole text
    when [sep] does not occur. *)
Fixpoint last_component (sep : ascii) (acc : string) (s : string) : string :=
  match s with
  | EmptyString => acc
  | String c s' =>
      if Ascii.eqb c sep then last_component sep "" s'
      else last_component sep (String.append acc (String c "")) s'
  end.

Definition split_last (sep : ascii) (s : string) : string :=
  last_component sep "" s.

(** Exceptions and the outcome of a computation that may raise. *)
Inductive exn :=
| StrConversionError (obj : nat).   (* [str(o)] raised for object [obj] *)

Inductive result (A : Type) :=
| Ok (a : A)
| Raise (e : exn).
Arguments Ok {A} a.
Arguments Raise {A} e.

#[global] Instance result_ret : MRet result := fun _ a => Ok a.
#[global] Instance result_bind : MBind result := fun _ _ k r =>
  match r with
  | Ok a => k a
  | Raise e => Raise e
  end.

End Py.

(* ===================================================================== *)
(** * Python's [re]: the fragment the patterns of the repository use *)
(* ===================================================================== *)

Module Re.

(** Members of a bracketed set, and the escapes [\w], [\s], [\d]. *)
Inductive item :=
| IChar (c : ascii)
| IRange (lo hi : ascii)
| IWord
| ISpace
| IDigit.

Inductive re :=
| Eps
| Lit (c : ascii)                      (* a literal character *)
| Any                                  (* [.] : anything but a newline *)
| OneOf (neg : bool) (items : list item)  (* [[...]] and [[^...]] *)
| Cat (r1 r2 : re)
| Alt (r1 r2 : re)
| Star (r : re)                        (* [r*], also [r*?] *)
| Bol                                  (* [^] *)
| Eol                                  (* [$] *)
| WordB.                               (* [\b] *)

Definition Plus (r : re) : re := Cat r (Star r).
Definition Opt (r : re) : re := Alt r Eps.
Fixpoint Rep (n : nat) (r : re) : re :=
  match n with
  | O => Eps
  | S n' => Cat r (Rep n' r)
  end.
Definition AtLeast (n : nat) (r : re) : re := Cat (Rep n r) (Star r).

(** The literal text [s]. *)
Fixpoint Str (s : string) : re :=
  match s with
  | EmptyString => Eps
  | String c EmptyString => Lit c
  | String c s' => Cat (Lit c) (Str s')
  end.

Fixpoint seq_of (rs : list re) : re :=
  match rs with
  | [] => Eps
  | [r] => r
  | r :: rs' => Cat r (seq_of rs')
  end.

Definition is_word (c : ascii) : bool := Py.is_alnum c || Ascii.eqb c "_".

(** [str.isspace] below 128: TAB..CR, FS..US and the blank. *)
Definition is_space (c : ascii) : bool :=
  Py.in_range 9 13 c || Py.in_range 28 32 c.

Definition item_test (it : item) (c : ascii) : bool :=
  match it with
  | IChar x => Ascii.eqb c x
  | IRange lo hi => Py.in_range (Py.code lo) (Py.code hi) c
  | IWord => is_word c
  | ISpace => is_space c
  | IDigit => Py.is_digit c
  end.

(** Under [re.IGNORECASE] a character is tried in both cases. *)
Definition item_match (icase : bool) (it : item) (c : ascii) : bool :=
  item_test it c ||
  (icase && (item_test it (Py.lower c) || item_test it (Py.upper c))).

Definition lit_match (icase : bool) (x c : ascii) : bool :=
  if icase then Ascii.eqb (Py.lower c) (Py.lower x) else Ascii.eqb c x.

Definition newline : ascii := ascii_of_nat 10.

Definition char_at (s : list ascii) (i : nat) : option ascii := nth_error s i.

Definition word_at (s : list ascii) (i : nat) : bool :=
  match char_at s i with
  | Some c => is_word c
  | None => false
  end.

(** [\b]: exactly one of the two neighbours is a word character. *)
Definition at_boundary (s : list ascii) (i : nat) : bool :=
  xorb (match i with O => false | S p => word_at s p end) (word_at s i).

(** [$] without [re.MULTILINE]: at the end, or just before a final
    newline. *)
Definition at_end (s : list ascii) (i : nat) : bool :=
  (i =? length s)%nat ||
  ((S i =? length s)%nat &&
   match char_at s i with Some c => Ascii.eqb c newline | None => false end).

(** Iterations of a starred expression: [step i] are the positions one
    iteration can reach from [i]; only iterations that consume input are
    followed, so [length s] rounds reach every position. *)
Fixpoint star_from (step : nat -> list nat) (fuel i : nat) : list nat :=
  i :: match fuel with
       | O => []
       | S fuel' =>
           flat_map (star_from step fuel')
                    (List.filter (fun j => (i <? j)%nat) (step i))
       end.

(** [ends icase r s i]: every position [j] such that [r] matches the
    slice [s[i:j]]. *)
Fixpoint ends (icase : bool) (r : re) (s : list ascii) (i : nat) : list nat :=
  match r with
  | Eps => [i]
  | Lit x =>
      match char_at s i with
      | Some c => if lit_match icase x c then [S i] else []
      | None => []
      end
  | Any =>
      match char_at s i with
      | Some c => if Ascii.eqb c newline then [] else [S i]
      | None => []
      end
  | OneOf neg items =>
      match char_at s i with
      | Some c =>
          if xorb neg (existsb (fun it => item_match icase it c) items)
          then [S i] else []
      | None => []
      end
  | Cat r1 r2 => flat_map (ends icase r2 s) (ends icase r1 s i)
  | Alt r1 r2 => ends icase r1 s i ++ ends icase r2 s i
  | Star r1 => star_from (ends icase r1 s) (length s) i
  | Bol => if (i =? 0)%nat then [i] else []
  | Eol => if at_end s i then [i] else []
  | WordB => if at_boundary s i then [i] else []
  end.

Definition matches_at (icase : bool) (r : re) (s : list ascii) (i : nat) : bool :=
  match ends icase r s i with
  | [] => false
  | _ :: _ => true
  end.

(** [re.match(r, s)]: a match starting at position 0. *)
Definition match_ (icase : bool) (r : re) (s : string) : bool :=
  matches_at icase r (Py.chars s) 0.

(** [re.search(r, s)]: a match starting anywhere. *)
Definition search (icase : bool) (r : re) (s : string) : bool :=
  existsb (matches_at icase r (Py.chars s)) (seq 0 (S (String.length s))).

(** The same as a relation: [matches icase s r i j] when [r] matches the
    slice [s[i:j]]. *)
Inductive matches (icase : bool) (s : list ascii) : re -> nat -> nat -> Prop :=
| MEps i : matches icase s Eps i i
| MLit x i c :
    char_at s i = Some c -> lit_match icase x c = true ->
    matches icase s (Lit x) i (S i)
| MAny i c :
    char_at s i = Some c -> Ascii.eqb c newline = false ->
    matches icase s Any i (S i)
| MOneOf neg items i c :
    char_at s i = Some c ->
    xorb neg (existsb (fun it => item_match icase it c) items) = true ->
    matches icase s (OneOf neg items) i (S i)
| MCat r1 r2 i k j :
    matches icase s r1 i k -> matches icase s r2 k j ->
    matches icase s (Cat r1 r2) i j
| MAltL r1 r2 i j : matches icase s r1 i j -> matches icase s (Alt r1 r2) i j
| MAltR r1 r2 i j : matches icase s r2 i j -> matches icase s (Alt r1 r2) i j
| MStarNil r i : matches icase s (Star r) i i
| MStarCons r i k j :
    matches icase s r i k -> matches icase s (Star r) k j ->
    matches icase s (Star r) i j
| MBol : matches icase s Bol O O
| MEol i : at_end s i = true -> matches icase s Eol i i
| MWordB i : at_boundary s i = true -> matches icase s WordB i i.

(** Every character. *)
Definition all_chars : list ascii := map ascii_of_nat (seq 0 256).

(** A syntactic check: [requires icase P r] holds only when every
    match of [r] consumes a character that satisfies [P]. *)
Fixpoint requires (icase : bool) (P : ascii -> bool) (r : re) : bool :=
  match r with
  | Lit x => forallb (fun c => implb (lit_match icase x c) (P c)) all_chars
  | Any => forallb (fun c => implb (negb (Ascii.eqb c newline)) (P c)) all_chars
  | OneOf neg items =>
      forallb (fun c => implb (xorb neg (existsb (fun it => item_match icase it c) items))
                              (P c)) all_chars
  | Cat r1 r2 => requires icase P r1 || requires icase P r2
  | Alt r1 r2 => requires icase P r1 && requires icase P r2
  | Eps | Star _ | Bol | Eol | WordB => false
  end.

End Re.

(* ===================================================================== *)
(** * pandas: the DataFrame operations the repository calls *)
(* ===================================================================== *)

Module Pandas.
Import Py.

(** A Python object held by a column of dtype [object]: a [str], or
    any other object, given by its equivalence class [id] under [==]
    and by what [str()] returns on it, [None] when [__str__] raises. *)
Inductive pyobj :=
| PStr (s : string)
| PObj (id : nat) (repr : option string).

(** A column with its dtype; a missing cell ([None], [NaN], [NaT]) is
    [None]. A [bool] column has no missing cells. *)
Inductive column :=
| ColNumber (xs : list (option Q))        (* int64, float64 *)
| ColObject (xs : list (option pyobj))    (* object *)
| ColDatetime (xs : list (option Z))      (* datetime64[ns] *)
| ColBool (xs : list bool).               (* bool *)

(** A DataFrame: its columns in order, each with its label. Labels are
    distinct (the Excel reader renames repeated headers), so [df[col]]
    is the column paired with [col]. *)
Definition DataFrame : Type := list (string * column).

Definition isnull_cells {A} (xs : list (option A)) : list bool :=
  map (fun x => match x with None => true | Some _ => false end) xs.

(** [Series.isnull()] *)
Definition isnull (c : column) : list bool :=
  match c with
  | ColNumber xs => isnull_cells xs
  | ColObject xs => isnull_cells xs
  | ColDatetime xs => isnull_cells xs
  | ColBool xs => map (fun _ => false) xs
  end.

(** [len(series)] *)
Definition col_len (c : column) : nat := length (isnull c).

(** [len(df)] and [len(df.columns)] *)
Definition len (df : DataFrame) : nat :=
  match df with
  | [] => O
  | (_, c) :: _ => col_len c
  end.
Definition ncols (df : DataFrame) : nat := length df.

(** Every column has [len df] cells. *)
Definition aligned (df : DataFrame) : Prop :=
  Forall (fun nc => col_len (snd nc) = len df) df.

(** [sum()] of a boolean mask *)
Definition count_true (mask : list bool) : nat :=
  length (List.filter (fun b => b) mask).

(** [Series.dropna()] *)
Fixpoint dropna {A} (xs : list (option A)) : list A :=
  match xs with
  | [] => []
  | Some x :: xs' => x :: dropna xs'
  | None :: xs' => dropna xs'
  end.

(** [str(o)] *)
Definition to_str (o : pyobj) : result string :=
  match o with
  | PStr s => Ok s
  | PObj _ (Some s) => Ok s
  | PObj id None => Raise (StrConversionError id)
  end.

(** [Series.astype(str)]: converts every cell, raises when one does. *)
Definition astype_str (xs : list pyobj) : result (list string) :=
  mapM to_str xs.

(** [Series.str.contains(pat, case=..., regex=True, na=False)] *)
Definition str_contains (icase : bool) (pat : Re.re) (xs : list string)
  : list bool :=
  map (Re.search icase pat) xs.

(** [Series.any()] *)
Definition any (mask : list bool) : bool := existsb (fun b => b) mask.

(** [Series.str.len()] *)
Definition str_len (xs : list string) : list Z :=
  map (fun s => Z.of_nat (String.length s)) xs.

(** [Series.max()]: [NaN] on an empty series. *)
Definition max (xs : list Z) : option Z :=
  match xs with
  | [] => None
  | x :: xs' => Some (fold_left Z.max xs' x)
  end.

(** [m > bound], false when [m] is [NaN]. *)
Definition gt (m : option Z) (bound : Z) : bool :=
  match m with
  | None => false
  | Some v => (bound <? v)%Z
  end.

(** [df.select_dtypes(include=['object']).columns], with the cells. *)
Fixpoint object_columns (df : DataFrame) : list (string * list (option pyobj)) :=
  match df with
  | [] => []
  | (name, ColObject xs) :: df' => (name, xs) :: object_columns df'
  | _ :: df' => object_columns df'
  end.

(** [df.select_dtypes(include=['number']).columns], with the cells. *)
Fixpoint number_columns (df : DataFrame) : list (string * list (option Q)) :=
  match df with
  | [] => []
  | (name, ColNumber xs) :: df' => (name, xs) :: number_columns df'
  | _ :: df' => number_columns df'
  end.

(** [text_cells P df]: every cell of every [object] column that is not
    missing converts to a text that satisfies [P]. *)
Definition text_cells (P : string -> bool) (df : DataFrame) : bool :=
  forallb (fun nc : string * list (option pyobj) =>
             forallb (fun o => match to_str o with
                               | Ok s => P s
                               | Raise _ => false
                               end)
                     (dropna (snd nc)))
          (object_columns df).

(** No cell of an [object] column raises in [str()]. *)
Definition converts (df : DataFrame) : bool := text_cells (fun _ => true) df.

End Pandas.

(** A pattern as the source writes it, with the expression it denotes. *)
Record pattern := Pattern { source : string; compiled : Re.re }.

(* ===================================================================== *)
(** * utils/__init__.py : class SecureFileHandler *)
(* ===================================================================== *)

Module UploadedFile.
(** The three attributes of an upload that the validator reads. *)
Record t := Make { name : string; size : Z; type : string }.
End UploadedFile.

Module SecureFileHandler.
Import Py Re Pandas.

Record t := Make {
  MAX_FILE_SIZE : Z;
  ALLOWED_EXTENSIONS : list string;
  ALLOWED_MIME_TYPES : list string
}.

Definition __init__ : t :=
  {| MAX_FILE_SIZE := 50 * 1024 * 1024;
     ALLOWED_EXTENSIONS := [".xlsx"];
     ALLOWED_MIME_TYPES :=
       ["application/vnd.openxmlformats-officedocument.spreadsheetml.sheet"] |}.

Inductive message :=
| FileSizeExceeds (size limit : Z)
| FileTypeNotAllowed (file_extension : string)
| InvalidMimeType (type : string)
| InvalidFilename
| FileEmpty
| FileValidationSuccessful.

(** The dict [{'valid': ..., 'message': ...}]. *)
Record verdict := Verdict { valid : bool; message_of : message }.

(** [x in l] for a list of strings *)
Definition str_in (x : string) (l : list string) : bool :=
  existsb (String.eqb x) l.

Definition backslash : ascii := ascii_of_nat 92.

(** [re.compile(r'^[a-zA-Z0-9._\\-\\s()]+$')]. Inside the brackets the
    raw text [\\] is an escaped backslash, [\\-\\] is therefore the
    range from backslash to backslash, and [s], [(], [)] stand for
    themselves. *)
Definition safe_pattern : pattern :=
  Pattern "^[a-zA-Z0-9._\\-\\s()]+$"
    (seq_of [Bol;
             Plus (OneOf false
                     [IRange "a" "z"; IRange "A" "Z"; IRange "0" "9";
                      IChar "."; IChar "_"; IRange backslash backslash;
                      IChar "s"; IChar "("; IChar ")"]);
             Eol]).

(** The literal ['\\\\'] of the source is a text of two backslashes. *)
Definition two_backslashes : string :=
  String backslash (String backslash EmptyString).

Definition _is_safe_filename (filename : string) : bool :=
  if Py.contains ".." filename || Py.contains "/" filename
     || Py.contains two_backslashes filename
  then false
  else Re.match_ false (compiled safe_pattern) filename.

(** ['.' + name.split('.')[-1].lower()] *)
Definition file_extension_of (name : string) : string :=
  String.append "." (Py.str_lower (Py.split_last "." name)).

Definition _validate_file (self : t) (uploaded_file : UploadedFile.t) : verdict :=
  let size := UploadedFile.size uploaded_file in
  let name := UploadedFile.name uploaded_file in
  if (MAX_FILE_SIZE self <? size)%Z then
    Verdict false (FileSizeExceeds size (MAX_FILE_SIZE self))
  else
    let file_extension := file_extension_of name in
    if negb (str_in file_extension (ALLOWED_EXTENSIONS self)) then
      Verdict false (FileTypeNotAllowed file_extension)
    else if negb (str_in (UploadedFile.type uploaded_file) (ALLOWED_MIME_TYPES self)) then
      Verdict false (InvalidMimeType (UploadedFile.type uploaded_file))
    else if negb (_is_safe_filename name) then
      Verdict false InvalidFilename
    else if (size =? 0)%Z then
      Verdict false FileEmpty
    else
      Verdict true FileValidationSuccessful.

(** The list [suspicious_patterns] of [_security_scan], as written:
    in these raw strings [\\] is an escaped backslash, so [\\w+] is a
    backslash followed by one or more [w], and [\\s+] a backslash
    followed by one or more [s]. *)
Definition suspicious_patterns : list pattern :=
  [ Pattern "<script[^>]*>.*?</script>"
      (seq_of [Str "<script"; Star (OneOf true [IChar ">"]); Lit ">";
               Star Any; Str "</script>"]);
    Pattern "javascript:" (Str "javascript:");
    Pattern "vbscript:" (Str "vbscript:");
    Pattern "on\\w+\\s*="
      (seq_of [Str "on"; Lit backslash; Plus (Lit "w"); Lit backslash;
               Star (Lit "s"); Lit "="]);
    Pattern "SELECT.*FROM" (seq_of [Str "SELECT"; Star Any; Str "FROM"]);
    Pattern "DROP\\s+TABLE"
      (seq_of [Str "DROP"; Lit backslash; Plus (Lit "s"); Str "TABLE"]);
    Pattern "INSERT\\s+INTO"
      (seq_of [Str "INSERT"; Lit backslash; Plus (Lit "s"); Str "INTO"]);
    Pattern "UPDATE\\s+.*SET"
      (seq_of [Str "UPDATE"; Lit backslash; Plus (Lit "s"); Star Any;
               Str "SET"]);
    Pattern "DELETE\\s+FROM"
      (seq_of [Str "DELETE"; Lit backslash; Plus (Lit "s"); Str "FROM"]) ].

Inductive scan_message :=
| SuspiciousContent (col : string)
| CellExceedsSizeLimit (col : string)
| ScanPassed
| ScanFailed (e : exn).

(** The dict [{'safe': ..., 'message': ...}]. *)
Record scan_verdict := ScanVerdict { safe : bool; scan_message_of : scan_message }.

(** One round of the inner loop: does [pattern] occur in some cell? *)
Definition pattern_found (col_data : list string) (p : pattern) : bool :=
  any (str_contains true (compiled p) col_data).

(** The first loop of the [try] block; [Some v] is an early [return v]. *)
Fixpoint scan_string_columns (string_columns : list (string * list (option pyobj)))
  : result (option scan_verdict) :=
  match string_columns with
  | [] => Ok None
  | (col, cells) :: rest =>
      col_data ← astype_str (dropna cells);
      if existsb (pattern_found col_data) suspicious_patterns
      then Ok (Some (ScanVerdict false (SuspiciousContent col)))
      else scan_string_columns rest
  end.

Definition max_cell_size : Z := 10000.

(** The second loop of the [try] block. *)
Fixpoint scan_cell_sizes (columns : DataFrame) : result (option scan_verdict) :=
  match columns with
  | [] => Ok None
  | (col, ColObject cells) :: rest =>
      strs ← astype_str (dropna cells);
      let cell_sizes := str_len strs in
      if gt (max cell_sizes) max_cell_size
      then Ok (Some (ScanVerdict false (CellExceedsSizeLimit col)))
      else scan_cell_sizes rest
  | _ :: rest => scan_cell_sizes rest
  end.

(** The body of the [try] block. *)
Definition _security_scan_try (df : DataFrame) : result scan_verdict :=
  r1 ← scan_string_columns (object_columns df);
  match r1 with
  | Some v => Ok v
  | None =>
      r2 ← scan_cell_sizes df;
      match r2 with
      | Some v => Ok v
      | None => Ok (ScanVerdict true ScanPassed)
      end
  end.

Definition _security_scan (df : DataFrame) : scan_verdict :=
  match _security_scan_try df with
  | Ok v => v
  | Raise e => ScanVerdict false (ScanFailed e)
  end.

(** ** _process_data *)

(** The entries of [processed_data] that list columns and counts. *)
Record processed := Processed {
  columns : list string;
  shape : nat * nat;
  missing_values : list (string * nat);
  numeric_columns : list string;
  categorical_columns : list string;
  datetime_columns : list string
}.

(** [df.select_dtypes(include=['datetime64']).columns] *)
Fixpoint datetime_columns_of (df : DataFrame) : list string :=
  match df with
  | [] => []
  | (name, ColDatetime _) :: df' => name :: datetime_columns_of df'
  | _ :: df' => datetime_columns_of df'
  end.

Definition _process_data (df : DataFrame) : processed :=
  {| columns := map fst df;
     shape := (len df, ncols df);
     missing_values := map (fun nc => (fst nc, count_true (isnull (snd nc)))) df;
     numeric_columns := map fst (number_columns df);
     categorical_columns := map fst (object_columns df);
     datetime_columns := datetime_columns_of df |}.

(** ** validate_and_process *)

(** A call that returns, or raises an exception [e] with the text
    [str(e)]. *)
Inductive attempt (A : Type) :=
| Returned (a : A)
| Raised (text : string).
Arguments Returned {A} a.
Arguments Raised {A} text.

(** What reading the uploaded bytes gives: the sheet names of
    [load_workbook(...)], and the frame of [pd.read_excel(...)] for a
    sheet name, or for no sheet name (the first sheet). *)
Record workbook := Workbook {
  sheetnames : attempt (list string);
  read_excel : option string -> attempt DataFrame
}.

Inductive response_message :=
| ValidationMessage (m : message)
| NoValidData
| FailedToRead (text : string)
| SecurityCheckFailed (m : scan_message)
| ProcessedSuccessfully.

(** The dict [{'success': ..., 'message': ..., 'data': ...,
    'processed_data': ...}]. *)
Record response := Response {
  success : bool;
  response_message_of : response_message;
  data : option DataFrame;
  processed_data : option processed
}.

(** [df.empty]: some axis has length 0. *)
Definition empty (df : DataFrame) : bool :=
  (len df =? 0)%nat || (ncols df =? 0)%nat.

(** The loop over [worksheet_names]: [sheet_data] in the order of its
    keys. A sheet that cannot be read is passed over. *)
Fixpoint read_sheets (read : option string -> attempt DataFrame)
  (worksheet_names : list string) : list (string * DataFrame) :=
  match worksheet_names with
  | [] => []
  | sheet_name :: rest =>
      match read (Some sheet_name) with
      | Returned df =>
          if negb (empty df) then (sheet_name, df) :: read_sheets read rest
          else read_sheets read rest
      | Raised _ => read_sheets read rest
      end
  end.

(** Steps 4 and 5. *)
Definition process_and_scan (main_df : DataFrame) : response :=
  let processed_data := _process_data main_df in
  let security_check := _security_scan main_df in
  if negb (safe security_check)
  then Response false (SecurityCheckFailed (scan_message_of security_check)) None None
  else Response true ProcessedSuccessfully (Some main_df) (Some processed_data).

(** [validate_and_process(uploaded_file)], with what reading the file
    gives; beside the response, the sheet named by [st.info] and the
    number of sheets it mentions. *)
Definition validate_and_process (self : t) (uploaded_file : UploadedFile.t)
  (file_content : workbook) : response * option (string * nat) :=
  let validation_result := _validate_file self uploaded_file in
  if negb (valid validation_result)
  then (Response false (ValidationMessage (message_of validation_result)) None None, None)
  else
    match sheetnames file_content with
    | Raised e => (Response false (FailedToRead e) None None, None)
    | Returned worksheet_names =>
        if (1 <? length worksheet_names)%nat
        then
          match read_sheets (read_excel file_content) worksheet_names with
          | (first_sheet, main_df) :: _ =>
              (process_and_scan main_df, Some (first_sheet, length worksheet_names))
          | [] => (Response false NoValidData None None, None)
          end
        else
          match read_excel file_content None with
          | Returned main_df => (process_and_scan main_df, None)
          | Raised e => (Response false (FailedToRead e) None None, None)
          end
    end.

End SecureFileHandler.

(* ===================================================================== *)
(** * utils/security.py : classes SecurityLimits and SecurityConfig *)
(* ===================================================================== *)

Module SecurityLimits.
Record t := Make {
  MAX_FILE_SIZE_MB : Z;
  MAX_CELL_SIZE_CHARS : Z;
  MAX_COLUMNS : Z;
  MAX_ROWS : Z;
  MAX_API_CALLS_PER_MINUTE : Z;
  SESSION_TIMEOUT_HOURS : Z
}.

(** The defaults of the dataclass. *)
Definition default : t :=
  {| MAX_FILE_SIZE_MB := 50;
     MAX_CELL_SIZE_CHARS := 10000;
     MAX_COLUMNS := 1000;
     MAX_ROWS := 1000000;
     MAX_API_CALLS_PER_MINUTE := 10;
     SESSION_TIMEOUT_HOURS := 2 |}.
End SecurityLimits.

Module SecurityConfig.
Import Py Re Pandas.

Record t := Make {
  limits : SecurityLimits.t;
  suspicious_patterns : list pattern;
  (** user id -> minute bucket -> calls *)
  api_call_tracker : gmap string (gmap Z Z)
}.

Definition ws : re := OneOf false [ISpace].          (* [\s] *)
Definition digit : re := OneOf false [IDigit].       (* [\d] *)
Definition backslash : ascii := ascii_of_nat 92.
Definition tag (name : string) : re :=               (* [<name[^>]*>] *)
  seq_of [Str (String.append "<" name); Star (OneOf true [IChar ">"]); Lit ">"].
Definition call (name : string) : re :=              (* [name\s*\(] *)
  seq_of [Str name; Star ws; Lit "("].

Definition xss_patterns : list pattern :=
  [ Pattern "<script[^>]*>.*?</script>"
      (seq_of [tag "script"; Star Any; Str "</script>"]);
    Pattern "javascript:" (Str "javascript:");
    Pattern "vbscript:" (Str "vbscript:");
    Pattern "on\w+\s*="
      (seq_of [Str "on"; Plus (OneOf false [IWord]); Star ws; Lit "="]);
    Pattern "<iframe[^>]*>" (tag "iframe");
    Pattern "<object[^>]*>" (tag "object");
    Pattern "<embed[^>]*>" (tag "embed");
    Pattern "<form[^>]*>" (tag "form") ].

Definition sql_patterns : list pattern :=
  [ Pattern "SELECT\s+.*\s+FROM"
      (seq_of [Str "SELECT"; Plus ws; Star Any; Plus ws; Str "FROM"]);
    Pattern "INSERT\s+INTO" (seq_of [Str "INSERT"; Plus ws; Str "INTO"]);
    Pattern "UPDATE\s+.*\s+SET"
      (seq_of [Str "UPDATE"; Plus ws; Star Any; Plus ws; Str "SET"]);
    Pattern "DELETE\s+FROM" (seq_of [Str "DELETE"; Plus ws; Str "FROM"]);
    Pattern "DROP\s+TABLE" (seq_of [Str "DROP"; Plus ws; Str "TABLE"]);
    Pattern "DROP\s+DATABASE" (seq_of [Str "DROP"; Plus ws; Str "DATABASE"]);
    Pattern "UNION\s+SELECT" (seq_of [Str "UNION"; Plus ws; Str "SELECT"]);
    Pattern "OR\s+1\s*=\s*1"
      (seq_of [Str "OR"; Plus ws; Lit "1"; Star ws; Lit "="; Star ws; Lit "1"]);
    Pattern "'\s*OR\s*'.*'\s*=\s*'"
      (seq_of [Lit "'"; Star ws; Str "OR"; Star ws; Lit "'"; Star Any;
               Lit "'"; Star ws; Lit "="; Star ws; Lit "'"]) ].

Definition command_patterns : list pattern :=
  [ Pattern ";\s*rm\s+-rf" (seq_of [Lit ";"; Star ws; Str "rm"; Plus ws; Str "-rf"]);
    Pattern ";\s*cat\s+/etc/"
      (seq_of [Lit ";"; Star ws; Str "cat"; Plus ws; Str "/etc/"]);
    Pattern ";\s*wget\s+" (seq_of [Lit ";"; Star ws; Str "wget"; Plus ws]);
    Pattern ";\s*curl\s+" (seq_of [Lit ";"; Star ws; Str "curl"; Plus ws]);
    Pattern "\|\s*nc\s+" (seq_of [Lit "|"; Star ws; Str "nc"; Plus ws]);
    Pattern "&&\s*rm\s+" (seq_of [Str "&&"; Star ws; Str "rm"; Plus ws]) ].

Definition path_patterns : list pattern :=
  [ Pattern "\.\./" (Str "../");
    Pattern "\.\.\\" (seq_of [Str ".."; Lit backslash]);
    Pattern "/etc/passwd" (Str "/etc/passwd");
    Pattern "/etc/shadow" (Str "/etc/shadow");
    Pattern "C:\\Windows" (seq_of [Str "C:"; Lit backslash; Str "Windows"]) ].

Definition code_patterns : list pattern :=
  [ Pattern "eval\s*\(" (call "eval");
    Pattern "exec\s*\(" (call "exec");
    Pattern "system\s*\(" (call "system");
    Pattern "shell_exec\s*\(" (call "shell_exec");
    Pattern "base64_decode\s*\(" (call "base64_decode") ].

Definition _load_suspicious_patterns : list pattern :=
  xss_patterns ++ sql_patterns ++ command_patterns ++ path_patterns
  ++ code_patterns.

Definition __init__ : t :=
  {| limits := SecurityLimits.default;
     suspicious_patterns := _load_suspicious_patterns;
     api_call_tracker := ∅ |}.

Inductive warning :=
| SuspiciousColumn (col : string)
| VeryLargeCells (col : string) (max_cell_size : Z)
| MayContainPII (col : string) (pii_type : string).

Inductive error :=
| TooManyRows (rows limit : Z)
| TooManyColumns (columns limit : Z)
| ValidationError (e : exn).

(** The dict [validation_result]. *)
Record validation_result := ValidationResult {
  safe : bool;
  warnings : list warning;
  errors : list error;
  suspicious_columns : list string
}.

Definition add_warning (w : warning) (v : validation_result) :=
  ValidationResult (safe v) (warnings v ++ [w]) (errors v) (suspicious_columns v).
Definition add_error (e : error) (v : validation_result) :=
  ValidationResult (safe v) (warnings v) (errors v ++ [e]) (suspicious_columns v).
Definition add_suspicious (col : string) (v : validation_result) :=
  ValidationResult (safe v) (warnings v) (errors v) (suspicious_columns v ++ [col]).
Definition set_unsafe (v : validation_result) :=
  ValidationResult false (warnings v) (errors v) (suspicious_columns v).

(** One round of the loop over [self.suspicious_patterns]. *)
Definition pattern_found (column_str : list string) (p : pattern) : bool :=
  any (str_contains true (compiled p) column_str).

(** The [except] branch answers [True]. *)
Definition _scan_column_for_threats (self : t) (column : list (option pyobj)) : bool :=
  match astype_str (dropna column) with
  | Ok column_str => existsb (pattern_found column_str) (suspicious_patterns self)
  | Raise _ => true
  end.

Definition pii_patterns : list (string * pattern) :=
  [ ("email",
     Pattern "[a-zA-Z0-9._%+-]+@[a-zA-Z0-9.-]+\.[a-zA-Z]{2,}"
       (seq_of [Plus (OneOf false [IRange "a" "z"; IRange "A" "Z"; IRange "0" "9";
                                   IChar "."; IChar "_"; IChar "%"; IChar "+";
                                   IChar "-"]);
                Lit "@";
                Plus (OneOf false [IRange "a" "z"; IRange "A" "Z"; IRange "0" "9";
                                   IChar "."; IChar "-"]);
                Lit ".";
                AtLeast 2 (OneOf false [IRange "a" "z"; IRange "A" "Z"])]));
    ("phone",
     Pattern "\b\d{3}[-.]?\d{3}[-.]?\d{4}\b"
       (seq_of [WordB; Rep 3 digit; Opt (OneOf false [IChar "-"; IChar "."]);
                Rep 3 digit; Opt (OneOf false [IChar "-"; IChar "."]);
                Rep 4 digit; WordB]));
    ("ssn",
     Pattern "\b\d{3}-\d{2}-\d{4}\b"
       (seq_of [WordB; Rep 3 digit; Lit "-"; Rep 2 digit; Lit "-"; Rep 4 digit;
                WordB]));
    ("credit_card",
     Pattern "\b\d{4}[-\s]?\d{4}[-\s]?\d{4}[-\s]?\d{4}\b"
       (seq_of [WordB; Rep 4 digit; Opt (OneOf false [IChar "-"; ISpace]);
                Rep 4 digit; Opt (OneOf false [IChar "-"; ISpace]);
                Rep 4 digit; Opt (OneOf false [IChar "-"; ISpace]);
                Rep 4 digit; WordB])) ].

(** The warnings one column contributes, in the order of the dict. *)
Definition pii_warnings_of (col : string) (col_data : list string) : list warning :=
  flat_map (fun tp : string * pattern =>
              if any (str_contains false (compiled (snd tp)) col_data)
              then [MayContainPII col (fst tp)] else [])
           pii_patterns.

Fixpoint check_pii_columns (string_columns : list (string * list (option pyobj)))
  : result (list warning) :=
  match string_columns with
  | [] => Ok []
  | (col, cells) :: rest =>
      col_data ← astype_str (dropna cells);
      ws ← check_pii_columns rest;
      Ok (pii_warnings_of col col_data ++ ws)
  end.

Definition _check_for_pii (df : DataFrame) : result (list warning) :=
  check_pii_columns (object_columns df).

(** "Check data size limits" *)
Definition check_size_limits (self : t) (df : DataFrame) (v : validation_result)
  : validation_result :=
  let rows := Z.of_nat (len df) in
  let columns := Z.of_nat (ncols df) in
  let v := if (SecurityLimits.MAX_ROWS (limits self) <? rows)%Z
           then set_unsafe (add_error (TooManyRows rows (SecurityLimits.MAX_ROWS (limits self))) v)
           else v in
  if (SecurityLimits.MAX_COLUMNS (limits self) <? columns)%Z
  then set_unsafe (add_error (TooManyColumns columns (SecurityLimits.MAX_COLUMNS (limits self))) v)
  else v.

(** "Check for suspicious content in string columns" *)
Fixpoint check_suspicious (self : t) (string_columns : list (string * list (option pyobj)))
  (v : validation_result) : validation_result :=
  match string_columns with
  | [] => v
  | (col, cells) :: rest =>
      let v := if _scan_column_for_threats self cells
               then add_warning (SuspiciousColumn col) (add_suspicious col v)
               else v in
      check_suspicious self rest v
  end.

(** "Check cell sizes": the dict as the loop left it, and the exception
    that stopped it, if any. *)
Fixpoint check_cell_sizes (self : t) (string_columns : list (string * list (option pyobj)))
  (v : validation_result) : validation_result * option exn :=
  match string_columns with
  | [] => (v, None)
  | (col, cells) :: rest =>
      match astype_str (dropna cells) with
      | Raise e => (v, Some e)
      | Ok strs =>
          let max_cell_size := max (str_len strs) in
          let v := if gt max_cell_size (SecurityLimits.MAX_CELL_SIZE_CHARS (limits self))
                   then add_warning (VeryLargeCells col (default 0%Z max_cell_size)) v
                   else v in
          check_cell_sizes self rest v
      end
  end.

(** The [except] branch of [validate_data_content]. *)
Definition validation_failed (v : validation_result) (e : exn) : validation_result :=
  add_error (ValidationError e) (set_unsafe v).

Definition validate_data_content (self : t) (df : DataFrame) : validation_result :=
  let v := ValidationResult true [] [] [] in
  let v := check_size_limits self df v in
  let string_columns := object_columns df in
  let v := check_suspicious self string_columns v in
  match check_cell_sizes self string_columns v with
  | (v, Some e) => validation_failed v e
  | (v, None) =>
      match _check_for_pii df with
      | Raise e => validation_failed v e
      | Ok pii_warnings =>
          ValidationResult (safe v) (warnings v ++ pii_warnings) (errors v)
                           (suspicious_columns v)
      end
  end.

(** The two dicts [validate_api_usage] returns. *)
Inductive usage :=
| Allowed (remaining_calls : Z)
| RateLimited (limit : Z) (retry_after : Q).

Definition allowed (u : usage) : bool :=
  match u with
  | Allowed _ => true
  | RateLimited _ _ => false
  end.

(** [int(current_time // 60)] and [current_time % 60] *)
Definition minute_of (current_time : Q) : Z := Qfloor (current_time / 60).
Definition seconds_into_minute (current_time : Q) : Q :=
  current_time - 60 * inject_Z (minute_of current_time).

(** "Clean old entries": the keys below [current_minute - 1] are
    collected, then deleted one by one. *)
Definition old_minutes (user_tracker : gmap Z Z) (current_minute : Z) : list Z :=
  List.filter (fun minute => (minute <? current_minute - 1)%Z)
              (elements (dom user_tracker)).

Definition clean_old_entries (user_tracker : gmap Z Z) (current_minute : Z) : gmap Z Z :=
  foldr delete user_tracker (old_minutes user_tracker current_minute).

Definition set_tracker (self : t) (tr : gmap string (gmap Z Z)) : t :=
  Make (limits self) (suspicious_patterns self) tr.

(** [current_time] is the value [time.time()] returns. The dict of the
    user is shared with [self.api_call_tracker], so every change to it
    is written back. *)
Definition validate_api_usage (self : t) (current_time : Q) (user_id : string)
  : usage * t :=
  let current_minute := minute_of current_time in
  let tracker :=
    match api_call_tracker self !! user_id with
    | None => <[user_id := ∅]> (api_call_tracker self)
    | Some _ => api_call_tracker self
    end in
  let user_tracker := default ∅ (tracker !! user_id) in
  let user_tracker := clean_old_entries user_tracker current_minute in
  let current_calls := default 0%Z (user_tracker !! current_minute) in
  let limit := SecurityLimits.MAX_API_CALLS_PER_MINUTE (limits self) in
  if (limit <=? current_calls)%Z then
    (RateLimited limit (60 - seconds_into_minute current_time),
     set_tracker self (<[user_id := user_tracker]> tracker))
  else
    let user_tracker := <[current_minute := (current_calls + 1)%Z]> user_tracker in
    (Allowed (limit - (current_calls + 1)),
     set_tracker self (<[user_id := user_tracker]> tracker)).

(** Consecutive calls for one user at the given clock readings. *)
Fixpoint calls (self : t) (user_id : string) (times : list Q) : list usage * t :=
  match times with
  | [] => ([], self)
  | now :: times' =>
      let '(u, self1) := validate_api_usage self now user_id in
      let '(us, self2) := calls self1 user_id times' in
      (u :: us, self2)
  end.

(** Calls of several users, each with its clock reading. *)
Fixpoint run (self : t) (trace : list (string * Q)) : t :=
  match trace with
  | [] => self
  | (user_id, now) :: trace' =>
      run (snd (validate_api_usage self now user_id)) trace'
  end.

(** ** validate_session_security *)

(** What the function reads of [st.session_state]: the bytes
    [memory_usage(deep=True).sum()] reports for [data], when there is
    data, and [session_start], when it is set. *)
Record session_state := SessionState {
  data_size : option Z;
  session_start : option Q
}.

Inductive session_warning :=
| LargeDataset
| LongSession.

(** The dict [{'secure': ..., 'warnings': ..., 'errors': ...}]. *)
Record session_validation := SessionValidation {
  secure : bool;
  session_warnings : list session_warning;
  session_errors : list string
}.

(** [current_time] is the value [time.time()] returns. *)
Definition validate_session_security (self : t) (state : session_state)
  (current_time : Q) : session_validation * session_state :=
  let warnings1 :=
    match data_size state with
    | Some size => if (100 * 1024 * 1024 <? size)%Z then [LargeDataset] else []
    | None => []
    end in
  match session_start state with
  | None =>
      (SessionValidation true warnings1 [],
       SessionState (data_size state) (Some current_time))
  | Some start =>
      let session_duration := (current_time - start)%Q in
      let warnings2 :=
        if negb (Qle_bool session_duration
                   (inject_Z (SecurityLimits.SESSION_TIMEOUT_HOURS (limits self) * 3600)))
        then [LongSession] else [] in
      (SessionValidation true (warnings1 ++ warnings2) [], state)
  end.

(** ** get_security_recommendations *)

Inductive recommendation :=
| StoreApiKeySecurely
| ClearSessionData
| AvoidSensitiveUploads
| UseHttps
| ReviewBeforeSharing
| ReviewFlaggedColumns
| ConsiderSampling
| CautionWithTextColumns.

Definition general_recommendations : list recommendation :=
  [StoreApiKeySecurely; ClearSessionData; AvoidSensitiveUploads; UseHttps;
   ReviewBeforeSharing].

Definition is_empty {A} (l : list A) : bool :=
  match l with [] => true | _ => false end.

Definition get_security_recommendations (self : t) (df : option DataFrame)
  : list recommendation :=
  let recommendations := general_recommendations in
  match df with
  | None => recommendations
  | Some df =>
      let validation := validate_data_content self df in
      let recommendations :=
        if negb (is_empty (warnings validation))
        then recommendations ++ [ReviewFlaggedColumns] else recommendations in
      let recommendations :=
        if (10000 <? Z.of_nat (len df))%Z
        then recommendations ++ [ConsiderSampling] else recommendations in
      let string_cols := object_columns df in
      if (0 <? length string_cols)%nat
      then recommendations ++ [CautionWithTextColumns] else recommendations
  end.

End SecurityConfig.

(* ===================================================================== *)
(** * IEEE 754 binary64: Python's [float] and numpy's [float64] *)
(* ===================================================================== *)

Module Float64.

(** A float: a number, an infinity or [nan]. The two zeros are not
    told apart. *)
Inductive t :=
| Finite (q : Q)
| PInf
| NInf
| NaN.

(** [floor (log2 x)] for [0 < x]. *)
Definition ilog2 (x : Q) : Z :=
  let k := (Z.log2 (Qnum x) - Z.log2 (Zpos (Qden x)))%Z in
  if Qle_bool (2 ^ k) x then k else (k - 1)%Z.

(** The nearest integer, a tie going to the even one. *)
Definition round_half_even (x : Q) : Z :=
  let f := Qfloor x in
  match (x - inject_Z f ?= 1 # 2)%Q with
  | Lt => f
  | Gt => (f + 1)%Z
  | Eq => if Z.even f then f else (f + 1)%Z
  end.

(** The distance between the floats around [x], for [0 < x]: a
    significand of 53 bits, exponents from -1022 on. *)
Definition ulp (x : Q) : Q := 2 ^ (Z.max (ilog2 x) (-1022) - 52).

(** The float nearest to [x], for [0 < x], before overflow. *)
Definition nearest (x : Q) : Q :=
  inject_Z (round_half_even (x / ulp x)) * ulp x.

(** The float an operation returns when its exact result is [x]:
    rounded to nearest, ties to even, an infinity from [2 ^ 1024]
    on. *)
Definition of_Q (x : Q) : t :=
  let x := Qred x in
  match Qnum x with
  | Z0 => Finite 0
  | Zpos _ =>
      let y := nearest x in
      if Qle_bool (2 ^ 1024) y then PInf else Finite (Qred y)
  | Zneg _ =>
      let y := nearest (- x) in
      if Qle_bool (2 ^ 1024) y then NInf else Finite (Qred (- y))
  end.

(** The conversion of a Python [int] or a numpy [int64]. *)
Definition of_int (n : Z) : t := of_Q (inject_Z n).


Definition opp (a : t) : t :=
  match a with
  | Finite x => Finite (- x)
  | PInf => NInf
  | NInf => PInf
  | NaN => NaN
  end.

Definition add (a b : t) : t :=
  match a, b with
  | NaN, _ | _, NaN => NaN
  | PInf, NInf | NInf, PInf => NaN
  | PInf, _ | _, PInf => PInf
  | NInf, _ | _, NInf => NInf
  | Finite x, Finite y => of_Q (x + y)
  end.

Definition sub (a b : t) : t := add a (opp b).

(** The infinity with the sign of [x], [nan] for zero. *)
Definition signed_inf (x : Q) : t :=
  match (x ?= 0)%Q with
  | Gt => PInf
  | Lt => NInf
  | Eq => NaN
  end.

Definition mul (a b : t) : t :=
  match a, b with
  | NaN, _ | _, NaN => NaN
  | Finite x, Finite y => of_Q (x * y)
  | Finite x, PInf | PInf, Finite x => signed_inf x
  | Finite x, NInf | NInf, Finite x => signed_inf (- x)
  | PInf, PInf | NInf, NInf => PInf
  | PInf, NInf | NInf, PInf => NInf
  end.

(** numpy's division: a division by zero gives an infinity or [nan],
    with a warning and without an exception. *)
Definition div (a b : t) : t :=
  match a, b with
  | NaN, _ | _, NaN => NaN
  | Finite x, Finite y =>
      match (y ?= 0)%Q with
      | Eq => signed_inf x
      | _ => of_Q (x / y)
      end
  | Finite _, PInf | Finite _, NInf => Finite 0
  | PInf, Finite y => if Qle_bool 0 y then PInf else NInf
  | NInf, Finite y => if Qle_bool 0 y then NInf else PInf
  | _, _ => NaN
  end.

(** [a < b]: false when either side is [nan]. *)
Definition ltb (a b : t) : bool :=
  match a, b with
  | NaN, _ | _, NaN => false
  | Finite x, Finite y => negb (Qle_bool y x)
  | Finite _, PInf | NInf, Finite _ | NInf, PInf => true
  | _, _ => false
  end.

(** The text of the format [.2f]: the number of hundredths nearest to
    the float, with its sign, or [inf], [-inf], [nan]. *)
Inductive fixed2 :=
| Decimal (negative : bool) (hundredths : Z)
| InfText (negative : bool)
| NanText.

Definition format_2f (a : t) : fixed2 :=
  match a with
  | Finite x => Decimal (negb (Qle_bool 0 x)) (round_half_even (Qabs x * 100))
  | PInf => InfText false
  | NInf => InfText true
  | NaN => NanText
  end.

End Float64.

(* ===================================================================== *)
(** * utils/data_processor.py : class DataProcessor *)
(* ===================================================================== *)

Module DataProcessor.
Import Py Pandas.

(** ** Order statistics of a numeric column *)

Fixpoint insert_sorted (x : Q) (l : list Q) : list Q :=
  match l with
  | [] => [x]
  | y :: l' => if Qle_bool x y then x :: l else y :: insert_sorted x l'
  end.

Definition sort_values (l : list Q) : list Q := foldr insert_sorted [] l.

(** The two calls of the source: [quantile(0.25)] and
    [quantile(0.75)]. *)
Inductive quartile := first_quartile | third_quartile.

Definition fraction (k : quartile) : Q :=
  match k with
  | first_quartile => 1 # 4
  | third_quartile => 3 # 4
  end.

(** numpy's [_lerp(a, b, t)]: [a + (b - a) * t], and
    [b - (b - a) * (1 - t)] where [t >= 0.5], in float64. *)
Definition lerp (a b : Float64.t) (t : Q) : Float64.t :=
  let diff_b_a := Float64.sub b a in
  if Qle_bool (1 # 2) t
  then Float64.sub b (Float64.mul diff_b_a (Float64.of_Q (1 - t)))
  else Float64.add a (Float64.mul diff_b_a (Float64.of_Q t)).

(** [Series.quantile(q)] with the default linear interpolation, as
    numpy's [percentile] computes it: missing cells are skipped; with
    [n] values the virtual index is [(n-1)*q], a multiple of 1/4 that
    float64 holds exactly; the values at the index below and at the
    next one are interpolated by [_lerp]; at the last index both are
    the last value and the weight is the index plus 1; [nan] when
    there is no value. The values are floats; for whole numbers below
    [2 ^ 53] in absolute value a column of dtype [int64], whose
    differences [_lerp] takes in [int64] before it converts them,
    gives the same. *)
Definition quantile (xs : list (option Q)) (k : quartile) : Float64.t :=
  let arr := sort_values (dropna xs) in
  match arr with
  | [] => Float64.NaN
  | v0 :: _ =>
      let n := length arr in
      let virtual_index := (inject_Z (Z.of_nat (n - 1)) * fraction k)%Q in
      if Qle_bool (inject_Z (Z.of_nat (n - 1))) virtual_index
      then
        let last := Float64.Finite (nth (n - 1) arr v0) in
        lerp last last (virtual_index + 1)
      else
        let previous := Z.to_nat (Qfloor virtual_index) in
        lerp (Float64.Finite (nth previous arr v0))
             (Float64.Finite (nth (S previous) arr v0))
             (virtual_index - inject_Z (Qfloor virtual_index))
  end.

(** [Series.median()] *)
Definition median (xs : list (option Q)) : option Q :=
  let vals := sort_values (dropna xs) in
  match vals with
  | [] => None
  | v0 :: _ =>
      let n := length vals in
      if Nat.even n
      then Some ((nth (n / 2 - 1) vals v0 + nth (n / 2) vals v0) / 2)%Q
      else Some (nth (n / 2) vals v0)
  end.

Definition Qlt_bool (x y : Q) : bool := negb (Qle_bool y x).

(** The Tukey fences [(lower_bound, upper_bound)], in float64. *)
Definition bounds (xs : list (option Q)) : Float64.t * Float64.t :=
  let Q1 := quantile xs first_quartile in
  let Q3 := quantile xs third_quartile in
  let IQR := Float64.sub Q3 Q1 in
  (Float64.sub Q1 (Float64.mul (Float64.Finite (3 # 2)) IQR),
   Float64.add Q3 (Float64.mul (Float64.Finite (3 # 2)) IQR)).

(** [(x < lower_bound) | (x > upper_bound)] for one cell: a comparison
    with [NaN] on either side is false. *)
Definition outside (b : Float64.t * Float64.t) (x : option Q) : bool :=
  match x with
  | Some v =>
      Float64.ltb (Float64.Finite v) (fst b) || Float64.ltb (snd b) (Float64.Finite v)
  | None => false
  end.

(** ** generate_quality_report *)

(** The exceptions that escape the report and the profiles:
    [ZeroDivisionError], the [TypeError] of a quantile of truth
    values, and what [astype(str)] raises. *)
Inductive raised :=
| DivisionByZero
| BoolQuantile
| StrError (e : exn).

(** [df.isnull().sum().sum()] *)
Definition total_nulls (df : DataFrame) : nat :=
  list_sum (map (fun nc => count_true (isnull (snd nc))) df).

(** [(nulls / (len(df) * len(df.columns))) * 100]: the count is a
    numpy integer, so that the quotient is taken in float64, [nan]
    for [0 / 0]. *)
Definition missing_percentage (df : DataFrame) : Float64.t :=
  let cells := (len df * ncols df)%nat in
  Float64.mul
    (Float64.div (Float64.of_int (Z.of_nat (total_nulls df)))
                 (Float64.of_int (Z.of_nat cells)))
    (Float64.of_int 100).

(** One round of the loop over [numeric_cols]:
    [len(df[(df[col] < lower_bound) | (df[col] > upper_bound)])]. *)
Definition outlier_rows (xs : list (option Q)) : nat :=
  let b := bounds xs in
  count_true (map (outside b) xs).

Definition total_outliers (df : DataFrame) : nat :=
  fold_left (fun total nc => (total + outlier_rows (snd nc))%nat)
            (number_columns df) O.

(** A cell of any dtype, to compare rows. *)
Inductive cell :=
| CNull
| CNum (q : Q)
| CObj (o : pyobj)
| CTime (ns : Z)
| CBool (b : bool).

Definition opt_cell {A} (f : A -> cell) (x : option A) : cell :=
  match x with
  | Some a => f a
  | None => CNull
  end.

Definition cells_of (c : column) : list cell :=
  match c with
  | ColNumber xs => map (opt_cell CNum) xs
  | ColObject xs => map (opt_cell CObj) xs
  | ColDatetime xs => map (opt_cell CTime) xs
  | ColBool xs => map CBool xs
  end.

Definition pyobj_eqb (a b : pyobj) : bool :=
  match a, b with
  | PStr s, PStr t => String.eqb s t
  | PObj i _, PObj j _ => (i =? j)%nat
  | _, _ => false
  end.

(** Equality of cells as [duplicated] sees it: missing equals missing. *)
Definition cell_eqb (a b : cell) : bool :=
  match a, b with
  | CNull, CNull => true
  | CNum x, CNum y => Qeq_bool x y
  | CObj x, CObj y => pyobj_eqb x y
  | CTime x, CTime y => (x =? y)%Z
  | CBool x, CBool y => Bool.eqb x y
  | _, _ => false
  end.

Fixpoint row_eqb (r1 r2 : list cell) : bool :=
  match r1, r2 with
  | [], [] => true
  | a :: r1', b :: r2' => cell_eqb a b && row_eqb r1' r2'
  | _, _ => false
  end.

Definition row (df : DataFrame) (i : nat) : list cell :=
  map (fun nc => nth i (cells_of (snd nc)) CNull) df.

Definition rows (df : DataFrame) : list (list cell) :=
  map (row df) (seq 0 (len df)).

(** [duplicated()] with [keep='first']: a row is marked when an equal
    row came before it. *)
Fixpoint duplicated_after (seen : list (list cell)) (rs : list (list cell))
  : list bool :=
  match rs with
  | [] => []
  | r :: rs' => existsb (row_eqb r) seen :: duplicated_after (r :: seen) rs'
  end.

Definition duplicated (df : DataFrame) : list bool :=
  duplicated_after [] (rows df).

(** The entries of the report that are counts, and the text of the
    missing-data percentage, [f"{missing_percentage:.2f}%"], without
    its percent sign. *)
Record quality_metrics := QualityMetrics {
  missing_data_percentage : Float64.fixed2;
  duplicate_rows : nat;
  potential_outliers : nat
}.

(** The loop over [categorical_cols] divides the Python [int]
    [df[col].nunique()] by [len(df)]: with a text column and no row
    it raises [ZeroDivisionError]. *)
Definition generate_quality_report (df : DataFrame) : raised + quality_metrics :=
  let missing_percentage := missing_percentage df in
  let duplicate_count := count_true (duplicated df) in
  let categorical_cols := object_columns df in
  if (0 <? length categorical_cols)%nat && (len df =? 0)%nat
  then inl DivisionByZero
  else
    inr {| missing_data_percentage := Float64.format_2f missing_percentage;
           duplicate_rows := duplicate_count;
           potential_outliers := total_outliers df |}.

(** ** generate_column_profiles *)

(** The entries of a profile that are counts; [outlier_count] is
    present for a column of numbers only. *)
Record profile := Profile {
  name : string;
  count : nat;
  null_count : nat;
  outlier_count : option nat
}.

(** [len(col_data[(col_data < lower_bound) | (col_data > upper_bound)])] *)
Definition outliers (col_data : list (option Q)) : list (option Q) :=
  let b := bounds col_data in
  List.filter (outside b) col_data.

(** One round of the loop over [df.columns]. The entry
    [unique_percentage] divides the Python [int] [col_data.nunique()]
    by [len(df)]; the branch for a numeric dtype is taken for [bool]
    as well, where [quantile] raises; the branch for [object] converts
    the cells to [str]. *)
Definition column_profile (rows : nat) (col : string) (col_data : column)
  : raised + profile :=
  let base := Profile col (col_len col_data - count_true (isnull col_data))%nat
                      (count_true (isnull col_data)) in
  if (rows =? 0)%nat then inl DivisionByZero
  else
    match col_data with
    | ColNumber xs => inr (base (Some (length (outliers xs))))
    | ColBool _ => inl BoolQuantile
    | ColObject cells =>
        match astype_str (dropna cells) with
        | Ok _ => inr (base None)
        | Raise e => inl (StrError e)
        end
    | ColDatetime _ => inr (base None)
    end.

Fixpoint profiles_of (rows : nat) (columns : DataFrame)
  : raised + list (string * profile) :=
  match columns with
  | [] => inr []
  | (col, col_data) :: rest =>
      match column_profile rows col col_data with
      | inl e => inl e
      | inr profile =>
          match profiles_of rows rest with
          | inl e => inl e
          | inr profiles => inr ((col, profile) :: profiles)
          end
      end
  end.

Definition generate_column_profiles (df : DataFrame)
  : raised + list (string * profile) :=
  profiles_of (len df) df.

(** ** clean_data *)

(** Rows kept by a boolean mask, as in [series[mask]]. *)
Fixpoint select {A} (mask : list bool) (xs : list A) : list A :=
  match mask, xs with
  | true :: mask', x :: xs' => x :: select mask' xs'
  | false :: mask', _ :: xs' => select mask' xs'
  | _, _ => []
  end.

Definition select_rows (mask : list bool) (c : column) : column :=
  match c with
  | ColNumber xs => ColNumber (select mask xs)
  | ColObject xs => ColObject (select mask xs)
  | ColDatetime xs => ColDatetime (select mask xs)
  | ColBool xs => ColBool (select mask xs)
  end.

(** [df.drop_duplicates()]: the rows that [duplicated] does not mark. *)
Definition drop_duplicates (df : DataFrame) : DataFrame :=
  let keep := map negb (duplicated df) in
  map (fun nc => (fst nc, select_rows keep (snd nc))) df.

(** [Series.fillna(value)] *)
Definition fillna {A} (value : option A) (xs : list (option A)) : list (option A) :=
  map (fun x => match x with None => value | Some _ => x end) xs.

Definition occurrences (o : pyobj) (vals : list pyobj) : nat :=
  length (List.filter (pyobj_eqb o) vals).

Fixpoint distinct (vals : list pyobj) : list pyobj :=
  match vals with
  | [] => []
  | v :: vals' =>
      if existsb (pyobj_eqb v) vals' then distinct vals' else v :: distinct vals'
  end.

(** The order in which [mode] lists its values: texts in the order of
    [str], before the other objects. *)
Definition pyobj_leb (a b : pyobj) : bool :=
  match a, b with
  | PStr s, PStr t => String.leb s t
  | PStr _, PObj _ _ => true
  | PObj _ _, PStr _ => false
  | PObj i _, PObj j _ => (i <=? j)%nat
  end.

Fixpoint insert_obj (x : pyobj) (l : list pyobj) : list pyobj :=
  match l with
  | [] => [x]
  | y :: l' => if pyobj_leb x y then x :: l else y :: insert_obj x l'
  end.

(** [Series.mode()]: the most frequent values among the cells that are
    not missing, sorted. *)
Definition mode (xs : list (option pyobj)) : list pyobj :=
  let vals := dropna xs in
  let best := foldr Nat.max O (map (fun v => occurrences v vals) vals) in
  foldr insert_obj []
        (distinct (List.filter (fun v => (occurrences v vals =? best)%nat) vals)).

Fixpoint get_column (col : string) (df : DataFrame) : option column :=
  match df with
  | [] => None
  | (n, c) :: df' => if String.eqb n col then Some c else get_column col df'
  end.

Fixpoint set_column (col : string) (c : column) (df : DataFrame) : DataFrame :=
  match df with
  | [] => []
  | (n, c0) :: df' =>
      if String.eqb n col then (n, c) :: df' else (n, c0) :: set_column col c df'
  end.

(** DataFrames are objects: a variable holds a reference into the
    store of frames. *)
Abbreviation ref := nat.
Abbreviation store := (gmap nat DataFrame).

Definition alloc (h : store) (df : DataFrame) : ref * store :=
  let r := fresh (dom h) in (r, <[r := df]> h).

Definition deref (h : store) (r : ref) : DataFrame := default [] (h !! r).

(** The dict [cleaning_options]; [options.get(key, False)]. *)
Definition default_options : gmap string bool :=
  list_to_map [("remove_duplicates", true); ("fill_numeric_missing", false);
               ("fill_categorical_missing", false); ("remove_outliers", false)].

Definition get (cleaning_options : gmap string bool) (key : string) : bool :=
  default false (cleaning_options !! key).

(** One round of "Fill missing values in numeric columns":
    [cleaned_df[col].fillna(median_value, inplace=True)] writes into
    the frame [cleaned_df] refers to. *)
Definition fill_numeric (cleaned_df : ref) (h : store) (col : string) : store :=
  match h !! cleaned_df with
  | Some frame =>
      match get_column col frame with
      | Some (ColNumber xs) =>
          if any (isnull_cells xs)
          then
            let median_value := median xs in
            <[cleaned_df := set_column col (ColNumber (fillna median_value xs)) frame]> h
          else h
      | _ => h
      end
  | None => h
  end.

(** One round of "Fill missing values in categorical columns". *)
Definition fill_categorical (cleaned_df : ref) (h : store) (col : string) : store :=
  match h !! cleaned_df with
  | Some frame =>
      match get_column col frame with
      | Some (ColObject xs) =>
          if any (isnull_cells xs)
          then
            let mode_value :=
              match mode xs with
              | m :: _ => m
              | [] => PStr "Unknown"
              end in
            <[cleaned_df := set_column col (ColObject (fillna (Some mode_value) xs)) frame]> h
          else h
      | _ => h
      end
  | None => h
  end.

(** What [clean_data] leaves behind: the reference it returns, the
    store, and the number it printed in "Removed N duplicate rows". *)
Record cleaned := Cleaned {
  result_ref : ref;
  result_store : store;
  printed : option nat
}.

(** "Remove duplicates": [cleaned_df = cleaned_df.drop_duplicates()]
    binds the variable to a new frame. *)
Definition remove_duplicates (cleaned_df : ref) (h : store)
  : ref * store * option nat :=
  let initial_rows := len (deref h cleaned_df) in
  let '(r, h') := alloc h (drop_duplicates (deref h cleaned_df)) in
  let rows_removed := (initial_rows - len (deref h' r))%nat in
  (r, h', if (0 <? rows_removed)%nat then Some rows_removed else None).

(** "Fill missing values in numeric columns" *)
Definition fill_numeric_missing (cleaned_df : ref) (h : store) : store :=
  let numeric_cols := map fst (number_columns (deref h cleaned_df)) in
  foldl (fill_numeric cleaned_df) h numeric_cols.

(** "Fill missing values in categorical columns" *)
Definition fill_categorical_missing (cleaned_df : ref) (h : store) : store :=
  let categorical_cols := map fst (object_columns (deref h cleaned_df)) in
  foldl (fill_categorical cleaned_df) h categorical_cols.

(** [clean_data(df, cleaning_options)]; [None] when [df] is not a
    reference of the store. *)
Definition clean_data (h : store) (df : ref)
  (cleaning_options : option (gmap string bool)) : option cleaned :=
  let cleaning_options := default default_options cleaning_options in
  frame ← h !! df;
  (* cleaned_df = df.copy() *)
  let '(cleaned_df, h) := alloc h frame in
  let '(cleaned_df, h, out) :=
    if get cleaning_options "remove_duplicates"
    then remove_duplicates cleaned_df h
    else (cleaned_df, h, None) in
  let h :=
    if get cleaning_options "fill_numeric_missing"
    then fill_numeric_missing cleaned_df h
    else h in
  let h :=
    if get cleaning_options "fill_categorical_missing"
    then fill_categorical_missing cleaned_df h
    else h in
  Some (Cleaned cleaned_df h out).

(** ** detect_data_types *)

(** The exceptions the function lets escape. *)
Inductive failure :=
| ZeroDivisionError
| ConversionError (e : exn).

(** The dict [type_categories]. *)
Record type_categories := TypeCategories {
  numeric : list string;
  categorical : list string;
  datetime : list string;
  boolean : list string;
  text : list string;
  mixed : list string
}.

Inductive category := Numeric | Categorical | Datetime | Boolean | Text | Mixed.

(** [pd.api.types.is_numeric_dtype]: holds of [bool] as well. *)
Definition is_numeric_dtype (c : column) : bool :=
  match c with ColNumber _ | ColBool _ => true | _ => false end.
Definition is_datetime64_any_dtype (c : column) : bool :=
  match c with ColDatetime _ => true | _ => false end.
Definition is_bool_dtype (c : column) : bool :=
  match c with ColBool _ => true | _ => false end.

(** [Series.nunique()] of values that are not missing *)
Definition nunique (vals : list pyobj) : nat := length (distinct vals).

(** [Series.mean()] of integers: [NaN] on an empty series. *)
Definition mean (xs : list Z) : option Q :=
  match xs with
  | [] => None
  | _ => Some (inject_Z (fold_right Z.add 0%Z xs) / inject_Z (Z.of_nat (length xs)))%Q
  end.

(** [m < bound] and [m > bound], false when [m] is [NaN]. *)
Definition below (m : option Q) (bound : Q) : bool :=
  match m with Some v => Qlt_bool v bound | None => false end.
Definition above (m : option Q) (bound : Q) : bool :=
  match m with Some v => Qlt_bool bound v | None => false end.

(** The branch [col_data.dtype == 'object']. *)
Definition object_category (cells : list (option pyobj)) : failure + category :=
  let col_data := dropna cells in
  if (length col_data =? 0)%nat then inl ZeroDivisionError
  else
    let unique_ratio :=
      (inject_Z (Z.of_nat (nunique col_data))
       / inject_Z (Z.of_nat (length col_data)))%Q in
    match astype_str col_data with
    | Raise e => inl (ConversionError e)
    | Ok strs =>
        let avg_length := mean (str_len strs) in
        if Qlt_bool unique_ratio (1 # 10) && below avg_length 50 then inr Categorical
        else if above avg_length 100 then inr Text
        else inr Mixed
    end.

(** One round of the loop over [df.columns]. *)
Definition classify (c : column) : failure + category :=
  if is_numeric_dtype c then inr Numeric
  else if is_datetime64_any_dtype c then inr Datetime
  else if is_bool_dtype c then inr Boolean
  else
    match c with
    | ColObject cells => object_category cells
    | _ => inr Mixed
    end.

Definition append_to (k : category) (col : string) (t : type_categories)
  : type_categories :=
  match k with
  | Numeric =>
      TypeCategories (numeric t ++ [col]) (categorical t) (datetime t) (boolean t)
                     (text t) (mixed t)
  | Categorical =>
      TypeCategories (numeric t) (categorical t ++ [col]) (datetime t) (boolean t)
                     (text t) (mixed t)
  | Datetime =>
      TypeCategories (numeric t) (categorical t) (datetime t ++ [col]) (boolean t)
                     (text t) (mixed t)
  | Boolean =>
      TypeCategories (numeric t) (categorical t) (datetime t) (boolean t ++ [col])
                     (text t) (mixed t)
  | Text =>
      TypeCategories (numeric t) (categorical t) (datetime t) (boolean t)
                     (text t ++ [col]) (mixed t)
  | Mixed =>
      TypeCategories (numeric t) (categorical t) (datetime t) (boolean t)
                     (text t) (mixed t ++ [col])
  end.

Fixpoint detect_loop (df : DataFrame) (t : type_categories)
  : failure + type_categories :=
  match df with
  | [] => inr t
  | (col, c) :: df' =>
      match classify c with
      | inl e => inl e
      | inr k => detect_loop df' (append_to k col t)
      end
  end.

Definition detect_data_types (df : DataFrame) : failure + type_categories :=
  detect_loop df (TypeCategories [] [] [] [] [] []).

(** ** suggest_visualizations *)

Inductive chart :=
| scatter_plot
| correlation_heatmap
| bar_chart
| box_plot
| histogram
| pie_chart
| scatter_3d.

Inductive column_type := numeric_type | categorical_type.

(** The entries ['type'], ['columns_needed'] and ['column_types'] of a
    suggestion. *)
Record suggestion := Suggestion {
  type : chart;
  columns_needed : nat;
  column_types : list column_type
}.

(** The dict [suggestions]. *)
Record suggestions := Suggestions {
  recommended : list suggestion;
  optional : list suggestion
}.

Definition suggest_visualizations (df : DataFrame) : suggestions :=
  let numeric_cols := map fst (number_columns df) in
  let categorical_cols := map fst (object_columns df) in
  let recommended1 :=
    if (2 <=? length numeric_cols)%nat
    then [ Suggestion scatter_plot 2 [numeric_type; numeric_type];
           Suggestion correlation_heatmap (length numeric_cols) [numeric_type] ]
    else [] in
  let recommended2 :=
    if (0 <? length categorical_cols)%nat && (0 <? length numeric_cols)%nat
    then [ Suggestion bar_chart 2 [categorical_type; numeric_type];
           Suggestion box_plot 2 [categorical_type; numeric_type] ]
    else [] in
  let recommended3 :=
    if (0 <? length numeric_cols)%nat
    then [ Suggestion histogram 1 [numeric_type] ]
    else [] in
  let optional1 :=
    if (0 <? length categorical_cols)%nat
    then [ Suggestion pie_chart 1 [categorical_type] ]
    else [] in
  let optional2 :=
    if (3 <=? length numeric_cols)%nat
    then [ Suggestion scatter_3d 3 [numeric_type; numeric_type; numeric_type] ]
    else [] in
  {| recommended := recommended1 ++ recommended2 ++ recommended3;
     optional := optional1 ++ optional2 |}.

End DataProcessor.

(* ===================================================================== *)
(** ** get_data_summary *)

Module DataSummary.
Import Pandas DataProcessor.

(** The entries of the summary that are counts. *)
Record summary := Summary {
  total_rows : nat;
  total_columns : nat;
  missing_values : nat;
  duplicate_rows : nat;
  numeric_columns : nat;
  categorical_columns : nat;
  datetime_columns : nat
}.

Definition get_data_summary (df : DataFrame) : summary :=
  {| total_rows := len df;
     total_columns := ncols df;
     missing_values := total_nulls df;
     duplicate_rows := count_true (duplicated df);
     numeric_columns := length (number_columns df);
     categorical_columns := length (object_columns df);
     datetime_columns := length (SecureFileHandler.datetime_columns_of df) |}.

End DataSummary.

(** * Notions of the specification *)
(* ===================================================================== *)

Module Spec.
Import Pandas.

(** The injection categories of the catalogue, by name. *)
Definition injection_categories : list (string * list pattern) :=
  [ ("script-injection", SecurityConfig.xss_patterns);
    ("sql-injection", SecurityConfig.sql_patterns);
    ("command-injection", SecurityConfig.command_patterns);
    ("path-traversal", SecurityConfig.path_patterns);
    ("code-execution", SecurityConfig.code_patterns) ].

(** The text matches some pattern of some injection category. *)
Definition matches_injection (s : string) : bool :=
  existsb (fun cat : string * list pattern =>
             existsb (fun p => Re.search true (compiled p) s) (snd cat))
          injection_categories.

(** The text has one of the four PII shapes. *)
Definition pii_shaped (s : string) : bool :=
  existsb (fun tp : string * pattern => Re.search false (compiled (snd tp)) s)
          SecurityConfig.pii_patterns.

(** The text consists of letters and digits. *)
Definition alphanumeric (s : string) : bool :=
  forallb Py.is_alnum (Py.chars s).

(** The text matches a signature of the upload-time scan. *)
Definition matches_upload_signature (s : string) : bool :=
  existsb (fun p => Re.search true (compiled p) s)
          SecureFileHandler.suspicious_patterns.

(** A signature written without a backslash escape. *)
Definition escape_free (p : pattern) : bool :=
  negb (Py.contains (String SecureFileHandler.backslash "") (source p)).

(** The text contains SELECT ... FROM, in any case. *)
Definition select_from (s : string) : bool :=
  Re.search true (Re.seq_of [Re.Str "SELECT"; Re.Star Re.Any; Re.Str "FROM"]) s.

(** The text is at most 10,000 characters long. *)
Definition within_cell_limit (s : string) : bool :=
  (Z.of_nat (String.length s) <=? SecureFileHandler.max_cell_size)%Z.

(** The text passes both loops of the upload-time scan. *)
Definition passes (s : string) : bool :=
  negb (matches_upload_signature s) && within_cell_limit s.

(** A loop of the upload-time scan stopped it: it returned a verdict
    that is not safe, or it raised. *)
Definition stopped (r : Py.result (option SecureFileHandler.scan_verdict)) : Prop :=
  match r with
  | Py.Raise _ => True
  | Py.Ok (Some v) => SecureFileHandler.safe v = false
  | Py.Ok None => False
  end.

(** The columns the in-session scan for threats flags. *)
Definition flagged (self : SecurityConfig.t)
  (cols : list (string * list (option pyobj))) : list string :=
  map fst (List.filter (fun nc => SecurityConfig._scan_column_for_threats self (snd nc))
                       cols).

(** The counters of a user, empty when the user is unknown, and the
    count in one bucket, 0 when the bucket is absent. *)
Definition user_map (self : SecurityConfig.t) (user_id : string) : gmap Z Z :=
  default ∅ (SecurityConfig.api_call_tracker self !! user_id).
Definition count (self : SecurityConfig.t) (user_id : string) (minute : Z) : Z :=
  default 0%Z (user_map self user_id !! minute).

(** [n] admissions in a row, the first one leaving [remaining - 1]. *)
Fixpoint countdown (remaining : Z) (n : nat) : list SecurityConfig.usage :=
  match n with
  | O => []
  | S n' => SecurityConfig.Allowed (remaining - 1) :: countdown (remaining - 1) n'
  end.

(** No bucket of any user lies after minute [b]. *)
Definition bounded (self : SecurityConfig.t) (b : Z) : Prop :=
  forall user_id ut k,
    SecurityConfig.api_call_tracker self !! user_id = Some ut ->
    is_Some (ut !! k) -> (k <= b)%Z.



(** [r] is a new reference of [h'], which otherwise is [h]. *)
Definition extends (h h' : gmap nat DataFrame) (r : nat) : Prop :=
  h !! r = None /\ is_Some (h' !! r)
  /\ forall r', is_Some (h !! r') -> h' !! r' = h !! r'.

(** [h'] differs from [h] in the frame of [r] at most. *)
Definition writes_only (h h' : gmap nat DataFrame) (r : nat) : Prop :=
  (is_Some (h !! r) -> is_Some (h' !! r))
  /\ forall r', r' <> r -> h' !! r' = h !! r'.

(** Every stored count lies between 1 and the limit. *)
Definition counts_within (self : SecurityConfig.t) : Prop :=
  forall user_id ut k c,
    SecurityConfig.api_call_tracker self !! user_id = Some ut ->
    ut !! k = Some c ->
    (1 <= c <= SecurityLimits.MAX_API_CALLS_PER_MINUTE (SecurityConfig.limits self))%Z.

(** The text matches a pattern of the catalogue of [self]. *)
Definition matches_catalogue (self : SecurityConfig.t) (s : string) : bool :=
  existsb (fun p => Re.search true (compiled p) s)
          (SecurityConfig.suspicious_patterns self).

(** The text gives the in-session scan nothing to report. *)
Definition unremarkable (self : SecurityConfig.t) (s : string) : bool :=
  negb (matches_catalogue self s)
  && (Z.of_nat (String.length s)
      <=? SecurityLimits.MAX_CELL_SIZE_CHARS (SecurityConfig.limits self))%Z
  && negb (pii_shaped s).

(** The warnings about large cells, column by column. *)
Definition large_cell_warnings (self : SecurityConfig.t)
  (cols : list (string * list (option pyobj))) : list SecurityConfig.warning :=
  flat_map (fun nc : string * list (option pyobj) =>
              match astype_str (dropna (snd nc)) with
              | Py.Ok strs =>
                  if gt (max (str_len strs))
                        (SecurityLimits.MAX_CELL_SIZE_CHARS (SecurityConfig.limits self))
                  then [SecurityConfig.VeryLargeCells (fst nc)
                          (default 0%Z (max (str_len strs)))]
                  else []
              | Py.Raise _ => []
              end) cols.

(** Every cell of the columns converts to [str]. *)
Definition all_convert (cols : list (string * list (option pyobj))) : bool :=
  forallb (fun nc : string * list (option pyobj) =>
             forallb (fun o => match to_str o with
                               | Py.Ok _ => true
                               | Py.Raise _ => false
                               end)
                     (dropna (snd nc))) cols.

(** The columns of dtype [object], as columns of the frame. *)
Definition is_text_column (nc : string * column) : bool :=
  match snd nc with
  | ColObject _ => true
  | _ => false
  end.
Definition text_columns (df : DataFrame) : DataFrame :=
  List.filter is_text_column df.

(** The characters the bracket of [safe_pattern] admits: letters,
    digits, [.], [_], the backslash, [(] and [)] (the letter [s] the
    bracket lists is a letter already). *)
Definition filename_char (c : ascii) : bool :=
  Py.is_alnum c
  || existsb (Ascii.eqb c) ["."; "_"; SecureFileHandler.backslash; "("; ")"]%char.

(** The bracket of [safe_pattern]. *)
Definition safe_class : Re.re :=
  Re.OneOf false
    [Re.IRange "a" "z"; Re.IRange "A" "Z"; Re.IRange "0" "9";
     Re.IChar "."; Re.IChar "_";
     Re.IRange SecureFileHandler.backslash SecureFileHandler.backslash;
     Re.IChar "s"; Re.IChar "("; Re.IChar ")"].

(** A line feed, as a text. *)
Definition line_feed : string := String Re.newline "".

(** The first [n] rows of a frame, and a frame without its first row. *)
Definition rows_n (n : nat) (df : DataFrame) : list (list DataProcessor.cell) :=
  map (DataProcessor.row df) (seq 0 n).

Definition behead_column (c : column) : column :=
  match c with
  | ColNumber xs => ColNumber (tl xs)
  | ColObject xs => ColObject (tl xs)
  | ColDatetime xs => ColDatetime (tl xs)
  | ColBool xs => ColBool (tl xs)
  end.

Definition behead (df : DataFrame) : DataFrame :=
  map (fun nc : string * column => (fst nc, behead_column (snd nc))) df.

(** The rows of a frame that a mask keeps. *)
Definition keep_rows (mask : list bool) (df : DataFrame) : DataFrame :=
  map (fun nc : string * column => (fst nc, DataProcessor.select_rows mask (snd nc))) df.

(** What the two filling loops of [clean_data] do to one column. *)
Definition fill_numeric_column (c : column) : column :=
  match c with
  | ColNumber xs =>
      if any (isnull_cells xs)
      then ColNumber (DataProcessor.fillna (DataProcessor.median xs) xs)
      else c
  | _ => c
  end.

Definition fill_categorical_column (c : column) : column :=
  match c with
  | ColObject xs =>
      if any (isnull_cells xs)
      then ColObject
             (DataProcessor.fillna
                (Some match DataProcessor.mode xs with
                      | m :: _ => m
                      | [] => PStr "Unknown"
                      end) xs)
      else c
  | _ => c
  end.

Definition map_columns (f : column -> column) (df : DataFrame) : DataFrame :=
  map (fun nc : string * column => (fst nc, f (snd nc))) df.

(** The frame [clean_data] returns, as a function of the frame it is
    given. *)
Definition cleaned_frame (cleaning_options : gmap string bool) (frame : DataFrame)
  : DataFrame :=
  let f1 := if DataProcessor.get cleaning_options "remove_duplicates"
            then DataProcessor.drop_duplicates frame else frame in
  let f2 := if DataProcessor.get cleaning_options "fill_numeric_missing"
            then map_columns fill_numeric_column f1 else f1 in
  if DataProcessor.get cleaning_options "fill_categorical_missing"
  then map_columns fill_categorical_column f2 else f2.

(** One round of a filling loop on the frame itself: the column [col]
    is replaced when [upd] says so. *)
Definition fill_step (upd : column -> option column) (frame : DataFrame)
  (col : string) : DataFrame :=
  match DataProcessor.get_column col frame with
  | Some c =>
      match upd c with
      | Some c' => DataProcessor.set_column col c' frame
      | None => frame
      end
  | None => frame
  end.

Definition numeric_update (c : column) : option column :=
  match c with
  | ColNumber xs =>
      if any (isnull_cells xs)
      then Some (ColNumber (DataProcessor.fillna (DataProcessor.median xs) xs))
      else None
  | _ => None
  end.

Definition categorical_update (c : column) : option column :=
  match c with
  | ColObject xs =>
      if any (isnull_cells xs)
      then Some (ColObject
                   (DataProcessor.fillna
                      (Some match DataProcessor.mode xs with
                            | m :: _ => m
                            | [] => PStr "Unknown"
                            end) xs))
      else None
  | _ => None
  end.

(** The column has no missing cell. *)
Definition complete (c : column) : bool := negb (any (isnull c)).

(** The column has missing cells only. *)
Definition vacant (c : column) : bool := forallb (fun b : bool => b) (isnull c).

(** [c'] has the cells of [c], except perhaps where [c] has none. *)
Definition keeps_values (c c' : column) : Prop :=
  Forall2 (fun x y : DataProcessor.cell => x = DataProcessor.CNull \/ y = x)
          (DataProcessor.cells_of c) (DataProcessor.cells_of c').

(** A text column without gaps; a column of numbers without gaps, or
    without values. *)
Definition text_complete (c : column) : bool :=
  match c with ColObject _ => complete c | _ => true end.

Definition numbers_filled (c : column) : bool :=
  match c with ColNumber _ => complete c || vacant c | _ => true end.

(** A list of numbers in ascending order. *)
Fixpoint ascending (l : list Q) : Prop :=
  match l with
  | [] => True
  | x :: l' => Forall (Qle x) l' /\ ascending l'
  end.

(** The value [quantile] reads off the sorted values [vals] at the
    fractional index [h]. *)
Definition interpolate (vals : list Q) (v0 : Q) (h : Q) : Q :=
  let n := length vals in
  let lo := Z.to_nat (Qfloor h) in
  let hi := Nat.min (S lo) (n - 1) in
  let a := nth lo vals v0 in
  let b := nth hi vals v0 in
  (a + (b - a) * (h - inject_Z (Qfloor h)))%Q.

(** The number of cells of a column that hold a number. *)
Definition values_count (xs : list (option Q)) : nat :=
  length (Pandas.dropna xs).

(** The labels of the columns that [classify] puts into category [k]. *)
Definition of_category (k : DataProcessor.category) (df : DataFrame) : list string :=
  map fst
      (List.filter
         (fun nc : string * column =>
            match DataProcessor.classify (snd nc), k with
            | inr DataProcessor.Numeric, DataProcessor.Numeric
            | inr DataProcessor.Categorical, DataProcessor.Categorical
            | inr DataProcessor.Datetime, DataProcessor.Datetime
            | inr DataProcessor.Boolean, DataProcessor.Boolean
            | inr DataProcessor.Text, DataProcessor.Text
            | inr DataProcessor.Mixed, DataProcessor.Mixed => true
            | _, _ => false
            end) df).

(** How many of the columns of a frame have a given type, and how
    often a type is listed. *)
Definition available (ty : DataProcessor.column_type) (df : DataFrame) : nat :=
  match ty with
  | DataProcessor.numeric_type => length (number_columns df)
  | DataProcessor.categorical_type => length (object_columns df)
  end.

Definition listed_times (ty : DataProcessor.column_type)
  (tys : list DataProcessor.column_type) : nat :=
  length (List.filter
            (fun ty' => match ty, ty' with
                        | DataProcessor.numeric_type, DataProcessor.numeric_type
                        | DataProcessor.categorical_type, DataProcessor.categorical_type =>
                            true
                        | _, _ => false
                        end) tys).

(** The frame has the columns a suggestion asks for. *)
Definition drawable (df : DataFrame) (s : DataProcessor.suggestion) : Prop :=
  (DataProcessor.columns_needed s <= ncols df)%nat
  /\ forall ty, (listed_times ty (DataProcessor.column_types s) <= available ty df)%nat.

(** The number of cells of a text column that hold a value. *)
Definition values_of (cells : list (option pyobj)) : nat := length (dropna cells).

(** The frames with columns that [generate_column_profiles] profiles:
    at least one row, no column of truth values, and text cells that
    convert to [str]. *)
Definition profiled (df : DataFrame) : Prop :=
  (0 < len df)%nat
  /\ Forall (fun nc : string * column => DataProcessor.is_bool_dtype (snd nc) = false) df
  /\ converts df = true.


(** A whole number of at most [2 ^ 40] in absolute value. *)
Definition small_integer (q : Q) : bool :=
  Qeq_bool q (inject_Z (Qfloor q)) && (Z.abs (Qfloor q) <=? 2 ^ 40)%Z.

(** Every number of the column is one. *)
Definition small_integers (xs : list (option Q)) : bool :=
  forallb small_integer (Pandas.dropna xs).

(** [x] is [k / d] for a whole number [k] of at most [B] in absolute
    value. *)
Definition on_grid (d : positive) (B : Z) (x : Q) : Prop :=
  exists k : Z, (x == k # d)%Q /\ (Z.abs k <= B)%Z.

(** The float [a] is the number [x]. *)
Definition exactly (a : Float64.t) (x : Q) : Prop :=
  exists y : Q, a = Float64.Finite y /\ (y == x)%Q.

End Spec.

(* ===================================================================== *)
(** * Sample inputs *)
(* ===================================================================== *)

Module Samples.
Import Pandas.

Definition xlsx_mime : string :=
  "application/vnd.openxmlformats-officedocument.spreadsheetml.sheet".

(** The name [a\b.xlsx], with one backslash. *)
Definition backslash_name : string :=
  String "a" (String SecureFileHandler.backslash "b.xlsx").

(** One text column with one cell. *)
Definition one_cell (s : string) : DataFrame :=
  [("comment", ColObject [Some (PStr s)])].

(** Scenario 1 of the specification. *)
Definition scenario1 : DataFrame :=
  [ ("name", ColObject [Some (PStr "John"); Some (PStr "Jane")]);
    ("comment", ColObject [Some (PStr "Normal comment");
                           Some (PStr "<script>alert(1)</script>")]) ].

(** A text column holding an object whose [__str__] raises. *)
Definition raising : DataFrame :=
  [ ("name", ColObject [Some (PStr "John"); Some (PObj 7 None)]) ].

(** Clock readings: ten within minute 0, one more in minute 0, ten
    within minute 1. *)
Definition burst : list Q := [0; 1; 2; 3; 4; 5; 6; 7; 8; 9]%Q.
Definition over : Q := (21 # 2)%Q.
Definition next_burst : list Q := [60; 61; 62; 63; 64; 65; 66; 67; 68; 69]%Q.

(** Calls of one user with a clock that is set back between the first
    and the second call, and with a clock that is not. *)
Definition clock_set_back : list (string * Q) :=
  [("u", 6000%Q); ("u", 3000%Q); ("u", 3060%Q)].
Definition clock_forward : list (string * Q) :=
  [("u", 0%Q); ("v", 30%Q); ("u", 60%Q)].

(** Scenario 2 of the specification, and a column without variance. *)
Definition ages : list (option Q) :=
  [Some 10; Some 12; Some 11; Some 13; Some 12; Some 100]%Q.

(** A table with a missing cell in each column. *)
Definition gaps : DataFrame :=
  [ ("n", ColNumber [Some 1; None; Some 1; Some 3]%Q);
    ("s", ColObject [Some (PStr "x"); None; Some (PStr "x"); None]) ].

(** All three switches of [clean_data] on. *)
Definition all_switches : gmap string bool :=
  list_to_map [("remove_duplicates", true); ("fill_numeric_missing", true);
               ("fill_categorical_missing", true)].

(** The frames of [test-security.py]. *)
Definition safe_data : DataFrame :=
  [ ("name", ColObject [Some (PStr "John"); Some (PStr "Jane"); Some (PStr "Bob")]);
    ("age", ColNumber [Some 25; Some 30; Some 35]%Q);
    ("city", ColObject [Some (PStr "New York"); Some (PStr "Chicago");
                        Some (PStr "LA")]) ].
Definition quote : string := String (ascii_of_nat 34) "".
Definition suspicious_data : DataFrame :=
  [ ("name", ColObject [Some (PStr "John"); Some (PStr "Jane")]);
    ("comment",
     ColObject [Some (PStr "Normal comment");
                Some (PStr (String.append "<script>alert("
                             (String.append quote
                                (String.append "xss"
                                   (String.append quote ")</script>")))))]) ].

(** Calls of two users within one minute. *)
Definition two_users : list (string * Q) :=
  [("v", 1%Q); ("v", 2%Q); ("w", 3%Q)].

(** A text column with an e-mail address and a card number. *)
Definition contacts : DataFrame :=
  [ ("contact", ColObject [Some (PStr "bob@example.com"); None;
                           Some (PStr "1234 5678 9012 3456")]) ].

(** A frame with a text cell of three characters that the upload-time
    scan accepts, followed by the frame of scenario 1. *)
Definition names_then_scenario1 : DataFrame :=
  ("id", ColNumber [Some 1; Some 2]%Q) :: ("code", ColObject [Some (PStr "abc"); None])
  :: scenario1.

(** An upload the default validator accepts. *)
Definition report : UploadedFile.t :=
  UploadedFile.Make "Report_2024(final).XLSX" 2048 xlsx_mime.

(** A workbook of four sheets: an empty one, one that cannot be read,
    the safe frame of [test-security.py], and scenario 1. *)
Definition quarterly : SecureFileHandler.workbook :=
  {| SecureFileHandler.sheetnames :=
       SecureFileHandler.Returned ["Cover"; "Broken"; "Data"; "Notes"];
     SecureFileHandler.read_excel := fun sheet =>
       match sheet with
       | None => SecureFileHandler.Returned []
       | Some s =>
           if String.eqb s "Cover" then SecureFileHandler.Returned []
           else if String.eqb s "Broken" then SecureFileHandler.Raised "Bad sheet"
           else if String.eqb s "Data" then SecureFileHandler.Returned safe_data
           else SecureFileHandler.Returned scenario1
       end |}.

(** A frame with a header row and no data row. *)
Definition header_only : DataFrame :=
  [("name", ColObject []); ("age", ColNumber [])].

(** A frame with a column of truth values, a text column of twelve
    cells with one value, and a column of numbers. *)
Definition survey : DataFrame :=
  [ ("member", ColBool [true; false; true; true; false; true;
                        true; false; true; true; false; true]);
    ("country", ColObject (repeat (Some (PStr "NL")) 12));
    ("score", ColNumber (repeat (Some 1%Q) 12)) ].

(** A frame with a text column that has no value. *)
Definition blank_notes : DataFrame :=
  [ ("id", ColNumber [Some 1; Some 2]%Q); ("notes", ColObject [None; None]) ].


End Samples.

(* ===================================================================== *)
(** * Properties *)
(* ===================================================================== *)

(** ** The matcher *)

Section ReFacts.
Import Re.

Lemma all_chars_complete (c : ascii) : In c all_chars.
Proof.
  unfold all_chars. rewrite <- (ascii_nat_embedding c).
  apply in_map, in_seq. pose proof (nat_ascii_bounded c). lia.
Qed.

Lemma forall_chars (f : ascii -> bool) :
  forallb f all_chars = true -> forall c, f c = true.
Proof.
  intros H c. rewrite forallb_forall in H. apply H, all_chars_complete.
Qed.

Lemma forall_chars_eq (f g : ascii -> bool) :
  forallb (fun c => Bool.eqb (f c) (g c)) all_chars = true -> forall c, f c = g c.
Proof.
  intros H c. apply eqb_prop. exact (forall_chars _ H c).
Qed.

Lemma star_from_ge (step : nat -> list nat) (fuel : nat) :
  forall i j, In j (star_from step fuel i) -> (i <= j)%nat.
Proof.
  induction fuel as [|fuel IH]; intros i j; simpl.
  - intros [<-|[]]. lia.
  - intros [<-|H]; [lia|].
    apply in_flat_map in H as (k & Hk & Hj).
    apply filter_In in Hk as [_ Hk]. apply Nat.ltb_lt in Hk.
    apply IH in Hj. lia.
Qed.

Lemma star_from_self (step : nat -> list nat) (fuel i : nat) :
  In i (star_from step fuel i).
Proof. destruct fuel; now left. Qed.

(** One round less is enough once the rounds cover what is left of the
    text. *)
Lemma star_from_less (step : nat -> list nat) (n : nat) :
  (forall a b, (a <= n)%nat -> In b (step a) -> (b <= n)%nat) ->
  forall fuel i j,
    (i <= n)%nat -> (n - i <= fuel)%nat ->
    In j (star_from step (S fuel) i) -> In j (star_from step fuel i).
Proof.
  intros Hstep. induction fuel as [|fuel IH]; intros i j Hi Hfuel Hj.
  - cbn [star_from] in Hj. destruct Hj as [<-|Hj]; [now left|].
    apply in_flat_map in Hj as (k & Hk & _).
    apply filter_In in Hk as [Hk Hlt]. apply Nat.ltb_lt in Hlt.
    apply Hstep in Hk; [lia|exact Hi].
  - remember (S fuel) as fuel1. cbn [star_from] in Hj. subst fuel1.
    destruct Hj as [<-|Hj]; [now left|]. right.
    apply in_flat_map in Hj as (k & Hk & Hj).
    apply in_flat_map. exists k. split; [exact Hk|].
    apply filter_In in Hk as [Hk Hlt]. apply Nat.ltb_lt in Hlt.
    apply IH; [now apply (Hstep i)|lia|exact Hj].
Qed.

(** The iterations are closed under one more round at the front. *)
Lemma star_from_cons (step : nat -> list nat) (n : nat) :
  (forall a b, (a <= n)%nat -> In b (step a) -> (b <= n)%nat) ->
  forall i k j,
    (i <= n)%nat -> In k (step i) -> (i <= k)%nat ->
    In j (star_from step n k) -> In j (star_from step n i).
Proof.
  intros Hstep i k j Hi Hk Hik Hj.
  destruct (Nat.eq_dec i k) as [->|Hne]; [exact Hj|].
  pose proof (Hstep i k Hi Hk) as Hkn.
  destruct n as [|n]; [lia|].
  cbn [star_from]. right. apply in_flat_map. exists k. split.
  - apply filter_In. split; [exact Hk|]. apply Nat.ltb_lt. lia.
  - apply (star_from_less step (S n) Hstep); [exact Hkn|lia|exact Hj].
Qed.

(** A match never ends before it starts. *)
Lemma ends_ge (icase : bool) (r : re) (s : list ascii) :
  forall i j, In j (ends icase r s i) -> (i <= j)%nat.
Proof.
  induction r as [|x| |neg items|r1 IH1 r2 IH2|r1 IH1 r2 IH2|r1 IH1| | |];
    intros i j; simpl.
  - intros [<-|[]]. lia.
  - destruct (char_at s i); [|intros []].
    destruct (lit_match icase x a); [|intros []]. intros [<-|[]]. lia.
  - destruct (char_at s i); [|intros []].
    destruct (Ascii.eqb a newline); [intros []|]. intros [<-|[]]. lia.
  - destruct (char_at s i); [|intros []].
    destruct (xorb _ _); [|intros []]. intros [<-|[]]. lia.
  - intros H. apply in_flat_map in H as (k & Hk & Hj).
    apply IH1 in Hk. apply IH2 in Hj. lia.
  - intros H. apply in_app_or in H as [H|H]; auto.
  - apply star_from_ge.
  - destruct (i =? 0)%nat; [|intros []]. intros [<-|[]]. lia.
  - destruct (at_end s i); [|intros []]. intros [<-|[]]. lia.
  - destruct (at_boundary s i); [|intros []]. intros [<-|[]]. lia.
Qed.

Lemma star_from_le (step : nat -> list nat) (n : nat) :
  (forall a b, (a <= n)%nat -> In b (step a) -> (b <= n)%nat) ->
  forall fuel i j, (i <= n)%nat -> In j (star_from step fuel i) -> (j <= n)%nat.
Proof.
  intros Hstep. induction fuel as [|fuel IH]; intros i j Hi; simpl.
  - intros [<-|[]]. exact Hi.
  - intros [<-|H]; [exact Hi|].
    apply in_flat_map in H as (k & Hk & Hj).
    apply filter_In in Hk as [Hk _]. eauto.
Qed.

(** A match ends within the text. *)
Lemma ends_le (icase : bool) (r : re) (s : list ascii) :
  forall i j, (i <= length s)%nat -> In j (ends icase r s i) -> (j <= length s)%nat.
Proof.
  assert (Hchar : forall i c, char_at s i = Some c -> (S i <= length s)%nat).
  { intros i c Hc. apply Nat.le_succ_l. apply nth_error_Some.
    unfold char_at in Hc. congruence. }
  induction r as [|x| |neg items|r1 IH1 r2 IH2|r1 IH1 r2 IH2|r1 IH1| | |];
    intros i j Hi; simpl.
  - intros [<-|[]]. exact Hi.
  - destruct (char_at s i) eqn:Hc; [|intros []].
    destruct (lit_match icase x a); [|intros []]. intros [<-|[]]. eauto.
  - destruct (char_at s i) eqn:Hc; [|intros []].
    destruct (Ascii.eqb a newline); [intros []|]. intros [<-|[]]. eauto.
  - destruct (char_at s i) eqn:Hc; [|intros []].
    destruct (xorb _ _); [|intros []]. intros [<-|[]]. eauto.
  - intros H. apply in_flat_map in H as (k & Hk & Hj). eauto.
  - intros H. apply in_app_or in H as [H|H]; eauto.
  - apply star_from_le; [|exact Hi]. intros a b Ha Hb. now apply (IH1 a).
  - destruct (i =? 0)%nat; [|intros []]. intros [<-|[]]. exact Hi.
  - destruct (at_end s i); [|intros []]. intros [<-|[]]. exact Hi.
  - destruct (at_boundary s i); [|intros []]. intros [<-|[]]. exact Hi.
Qed.

(** The positions [ends] computes are matches. *)
Lemma ends_sound (icase : bool) (r : re) (s : list ascii) :
  forall i j, In j (ends icase r s i) -> matches icase s r i j.
Proof.
  induction r as [|x| |neg items|r1 IH1 r2 IH2|r1 IH1 r2 IH2|r1 IH1| | |];
    intros i j; simpl.
  - intros [<-|[]]. constructor.
  - destruct (char_at s i) eqn:Hc; [|intros []].
    destruct (lit_match icase x a) eqn:Hm; [|intros []]. intros [<-|[]].
    econstructor; eauto.
  - destruct (char_at s i) eqn:Hc; [|intros []].
    destruct (Ascii.eqb a newline) eqn:Hm; [intros []|]. intros [<-|[]].
    econstructor; eauto.
  - destruct (char_at s i) eqn:Hc; [|intros []].
    destruct (xorb _ _) eqn:Hm; [|intros []]. intros [<-|[]].
    econstructor; eauto.
  - intros H. apply in_flat_map in H as (k & Hk & Hj). econstructor; eauto.
  - intros H. apply in_app_or in H as [H|H]; [apply MAltL|apply MAltR]; auto.
  - generalize (length s) as fuel. intros fuel. revert i j.
    induction fuel as [|fuel IHf]; intros i j; simpl.
    + intros [<-|[]]. constructor.
    + intros [<-|H]; [constructor|].
      apply in_flat_map in H as (k & Hk & Hj).
      apply filter_In in Hk as [Hk _]. econstructor; eauto.
  - destruct (i =? 0)%nat eqn:Hi; [|intros []]. intros [<-|[]].
    apply Nat.eqb_eq in Hi. subst. constructor.
  - destruct (at_end s i) eqn:He; [|intros []]. intros [<-|[]]. now constructor.
  - destruct (at_boundary s i) eqn:He; [|intros []]. intros [<-|[]]. now constructor.
Qed.

(** Every match that starts within the text is computed: the rounds of
    [star_from] suffice. *)
Lemma ends_complete (icase : bool) (r : re) (s : list ascii) (i j : nat) :
  matches icase s r i j -> (i <= length s)%nat -> In j (ends icase r s i).
Proof.
  induction 1 as [i|x i c Hc Hm|i c Hc Hm|neg items i c Hc Hm
                 |r1 r2 i k j _ IH1 _ IH2|r1 r2 i j _ IH|r1 r2 i j _ IH
                 |r i|r i k j H1 IH1 _ IH2| |i He|i He];
    intros Hi; cbn [ends].
  - now left.
  - rewrite Hc, Hm. now left.
  - rewrite Hc, Hm. now left.
  - rewrite Hc, Hm. now left.
  - apply in_flat_map. exists k. split; [auto|].
    apply IH2. apply (ends_le icase r1 s i); auto.
  - apply in_or_app. left. auto.
  - apply in_or_app. right. auto.
  - apply star_from_self.
  - specialize (IH1 Hi).
    pose proof (ends_le icase r s i k Hi IH1) as Hk.
    pose proof (ends_ge icase r s i k IH1) as Hik.
    cbn [ends] in IH2.
    apply (star_from_cons (ends icase r s) (length s)) with (k := k); auto.
    intros a b Ha Hb. now apply (ends_le icase r s a).
  - now left.
  - rewrite He. now left.
  - rewrite He. now left.
Qed.

Lemma chars_length (s : string) : length (Py.chars s) = String.length s.
Proof.
  unfold Py.chars. induction s as [|c s IH]; cbn; [reflexivity|]. now rewrite IH.
Qed.

(** [search] finds exactly the texts with a match somewhere. *)
Lemma search_matches (icase : bool) (r : re) (s : string) :
  search icase r s = true <->
  exists i j, (i <= String.length s)%nat /\ matches icase (Py.chars s) r i j.
Proof.
  unfold search, matches_at. rewrite existsb_exists. split.
  - intros (i & Hi & Hm). apply in_seq in Hi.
    destruct (ends icase r (Py.chars s) i) as [|j l] eqn:He; [discriminate|].
    exists i, j. split; [lia|]. apply ends_sound. rewrite He. now left.
  - intros (i & j & Hi & Hm). exists i. split; [apply in_seq; lia|].
    apply ends_complete in Hm; [|rewrite chars_length; exact Hi].
    destruct (ends icase r (Py.chars s) i); [destruct Hm|reflexivity].
Qed.

(** What [requires] promises. *)
Lemma requires_sound (icase : bool) (P : ascii -> bool) (r : re) (s : list ascii) :
  requires icase P r = true ->
  forall i j, In j (ends icase r s i) ->
  exists k c, (i <= k < j)%nat /\ char_at s k = Some c /\ P c = true.
Proof.
  induction r as [|x| |neg items|r1 IH1 r2 IH2|r1 IH1 r2 IH2|r1 IH1| | |];
    cbn [requires ends]; intros Hreq i j; try discriminate.
  - destruct (char_at s i) as [c|] eqn:Hc; [|intros []].
    destruct (lit_match icase x c) eqn:Hm; [|intros []]. intros [<-|[]].
    exists i, c. repeat split; auto.
    pose proof (forall_chars _ Hreq c) as Hp. cbn beta in Hp.
    rewrite Hm in Hp. exact Hp.
  - destruct (char_at s i) as [c|] eqn:Hc; [|intros []].
    destruct (Ascii.eqb c newline) eqn:Hm; [intros []|]. intros [<-|[]].
    exists i, c. repeat split; auto.
    pose proof (forall_chars _ Hreq c) as Hp. cbn beta in Hp.
    rewrite Hm in Hp. exact Hp.
  - destruct (char_at s i) as [c|] eqn:Hc; [|intros []].
    destruct (xorb neg _) eqn:Hm; [|intros []]. intros [<-|[]].
    exists i, c. repeat split; auto.
    pose proof (forall_chars _ Hreq c) as Hp. cbn beta in Hp.
    rewrite Hm in Hp. exact Hp.
  - intros H. apply in_flat_map in H as (m & Hm & Hj).
    pose proof (ends_ge _ _ _ _ _ Hm) as G1.
    pose proof (ends_ge _ _ _ _ _ Hj) as G2.
    apply orb_true_iff in Hreq as [Hreq|Hreq].
    + destruct (IH1 Hreq _ _ Hm) as (k & c & Hk & Hc & Hp).
      exists k, c. repeat split; auto; lia.
    + destruct (IH2 Hreq _ _ Hj) as (k & c & Hk & Hc & Hp).
      exists k, c. repeat split; auto; lia.
  - apply andb_true_iff in Hreq as [Hq1 Hq2].
    intros H. apply in_app_or in H as [H|H]; eauto.
Qed.

(** A text none of whose characters satisfies [P] has no match of an
    expression that requires one. *)
Lemma search_requires (icase : bool) (P : ascii -> bool) (r : re) (s : string) :
  requires icase P r = true ->
  forallb (fun c => negb (P c)) (Py.chars s) = true ->
  search icase r s = false.
Proof.
  intros Hreq Hs. unfold search.
  apply not_true_is_false. intros H.
  apply existsb_exists in H as (i & _ & Hi).
  unfold matches_at in Hi.
  destruct (ends icase r (Py.chars s) i) as [|j l] eqn:He; [discriminate|].
  destruct (requires_sound icase P r (Py.chars s) Hreq i j) as (k & c & _ & Hc & Hp).
  { rewrite He. now left. }
  rewrite forallb_forall in Hs.
  assert (Hin : In c (Py.chars s)) by (eapply nth_error_In; exact Hc).
  apply Hs in Hin. rewrite Hp in Hin. discriminate.
Qed.

End ReFacts.

(** ** SecureFileHandler._validate_file *)

Section FileValidation.
Import SecureFileHandler.

(** C5. An upload larger than [MAX_FILE_SIZE] is invalid and the
    message is the one about the size; an upload of exactly
    [MAX_FILE_SIZE] bytes that passes the other four rules (extension,
    MIME type, file name, not empty) is valid: the bound is
    inclusive. *)
Theorem validate_file_size_bound (self : t) (f : UploadedFile.t) :
  ((MAX_FILE_SIZE self < UploadedFile.size f)%Z ->
   _validate_file self f =
     Verdict false (FileSizeExceeds (UploadedFile.size f) (MAX_FILE_SIZE self)))
  /\
  (UploadedFile.size f = MAX_FILE_SIZE self ->
   str_in (file_extension_of (UploadedFile.name f)) (ALLOWED_EXTENSIONS self) = true ->
   str_in (UploadedFile.type f) (ALLOWED_MIME_TYPES self) = true ->
   _is_safe_filename (UploadedFile.name f) = true ->
   UploadedFile.size f <> 0%Z ->
   _validate_file self f = Verdict true FileValidationSuccessful).
Proof.
  unfold _validate_file. split.
  - intros Hgt. apply Z.ltb_lt in Hgt. now rewrite Hgt.
  - intros Heq Hext Hmime Hname Hne.
    assert (Hle : (MAX_FILE_SIZE self <? UploadedFile.size f)%Z = false)
      by (apply Z.ltb_ge; lia).
    rewrite Hle, Hext, Hmime, Hname. cbn [negb].
    apply Z.eqb_neq in Hne. now rewrite Hne.
Qed.

(** At the default limit of 50 MiB: 52,428,801 bytes are refused,
    52,428,800 bytes are accepted. *)
Lemma validate_file_size_bound_witness :
  _validate_file __init__ (UploadedFile.Make "report.xlsx" 52428801 Samples.xlsx_mime)
    = Verdict false (FileSizeExceeds 52428801 52428800)
  /\ _validate_file __init__ (UploadedFile.Make "report.xlsx" 52428800 Samples.xlsx_mime)
    = Verdict true FileValidationSuccessful.
Proof.
  split.
  - apply (proj1 (validate_file_size_bound __init__
                    (UploadedFile.Make "report.xlsx" 52428801 Samples.xlsx_mime))).
    reflexivity.
  - apply (proj2 (validate_file_size_bound __init__
                    (UploadedFile.Make "report.xlsx" 52428800 Samples.xlsx_mime)));
      try reflexivity.
    discriminate.
Defined.

(** A name that [_is_safe_filename] refuses is never validated. *)
Lemma unsafe_filename_invalid (self : t) (f : UploadedFile.t) :
  _is_safe_filename (UploadedFile.name f) = false ->
  valid (_validate_file self f) = false.
Proof.
  intros H. unfold _validate_file. rewrite H. cbn [negb].
  repeat match goal with |- context [if ?b then _ else _] => destruct b end;
    reflexivity.
Qed.

(** Names with [..], with [/] or with two backslashes in a row are
    refused whatever the extension and the size. *)
Lemma traversal_filename_invalid (self : t) (f : UploadedFile.t) :
  Py.contains ".." (UploadedFile.name f) = true
  \/ Py.contains "/" (UploadedFile.name f) = true
  \/ Py.contains two_backslashes (UploadedFile.name f) = true ->
  valid (_validate_file self f) = false.
Proof.
  intros H. apply unsafe_filename_invalid. unfold _is_safe_filename.
  destruct H as [->|[->| ->]]; rewrite ?orb_true_r; reflexivity.
Qed.

(** C3. The validator at a name that contains a backslash: the name
    [a\b.xlsx] of a one-byte upload with the right MIME type is
    accepted. The test ['\\\\' in filename] looks for two backslashes
    in a row, and the bracket of [safe_pattern] admits the backslash. *)
Theorem backslash_filename_accepted :
  Py.contains (String backslash "") Samples.backslash_name = true
  /\ _is_safe_filename Samples.backslash_name = true
  /\ _validate_file __init__ (UploadedFile.Make Samples.backslash_name 1 Samples.xlsx_mime)
     = Verdict true FileValidationSuccessful.
Proof. repeat split; vm_compute; reflexivity. Qed.

End FileValidation.

(** ** Conversion of cells to text *)

Section Conversion.
Import Py Pandas.

Lemma astype_str_cons (o : pyobj) (xs : list pyobj) :
  astype_str (o :: xs) =
    match to_str o with
    | Ok s => match astype_str xs with
              | Ok ss => Ok (s :: ss)
              | Raise e => Raise e
              end
    | Raise e => Raise e
    end.
Proof. reflexivity. Qed.

Lemma dropna_In {A} (x : A) (xs : list (option A)) :
  In (Some x) xs <-> In x (dropna xs).
Proof.
  induction xs as [|[y|] xs IH]; simpl; [tauto| |].
  - rewrite <- IH. split; intros [H|H]; auto; left; congruence.
  - rewrite <- IH. split; [intros [H|H]; [discriminate|auto] | auto].
Qed.

(** A converted column holds the text of each of its cells. *)
Lemma astype_str_In (xs : list pyobj) (strs : list string) (o : pyobj) (s : string) :
  astype_str xs = Ok strs -> In o xs -> to_str o = Ok s -> In s strs.
Proof.
  revert strs. induction xs as [|x xs IH]; intros strs Hconv Hin Hs; [destruct Hin|].
  rewrite astype_str_cons in Hconv.
  destruct (to_str x) as [sx|] eqn:Hx; [|discriminate].
  destruct (astype_str xs) as [ss|] eqn:Hxs; [|discriminate].
  injection Hconv as <-. destruct Hin as [->|Hin].
  - left. congruence.
  - right. eauto.
Qed.

(** When every cell converts to a text with [P], the column converts
    to texts with [P]. *)
Lemma astype_str_all (P : string -> bool) (xs : list pyobj) :
  forallb (fun o => match to_str o with Ok s => P s | Raise _ => false end) xs = true ->
  exists strs, astype_str xs = Ok strs /\ forallb P strs = true.
Proof.
  induction xs as [|x xs IH]; intros H.
  - exists []. split; reflexivity.
  - simpl in H. apply andb_true_iff in H as [Hx Hxs].
    destruct (IH Hxs) as (ss & Hss & Hall).
    rewrite astype_str_cons, Hss.
    destruct (to_str x) as [sx|]; [|discriminate].
    exists (sx :: ss). split; [reflexivity|]. simpl. now rewrite Hx, Hall.
Qed.

(** A column with a cell on which [str()] raises does not convert. *)
Lemma astype_str_raises (xs : list pyobj) (o : pyobj) (e : exn) :
  In o xs -> to_str o = Raise e -> exists e', astype_str xs = Raise e'.
Proof.
  induction xs as [|x xs IH]; intros Hin Ho; [destruct Hin|].
  rewrite astype_str_cons. destruct Hin as [->|Hin].
  - rewrite Ho. eauto.
  - destruct (to_str x); [|eauto].
    destruct (IH Hin Ho) as [e' ->]. eauto.
Qed.

Lemma max_le (bound : Z) (xs : list Z) :
  Forall (fun x => (x <= bound)%Z) xs -> gt (max xs) bound = false.
Proof.
  destruct xs as [|x xs]; [reflexivity|]. intros H.
  apply Forall_cons_iff in H as [Hx Hxs]. unfold max, gt.
  apply Z.ltb_ge. revert x Hx.
  induction xs as [|y ys IH]; intros x Hx; simpl; [exact Hx|].
  apply Forall_cons_iff in Hxs as [Hy Hys]. apply IH; [exact Hys|lia].
Qed.

Lemma astype_str_Ok_all (xs : list pyobj) (strs : list string) :
  astype_str xs = Ok strs ->
  forallb (fun o => match to_str o with Ok _ => true | Raise _ => false end) xs = true.
Proof.
  revert strs. induction xs as [|x xs IH]; intros strs H; [reflexivity|].
  rewrite astype_str_cons in H. cbn [forallb].
  destruct (to_str x); [|discriminate].
  destruct (astype_str xs) as [ss|]; [|discriminate]. now rewrite (IH ss).
Qed.

End Conversion.

(** ** SecureFileHandler._security_scan *)

Section UploadScan.
Import Py Pandas SecureFileHandler Spec.

Lemma stopped_unsafe (df : DataFrame) :
  stopped (scan_string_columns (object_columns df)) ->
  safe (_security_scan df) = false.
Proof.
  unfold _security_scan, _security_scan_try.
  destruct (scan_string_columns (object_columns df)) as [[v|]|e]; simpl; tauto.
Qed.

Lemma pattern_found_In (col_data : list string) (p : pattern) (s : string) :
  In s col_data -> Re.search true (compiled p) s = true ->
  pattern_found col_data p = true.
Proof.
  intros Hin Hs. unfold pattern_found, any, str_contains.
  apply existsb_exists. exists true. split; [|reflexivity].
  apply in_map_iff. exists s. now split.
Qed.

Lemma pattern_found_none (col_data : list string) (p : pattern) :
  forallb (fun s => negb (Re.search true (compiled p) s)) col_data = true ->
  pattern_found col_data p = false.
Proof.
  intros H. unfold pattern_found, any, str_contains.
  apply not_true_is_false. intros Hex.
  apply existsb_exists in Hex as (b & Hb & ->).
  apply in_map_iff in Hb as (s & Hs & Hin).
  rewrite forallb_forall in H. apply H in Hin. rewrite Hs in Hin. discriminate.
Qed.

(** A cell that matches one of the listed patterns stops the first
    loop, at its column or before. *)
Lemma scan_string_columns_match cols col cells o s p :
  In (col, cells) cols -> In (Some o) cells -> to_str o = Ok s ->
  In p suspicious_patterns -> Re.search true (compiled p) s = true ->
  stopped (scan_string_columns cols).
Proof.
  intros Hcol Hcell Hs Hp Hm.
  induction cols as [|[c0 cells0] rest IH]; [destruct Hcol|].
  cbn [scan_string_columns]. unfold mbind, result_bind.
  destruct (astype_str (dropna cells0)) as [col_data|e] eqn:Hconv; [|exact I].
  destruct (existsb (pattern_found col_data) suspicious_patterns) eqn:Hfound;
    [reflexivity|].
  destruct Hcol as [Heq|Hin]; [|exact (IH Hin)].
  injection Heq as -> ->. exfalso.
  assert (Hsin : In s col_data).
  { eapply astype_str_In; eauto. now apply dropna_In. }
  assert (existsb (pattern_found col_data) suspicious_patterns = true).
  { apply existsb_exists. exists p. split; [exact Hp|].
    now apply pattern_found_In with (s := s). }
  congruence.
Qed.

(** A column that does not convert stops the first loop, at that
    column or before. *)
Lemma scan_string_columns_raise cols col cells e :
  In (col, cells) cols -> astype_str (dropna cells) = Raise e ->
  stopped (scan_string_columns cols).
Proof.
  intros Hcol Hraise.
  induction cols as [|[c0 cells0] rest IH]; [destruct Hcol|].
  cbn [scan_string_columns]. unfold mbind, result_bind.
  destruct (astype_str (dropna cells0)) as [col_data|e0] eqn:Hconv; [|exact I].
  destruct (existsb (pattern_found col_data) suspicious_patterns); [reflexivity|].
  destruct Hcol as [Heq|Hin]; [|exact (IH Hin)].
  injection Heq as -> ->. congruence.
Qed.

Lemma passes_no_pattern (col_data : list string) :
  forallb passes col_data = true ->
  existsb (pattern_found col_data) suspicious_patterns = false.
Proof.
  intros H. apply not_true_is_false. intros Hex.
  apply existsb_exists in Hex as (p & Hp & Hfound).
  rewrite pattern_found_none in Hfound; [discriminate|].
  apply forallb_forall. intros s Hs.
  rewrite forallb_forall in H. apply H in Hs.
  unfold passes in Hs. apply andb_true_iff in Hs as [Hs _].
  apply negb_true_iff in Hs. apply negb_true_iff.
  apply not_true_is_false. intros Hm.
  assert (Spec.matches_upload_signature s = true); [|congruence].
  apply existsb_exists. now exists p.
Qed.

Lemma passes_size (col_data : list string) :
  forallb passes col_data = true ->
  gt (max (str_len col_data)) max_cell_size = false.
Proof.
  intros H. apply max_le. unfold str_len. apply Forall_map, Forall_forall.
  intros s Hs. rewrite forallb_forall in H.
  apply list_elem_of_In, H in Hs.
  unfold passes in Hs. apply andb_true_iff in Hs as [_ Hs].
  now apply Z.leb_le in Hs.
Qed.

Lemma scan_string_columns_pass (df : DataFrame) :
  text_cells passes df = true ->
  scan_string_columns (object_columns df) = Ok None.
Proof.
  unfold text_cells.
  induction (object_columns df) as [|[col cells] rest IH]; [reflexivity|].
  cbn [forallb snd]. intros H. apply andb_true_iff in H as [Hc Hrest].
  destruct (astype_str_all _ _ Hc) as (strs & Hconv & Hall).
  cbn [scan_string_columns]. rewrite Hconv. unfold mbind, result_bind.
  rewrite (passes_no_pattern _ Hall). exact (IH Hrest).
Qed.

Lemma scan_cell_sizes_pass (df : DataFrame) :
  text_cells passes df = true -> scan_cell_sizes df = Ok None.
Proof.
  unfold text_cells.
  induction df as [|[col [xs|cells|xs|xs]] rest IH]; cbn [object_columns scan_cell_sizes];
    try reflexivity; try exact IH.
  cbn [forallb snd]. intros H. apply andb_true_iff in H as [Hc Hrest].
  destruct (astype_str_all _ _ Hc) as (strs & Hconv & Hall).
  rewrite Hconv. unfold mbind, result_bind.
  rewrite (passes_size _ Hall). exact (IH Hrest).
Qed.

(** The scan passes exactly the tables whose text cells pass. *)
Lemma security_scan_pass (df : DataFrame) :
  text_cells passes df = true ->
  _security_scan df = ScanVerdict true ScanPassed.
Proof.
  intros H. unfold _security_scan, _security_scan_try.
  rewrite (scan_string_columns_pass df H). unfold mbind, result_bind.
  now rewrite (scan_cell_sizes_pass df H).
Qed.

Lemma text_cells_impl (P Q : string -> bool) (df : DataFrame) :
  (forall s, P s = true -> Q s = true) ->
  text_cells P df = true -> text_cells Q df = true.
Proof.
  intros HPQ. unfold text_cells. rewrite !forallb_forall.
  intros H nc Hnc. specialize (H nc Hnc). rewrite forallb_forall in *.
  intros o Ho. specialize (H o Ho). destruct (to_str o); auto.
Qed.

(** Every pattern of the scan but [SELECT.*FROM] needs a character
    that is neither a letter nor a digit. *)
Lemma alphanumeric_no_signature (s : string) :
  Spec.alphanumeric s = true -> Spec.select_from s = false ->
  Spec.matches_upload_signature s = false.
Proof.
  intros Halnum Hsel. apply not_true_is_false. intros Hex.
  apply existsb_exists in Hex as (p & Hp & Hm).
  assert (Hnon : forallb (fun c => negb (negb (Py.is_alnum c))) (Py.chars s) = true).
  { unfold Spec.alphanumeric in Halnum. rewrite forallb_forall in *.
    intros c Hc. rewrite negb_involutive. auto. }
  assert (Hno : Re.search true (compiled p) s = false); [|congruence].
  unfold suspicious_patterns in Hp. cbn [In] in Hp.
  repeat (destruct Hp as [<-|Hp];
          [first [ apply (search_requires true (fun c => negb (Py.is_alnum c)));
                   [vm_compute; reflexivity | exact Hnon]
                 | exact Hsel ] | ]).
  destruct Hp.
Qed.

(** C1, as the specification states it, fails in both halves: the
    cell [eval(1)] matches the code-execution category of the
    catalogue and the scan answers safe; the cell [selectfrom] is
    alphanumeric without any PII shape and the scan answers unsafe. *)
Lemma strict_scan_counterexample :
  (text_cells Spec.matches_injection (Samples.one_cell "eval(1)") = true
   /\ safe (_security_scan (Samples.one_cell "eval(1)")) = true)
  /\
  (text_cells (fun s => Spec.alphanumeric s && negb (Spec.pii_shaped s))
              (Samples.one_cell "selectfrom") = true
   /\ safe (_security_scan (Samples.one_cell "selectfrom")) = false).
Proof. repeat split; vm_compute; reflexivity. Qed.

(** C1, amended. The upload-time scan answers safe=false whenever a
    cell of a text column that is not missing matches one of its own
    signatures written without a backslash escape (the script element,
    [javascript:], [vbscript:], SELECT ... FROM); it answers safe=true
    for a table whose text cells are all alphanumeric values with no
    PII shapes, at most 10,000 characters long and without
    SELECT ... FROM. *)
Theorem strict_scan_amended (df : DataFrame) :
  (forall col cells o s p,
     In (col, cells) (object_columns df) -> In (Some o) cells ->
     to_str o = Ok s ->
     In p suspicious_patterns -> Spec.escape_free p = true ->
     Re.search true (compiled p) s = true ->
     safe (_security_scan df) = false)
  /\
  (text_cells (fun s => Spec.alphanumeric s && negb (Spec.pii_shaped s)
                        && Spec.within_cell_limit s && negb (Spec.select_from s))
              df = true ->
   _security_scan df = ScanVerdict true ScanPassed).
Proof.
  split.
  - intros col cells o s p Hcol Hcell Hs Hp _ Hm.
    apply stopped_unsafe. eapply scan_string_columns_match; eauto.
  - intros H. apply security_scan_pass.
    revert H. apply text_cells_impl. intros s Hs.
    apply andb_true_iff in Hs as [Hs Hsel].
    apply andb_true_iff in Hs as [Hs Hlim].
    apply andb_true_iff in Hs as [Halnum _].
    apply negb_true_iff in Hsel.
    unfold Spec.passes. now rewrite (alphanumeric_no_signature s Halnum Hsel), Hlim.
Qed.

(** Scenario 1 is refused for its script element; a table of names is
    accepted. *)
Lemma strict_scan_amended_witness :
  safe (_security_scan Samples.scenario1) = false
  /\ _security_scan (Samples.one_cell "Jane42") = ScanVerdict true ScanPassed.
Proof.
  split.
  - apply (proj1 (strict_scan_amended Samples.scenario1)
             "comment"
             [Some (PStr "Normal comment"); Some (PStr "<script>alert(1)</script>")]
             (PStr "<script>alert(1)</script>")
             "<script>alert(1)</script>"
             (Pattern "<script[^>]*>.*?</script>"
                (Re.seq_of [Re.Str "<script"; Re.Star (Re.OneOf true [Re.IChar ">"]);
                            Re.Lit ">"; Re.Star Re.Any; Re.Str "</script>"]))).
    + right. left. reflexivity.
    + right. left. reflexivity.
    + reflexivity.
    + left. reflexivity.
    + vm_compute. reflexivity.
    + vm_compute. reflexivity.
  - apply (proj2 (strict_scan_amended (Samples.one_cell "Jane42"))).
    vm_compute. reflexivity.
Defined.

(** The [except] branch of the scan. *)
Lemma security_scan_except (df : DataFrame) (e : exn) :
  _security_scan_try df = Raise e ->
  _security_scan df = ScanVerdict false (ScanFailed e).
Proof. intros H. unfold _security_scan. now rewrite H. Qed.

End UploadScan.

(** ** SecurityConfig.validate_data_content *)

Section SessionScan.
Import Py Pandas SecurityConfig.
Variable self : SecurityConfig.t.

Lemma check_suspicious_spec cols v :
  let v' := check_suspicious self cols v in
  safe v' = safe v /\ errors v' = errors v
  /\ suspicious_columns v' = suspicious_columns v ++ Spec.flagged self cols
  /\ (forall w, In w (warnings v) -> In w (warnings v'))
  /\ (forall col, In col (Spec.flagged self cols) -> In (SuspiciousColumn col) (warnings v')).
Proof.
  revert v. induction cols as [|[col cells] rest IH]; intros v; cbn zeta.
  - cbn. rewrite app_nil_r. repeat split; auto. intros col [].
  - cbn [check_suspicious]. unfold Spec.flagged. cbn [List.filter snd].
    destruct (_scan_column_for_threats self cells) eqn:Hscan.
    + specialize (IH (add_warning (SuspiciousColumn col) (add_suspicious col v))).
      cbn zeta in IH. destruct IH as (Hs & He & Hc & Hw & Hf).
      rewrite Hs, He, Hc. cbn. rewrite <- app_assoc. repeat split; auto.
      * intros w Hin. apply Hw. cbn. apply in_or_app. now left.
      * intros c [<-|Hin]; [|now apply Hf].
        apply Hw. cbn. apply in_or_app. right. now left.
    + specialize (IH v). cbn zeta in IH. exact IH.
Qed.

Lemma check_cell_sizes_spec cols v :
  forallb (fun nc : string * list (option pyobj) =>
             forallb (fun o => match to_str o with Ok _ => true | Raise _ => false end)
                     (dropna (snd nc))) cols = true ->
  exists v', check_cell_sizes self cols v = (v', None)
    /\ safe v' = safe v /\ errors v' = errors v
    /\ suspicious_columns v' = suspicious_columns v
    /\ (forall w, In w (warnings v) -> In w (warnings v')).
Proof.
  revert v. induction cols as [|[col cells] rest IH]; intros v H.
  - exists v. repeat split; auto.
  - cbn [forallb snd] in H. apply andb_true_iff in H as [Hc Hrest].
    destruct (astype_str_all (fun _ => true) _ Hc) as (strs & Hconv & _).
    cbn [check_cell_sizes]. rewrite Hconv.
    match goal with |- context [check_cell_sizes self rest ?v0] =>
      destruct (IH v0 Hrest) as (v' & Heq & Hs & He & Hsc & Hw) end.
    exists v'. split; [exact Heq|].
    destruct (gt _ _); cbn in *; repeat split; auto.
    intros w Hin. apply Hw. apply in_or_app. now left.
Qed.

Lemma check_cell_sizes_raise cols v col cells e :
  In (col, cells) cols -> astype_str (dropna cells) = Raise e ->
  exists v' e', check_cell_sizes self cols v = (v', Some e').
Proof.
  intros Hcol Hraise. revert v.
  induction cols as [|[c0 cells0] rest IH]; intros v; [destruct Hcol|].
  cbn [check_cell_sizes].
  destruct (astype_str (dropna cells0)) as [strs|e0] eqn:Hconv; [|eauto].
  destruct Hcol as [Heq|Hin]; [injection Heq as -> ->; congruence|].
  apply (IH Hin).
Qed.

Lemma check_pii_columns_ok cols :
  forallb (fun nc : string * list (option pyobj) =>
             forallb (fun o => match to_str o with Ok _ => true | Raise _ => false end)
                     (dropna (snd nc))) cols = true ->
  exists ws, check_pii_columns cols = Ok ws.
Proof.
  induction cols as [|[col cells] rest IH]; intros H; [now exists []|].
  cbn [forallb snd] in H. apply andb_true_iff in H as [Hc Hrest].
  destruct (astype_str_all (fun _ => true) _ Hc) as (strs & Hconv & _).
  destruct (IH Hrest) as [ws Hws].
  cbn [check_pii_columns]. rewrite Hconv, Hws. cbn. eauto.
Qed.

(** C4. When the per-column scan of some text column raises, both
    scans answer safe=false: the upload-time scan through its
    [except] branch (or through a verdict it reached before), the
    in-session scan through its own, and the column scan
    [_scan_column_for_threats] itself answers [True]. Each of them
    returns a value, so the exception does not reach the caller. *)
Theorem scan_fails_closed (df : DataFrame) (col : string)
    (cells : list (option pyobj)) (e : exn) :
  In (col, cells) (object_columns df) ->
  astype_str (dropna cells) = Raise e ->
  SecureFileHandler.safe (SecureFileHandler._security_scan df) = false
  /\ _scan_column_for_threats self cells = true
  /\ safe (validate_data_content self df) = false.
Proof.
  intros Hcol Hraise. split; [|split].
  - apply stopped_unsafe. eapply scan_string_columns_raise; eauto.
  - unfold _scan_column_for_threats. now rewrite Hraise.
  - unfold validate_data_content.
    match goal with |- context [check_cell_sizes self _ ?v0] =>
      destruct (check_cell_sizes_raise _ v0 _ _ _ Hcol Hraise) as (v' & e' & ->) end.
    reflexivity.
Qed.

End SessionScan.

(** A text column with an object whose [__str__] raises. *)
Lemma scan_fails_closed_witness :
  SecureFileHandler.safe (SecureFileHandler._security_scan Samples.raising) = false
  /\ SecurityConfig._scan_column_for_threats SecurityConfig.__init__
       [Some (Pandas.PStr "John"); Some (Pandas.PObj 7 None)] = true
  /\ SecurityConfig.safe
       (SecurityConfig.validate_data_content SecurityConfig.__init__ Samples.raising) = false.
Proof.
  apply (scan_fails_closed SecurityConfig.__init__ Samples.raising "name"
           [Some (Pandas.PStr "John"); Some (Pandas.PObj 7 None)]
           (Py.StrConversionError 7)).
  - left. reflexivity.
  - reflexivity.
Defined.

(** ** SecurityConfig.validate_api_usage *)

Section RateLimiter.
Import SecurityConfig Spec.

(** [current_time % 60] lies in [[0, 60)]. *)
Lemma seconds_into_minute_range (now : Q) :
  (0 <= seconds_into_minute now /\ seconds_into_minute now < 60)%Q.
Proof.
  unfold seconds_into_minute, minute_of.
  pose proof (Qfloor_le (now / 60)) as Hlo.
  pose proof (Qlt_floor (now / 60)) as Hhi.
  assert (H60 : (0 < 60)%Q) by reflexivity.
  assert (Hnow : (now == now / 60 * 60)%Q) by (field; discriminate).
  apply (Qmult_le_compat_r _ _ 60) in Hlo; [|now apply Qlt_le_weak].
  apply (Qmult_lt_compat_r _ _ 60) in Hhi; [|exact H60].
  rewrite <- Hnow in Hlo, Hhi. rewrite inject_Z_plus in Hhi.
  change (inject_Z 1) with 1%Q in Hhi. clear Hnow.
  generalize dependent (inject_Z (Qfloor (now / 60))). intros q Hlo Hhi.
  split; lra.
Qed.

Lemma minute_of_mono (t now : Q) : (t <= now)%Q -> (minute_of t <= minute_of now)%Z.
Proof.
  intros H. unfold minute_of. apply Qfloor_resp_le.
  apply Qmult_le_compat_r; [exact H|]. discriminate.
Qed.

(** Pruning keeps exactly the buckets from [current_minute - 1] on. *)
Lemma clean_old_entries_lookup (m : gmap Z Z) (cm k : Z) :
  clean_old_entries m cm !! k = if decide (k < cm - 1)%Z then None else m !! k.
Proof.
  unfold clean_old_entries. case_decide as Hk.
  - destruct (foldr delete m (old_minutes m cm) !! k) as [c|] eqn:Hf; [|reflexivity].
    apply lookup_foldr_delete_Some in Hf as [Hnot Hm]. exfalso. apply Hnot.
    apply list_elem_of_In. unfold old_minutes. apply filter_In. split.
    + apply list_elem_of_In, elem_of_elements, elem_of_dom. eauto.
    + apply Z.ltb_lt. exact Hk.
  - apply lookup_foldr_delete_not_elem_of. intros Hin.
    apply list_elem_of_In, filter_In in Hin as [_ Hin].
    apply Z.ltb_lt in Hin. lia.
Qed.

(** One call, in terms of the count of the current bucket. *)
Lemma validate_api_usage_spec (self : t) (now : Q) (uid : string) :
  let cm := minute_of now in
  let L := SecurityLimits.MAX_API_CALLS_PER_MINUTE (limits self) in
  let c := count self uid cm in
  let cleaned := clean_old_entries (user_map self uid) cm in
  let r := validate_api_usage self now uid in
  fst r = (if (L <=? c)%Z then RateLimited L (60 - seconds_into_minute now)
           else Allowed (L - (c + 1)))
  /\ api_call_tracker (snd r) !! uid
     = Some (if (L <=? c)%Z then cleaned else <[cm := (c + 1)%Z]> cleaned)
  /\ limits (snd r) = limits self
  /\ (forall other, other <> uid ->
        api_call_tracker (snd r) !! other = api_call_tracker self !! other).
Proof.
  cbn zeta. unfold validate_api_usage.
  set (tracker := match api_call_tracker self !! uid with
                  | Some _ => api_call_tracker self
                  | None => <[uid := ∅]> (api_call_tracker self)
                  end).
  assert (Hum : default ∅ (tracker !! uid) = user_map self uid).
  { unfold tracker, user_map.
    destruct (api_call_tracker self !! uid) eqn:Hu; [now rewrite Hu|].
    now rewrite lookup_insert_eq. }
  assert (Hother : forall other, other <> uid ->
                     tracker !! other = api_call_tracker self !! other).
  { intros other Hne. unfold tracker.
    destruct (api_call_tracker self !! uid); [reflexivity|].
    now rewrite lookup_insert_ne. }
  rewrite Hum.
  assert (Hc : default 0%Z (clean_old_entries (user_map self uid) (minute_of now)
                              !! minute_of now)
               = count self uid (minute_of now)).
  { rewrite clean_old_entries_lookup. case_decide; [lia|reflexivity]. }
  rewrite Hc.
  destruct (_ <=? _)%Z; cbn [fst snd set_tracker api_call_tracker limits];
    rewrite lookup_insert_eq; repeat split; auto;
    intros other Hne; rewrite lookup_insert_ne; auto.
Qed.

Lemma calls_cons (self : t) (uid : string) (now : Q) (times : list Q) :
  calls self uid (now :: times)
  = (fst (validate_api_usage self now uid)
       :: fst (calls (snd (validate_api_usage self now uid)) uid times),
     snd (calls (snd (validate_api_usage self now uid)) uid times)).
Proof.
  cbn [calls]. destruct (validate_api_usage self now uid) as [u s1].
  cbn [fst snd]. now destruct (calls s1 uid times).
Qed.

(** Calls within one minute, starting from a count of [c]: as long as
    the quota is not exceeded every call is admitted and the count
    goes up by one; buckets that were absent stay absent. *)
Lemma calls_in_minute (uid : string) (m : Z) (times : list Q) :
  forall (self : t) (c : Z),
    let L := SecurityLimits.MAX_API_CALLS_PER_MINUTE (limits self) in
    Forall (fun t => minute_of t = m) times ->
    count self uid m = c ->
    (Z.of_nat (length times) <= Z.max 0 (L - c))%Z ->
    let r := calls self uid times in
    fst r = countdown (L - c) (length times)
    /\ limits (snd r) = limits self
    /\ count (snd r) uid m = (c + Z.of_nat (length times))%Z
    /\ (forall k, k <> m -> user_map self uid !! k = None ->
                  user_map (snd r) uid !! k = None).
Proof.
  induction times as [|now times IH]; intros self c L Hmin Hc Hlen; cbn zeta.
  - cbn. repeat split; auto. lia.
  - apply Forall_cons_iff in Hmin as [Hnow Hmin].
    rewrite calls_cons. cbn [fst snd].
    pose proof (validate_api_usage_spec self now uid) as Hstep.
    cbn zeta in Hstep. rewrite Hnow, Hc in Hstep. fold L in Hstep.
    cbn [length] in Hlen.
    assert (Hlt : (L <=? c)%Z = false) by (apply Z.leb_gt; lia).
    rewrite Hlt in Hstep. destruct Hstep as (Hu & Htr & Hlim & _).
    set (s1 := snd (validate_api_usage self now uid)) in *.
    assert (Hmap : user_map s1 uid
                   = <[m := (c + 1)%Z]> (clean_old_entries (user_map self uid) m)).
    { unfold user_map at 1. now rewrite Htr. }
    assert (Hc1 : count s1 uid m = (c + 1)%Z).
    { unfold count. rewrite Hmap. now rewrite lookup_insert_eq. }
    specialize (IH s1 (c + 1)%Z). cbn zeta in IH. rewrite Hlim in IH. fold L in IH.
    destruct (IH Hmin Hc1) as (Hus & Hlim' & Hcount & Hkeep); [lia|].
    rewrite Hu, Hus, Hlim', Hcount. cbn [countdown length].
    replace (L - c - 1)%Z with (L - (c + 1))%Z by lia.
    repeat split; auto; [lia|].
    intros k Hk Hnone. apply Hkeep; [exact Hk|].
    rewrite Hmap, lookup_insert_ne by congruence.
    rewrite clean_old_entries_lookup. now case_decide.
Qed.

(** C2. For an identity with no prior calls: the first max-per-minute
    calls within one minute bucket are admitted, the i-th reporting
    max - i remaining calls; the next call in that bucket, at the
    reading [over] of minute [m], is denied with
    retry_after = 60 - (over - 60 m), where [over - 60 m] is the
    remainder of [over] modulo 60; in the next bucket the full quota is
    admitted again. *)
Theorem rate_limiter_quota (self : t) (uid : string) (m : Z)
    (burst : list Q) (over : Q) (next : list Q) :
  let L := SecurityLimits.MAX_API_CALLS_PER_MINUTE (limits self) in
  api_call_tracker self !! uid = None ->
  length burst = Z.to_nat L -> Forall (fun t => minute_of t = m) burst ->
  minute_of over = m ->
  length next = Z.to_nat L -> Forall (fun t => minute_of t = (m + 1)%Z) next ->
  let r1 := calls self uid burst in
  let r2 := validate_api_usage (snd r1) over uid in
  let r3 := calls (snd r2) uid next in
  fst r1 = countdown L (Z.to_nat L)
  /\ fst r2 = RateLimited L (60 - (over - 60 * inject_Z m))
  /\ (0 <= over - 60 * inject_Z m)%Q /\ (over - 60 * inject_Z m < 60)%Q
  /\ fst r3 = countdown L (Z.to_nat L).
Proof.
  intros L Hfresh Hlen1 Hmin1 Hover Hlen2 Hmin2. cbn zeta.
  pose proof (seconds_into_minute_range over) as Hmod.
  unfold seconds_into_minute in Hmod. rewrite Hover in Hmod.
  assert (Hempty : forall k, user_map self uid !! k = None).
  { intros k. unfold user_map. now rewrite Hfresh. }
  assert (Hc0 : forall k, count self uid k = 0%Z).
  { intros k. unfold count. now rewrite Hempty. }
  destruct (calls_in_minute uid m burst self 0%Z Hmin1 (Hc0 m))
    as (Hr1 & Hlim1 & Hcount1 & Hkeep1).
  { fold L. rewrite Hlen1. lia. }
  fold L in Hr1. rewrite Z.sub_0_r, Hlen1 in Hr1.
  set (s1 := snd (calls self uid burst)) in *.
  pose proof (validate_api_usage_spec s1 over uid) as Hstep.
  cbn zeta in Hstep. rewrite Hover, Hlim1, Hcount1 in Hstep. fold L in Hstep.
  assert (Hge : (L <=? 0 + Z.of_nat (length burst))%Z = true)
    by (apply Z.leb_le; rewrite Hlen1; lia).
  rewrite Hge in Hstep. destruct Hstep as (Hr2 & Htr2 & Hlim2 & _).
  set (s2 := snd (validate_api_usage s1 over uid)) in *.
  assert (Hc2 : count s2 uid (m + 1) = 0%Z).
  { unfold count, user_map at 1. rewrite Htr2. cbn [from_option id].
    rewrite clean_old_entries_lookup. case_decide; [reflexivity|].
    rewrite Hkeep1; [reflexivity|lia|apply Hempty]. }
  destruct (calls_in_minute uid (m + 1) next s2 0%Z Hmin2 Hc2)
    as (Hr3 & _).
  { rewrite Hlim2. fold L. rewrite Hlen2. lia. }
  rewrite Hlim2 in Hr3. fold L in Hr3. rewrite Z.sub_0_r, Hlen2 in Hr3.
  unfold seconds_into_minute in Hr2. rewrite Hover in Hr2.
  destruct Hmod as [Hlo Hhi]. auto.
Qed.

(** The fixture of the test suite, on the clock: ten admissions, at
    the reading 10.5 a denial with retry_after = 49.5, ten
    admissions. *)
Lemma rate_limiter_quota_witness :
  let r1 := calls __init__ "test_user" Samples.burst in
  let r2 := validate_api_usage (snd r1) Samples.over "test_user" in
  let r3 := calls (snd r2) "test_user" Samples.next_burst in
  (fst r1 = countdown 10 10
   /\ fst r2 = RateLimited 10 (60 - ((21 # 2) - 60 * 0))
   /\ (0 <= (21 # 2) - 60 * 0)%Q /\ ((21 # 2) - 60 * 0 < 60)%Q
   /\ fst r3 = countdown 10 10)
  /\ (60 - ((21 # 2) - 60 * 0) == 99 # 2)%Q.
Proof.
  split; [|reflexivity].
  apply (rate_limiter_quota __init__ "test_user" 0 Samples.burst Samples.over
           Samples.next_burst).
  - reflexivity.
  - reflexivity.
  - repeat constructor.
  - reflexivity.
  - reflexivity.
  - repeat constructor.
Defined.

Lemma run_app (trace : list (string * Q)) (uid : string) (now : Q) :
  forall self,
    run self (trace ++ [(uid, now)])
    = snd (validate_api_usage (run self trace) now uid).
Proof.
  induction trace as [|[u t] trace IH]; intros self; [reflexivity|].
  cbn [run app]. apply IH.
Qed.

(** After a call every bucket of the caller is the current one or
    comes from before the call, and is not older than one minute. *)
Lemma validate_api_usage_keys (self : t) (now : Q) (uid : string) (ut : gmap Z Z) (k : Z) :
  api_call_tracker (snd (validate_api_usage self now uid)) !! uid = Some ut ->
  is_Some (ut !! k) ->
  (minute_of now - 1 <= k)%Z
  /\ (k = minute_of now \/ is_Some (user_map self uid !! k)).
Proof.
  intros Hut Hk.
  destruct (validate_api_usage_spec self now uid) as (_ & Htr & _).
  rewrite Htr in Hut. injection Hut as <-.
  destruct (_ <=? _)%Z.
  - rewrite clean_old_entries_lookup in Hk. case_decide.
    + now destruct Hk.
    + split; [lia|now right].
  - destruct (decide (k = minute_of now)) as [->|Hne]; [split; [lia|now left]|].
    rewrite lookup_insert_ne in Hk by congruence.
    rewrite clean_old_entries_lookup in Hk. case_decide.
    + now destruct Hk.
    + split; [lia|now right].
Qed.

Lemma validate_api_usage_bounded (self : t) (now : Q) (uid : string) (b : Z) :
  bounded self b -> (minute_of now <= b)%Z ->
  bounded (snd (validate_api_usage self now uid)) b.
Proof.
  intros Hb Hnow u ut k Hut Hk.
  destruct (decide (u = uid)) as [->|Hne].
  - destruct (validate_api_usage_keys self now uid ut k Hut Hk) as [_ [->|Hold]];
      [exact Hnow|].
    unfold user_map in Hold.
    destruct (api_call_tracker self !! uid) as [ut0|] eqn:Hu.
    + exact (Hb uid ut0 k Hu Hold).
    + cbn in Hold. rewrite lookup_empty in Hold. now destruct Hold.
  - destruct (validate_api_usage_spec self now uid) as (_ & _ & _ & Hother).
    rewrite Hother in Hut by exact Hne. exact (Hb u ut k Hut Hk).
Qed.

Lemma run_bounded (trace : list (string * Q)) (b : Z) :
  forall self,
    bounded self b ->
    Forall (fun c : string * Q => (minute_of (snd c) <= b)%Z) trace ->
    bounded (run self trace) b.
Proof.
  induction trace as [|[u t] trace IH]; intros self Hb Hall; [exact Hb|].
  apply Forall_cons_iff in Hall as [Ht Hall]. cbn [run].
  apply IH; [|exact Hall]. now apply validate_api_usage_bounded.
Qed.

(** C9, as stated, fails in its second half: when the clock is set
    back between two calls, the bucket of the later reading is never
    pruned, and after the third call the user has three buckets. *)
Lemma rate_window_counterexample :
  size (user_map (run __init__ Samples.clock_set_back) "u") = 3.
Proof. vm_compute. reflexivity. Qed.

(** C9, amended. After every call for an identity, every bucket of
    that identity is at least the current minute minus one; and when
    no earlier call of the process was made at a later clock reading,
    every bucket is the current or the previous minute, so that at
    most two are retained. *)
Theorem rate_window_retention :
  (forall (self : t) (now : Q) (uid : string) (ut : gmap Z Z) (k : Z),
     api_call_tracker (snd (validate_api_usage self now uid)) !! uid = Some ut ->
     is_Some (ut !! k) -> (minute_of now - 1 <= k)%Z)
  /\
  (forall (self : t) (trace : list (string * Q)) (now : Q) (uid : string)
          (ut : gmap Z Z),
     api_call_tracker self = ∅ ->
     Forall (fun c : string * Q => (snd c <= now)%Q) trace ->
     api_call_tracker (run self (trace ++ [(uid, now)])) !! uid = Some ut ->
     size ut <= 2
     /\ forall k, is_Some (ut !! k) ->
                  k = (minute_of now - 1)%Z \/ k = minute_of now).
Proof.
  split.
  - intros self now uid ut k Hut Hk.
    now destruct (validate_api_usage_keys self now uid ut k Hut Hk).
  - intros self trace now uid ut Hinit Hclock Hut.
    assert (Hb0 : bounded self (minute_of now)).
    { intros u ut0 k Hu. rewrite Hinit, lookup_empty in Hu. discriminate. }
    assert (Hb1 : bounded (run self trace) (minute_of now)).
    { apply run_bounded; [exact Hb0|].
      eapply Forall_impl; [exact Hclock|].
      intros c Hc. now apply minute_of_mono. }
    rewrite run_app in Hut.
    pose proof (validate_api_usage_bounded _ now uid _ Hb1 (Z.le_refl _)) as Hb2.
    assert (Hkeys : forall k, is_Some (ut !! k) ->
                              k = (minute_of now - 1)%Z \/ k = minute_of now).
    { intros k Hk.
      pose proof (Hb2 uid ut k Hut Hk).
      destruct (validate_api_usage_keys _ now uid ut k Hut Hk) as [Hlo _]. lia. }
    split; [|exact Hkeys].
    rewrite <- size_dom.
    transitivity (size ({[ (minute_of now - 1)%Z ]} ∪ {[ minute_of now ]} : gset Z)).
    + apply subseteq_size. intros k Hk. apply elem_of_dom in Hk.
      destruct (Hkeys k Hk) as [->| ->]; set_solver.
    + rewrite size_union by (apply disjoint_singleton_l; set_solver by lia).
      now rewrite !size_singleton.
Qed.

(** Three calls of two users on a clock that moves forward. *)
Lemma rate_window_retention_witness :
  size (user_map (run __init__ Samples.clock_forward) "u") <= 2.
Proof.
  apply (proj2 rate_window_retention __init__
           [("u", 0%Q); ("v", 30%Q)] 60%Q "u"
           (user_map (run __init__ Samples.clock_forward) "u")).
  - reflexivity.
  - repeat constructor; discriminate.
  - vm_compute. reflexivity.
Defined.

End RateLimiter.

(** ** Rounding to float64 *)

Section Float64Facts.
Import Float64.

Lemma pow2_pos (k : Z) : (0 < 2 ^ k)%Q.
Proof. apply Qpower_0_lt. reflexivity. Qed.

Lemma pow2_plus (a b : Z) : (2 ^ (a + b) == 2 ^ a * 2 ^ b)%Q.
Proof. apply Qpower_plus. discriminate. Qed.

Lemma pow2_int (k : Z) : (0 <= k)%Z -> (2 ^ k == inject_Z (2 ^ k))%Q.
Proof. intros H. now rewrite Zpower_Qpower. Qed.

Lemma pow2_le (a b : Z) : (a <= b)%Z -> (2 ^ a <= 2 ^ b)%Q.
Proof. intros H. apply Qpower_le_compat_l; [exact H|discriminate]. Qed.

(** A power of two below a number below a power of two. *)
Lemma pow2_between (a b : Z) (x : Q) :
  (2 ^ a <= x)%Q -> (x < 2 ^ b)%Q -> (a < b)%Z.
Proof.
  intros H1 H2. apply (Qpower_lt_compat_l_inv 2); [|reflexivity].
  eapply Qle_lt_trans; eassumption.
Qed.

Lemma ilog2_lower (x : Q) : (0 < x)%Q -> (2 ^ ilog2 x <= x)%Q.
Proof.
  intros Hx. unfold ilog2.
  destruct (Qle_bool _ x) eqn:Hle; [now apply Qle_bool_iff|]. clear Hle.
  destruct x as [n d]. cbn [Qnum Qden].
  assert (Hn : (0 < n)%Z).
  { unfold Qlt in Hx. cbn in Hx. lia. }
  destruct (Z.log2_spec n Hn) as [Hn1 _].
  destruct (Z.log2_spec (Zpos d) eq_refl) as [_ Hd2].
  pose proof (Z.log2_nonneg n) as Hln. pose proof (Z.log2_nonneg (Zpos d)) as Hld.
  set (ln := Z.log2 n) in *. set (ld := Z.log2 (Zpos d)) in *.
  assert (Hq : (n # d == inject_Z n / inject_Z (Zpos d))%Q) by apply Qmake_Qdiv.
  rewrite Hq. apply Qle_shift_div_l; [reflexivity|].
  assert (H1 : (inject_Z (Zpos d) <= 2 ^ (ld + 1))%Q).
  { rewrite pow2_int by lia. rewrite <- Zle_Qle. unfold Z.succ in Hd2. lia. }
  assert (H2 : (2 ^ ln <= inject_Z n)%Q).
  { rewrite pow2_int by lia. now rewrite <- Zle_Qle. }
  assert (H3 : (2 ^ (ln - ld - 1) * 2 ^ (ld + 1) == 2 ^ ln)%Q).
  { rewrite <- pow2_plus. now replace (ln - ld - 1 + (ld + 1))%Z with ln by lia. }
  pose proof (pow2_pos (ln - ld - 1)) as Hp.
  apply Qle_trans with (2 ^ (ln - ld - 1) * 2 ^ (ld + 1))%Q; [|rewrite H3; exact H2].
  apply Qmult_le_l; [exact Hp|exact H1].
Qed.

Lemma round_half_even_le (x : Q) (n : Z) :
  (x <= inject_Z n)%Q -> (round_half_even x <= n)%Z.
Proof.
  intros H. unfold round_half_even.
  pose proof (Qfloor_resp_le _ _ H) as Hf. rewrite Qfloor_Z in Hf.
  pose proof (Qfloor_le x) as Hlo.
  assert (Hstrict : (1 # 2 <= x - inject_Z (Qfloor x))%Q -> (Qfloor x + 1 <= n)%Z).
  { intros Hhalf. assert (Hlt : (inject_Z (Qfloor x) < inject_Z n)%Q) by lra.
    rewrite <- Zlt_Qlt in Hlt. lia. }
  destruct (Qcompare_spec (x - inject_Z (Qfloor x)) (1 # 2)) as [He|Hl|Hg].
  - destruct (Z.even _); [exact Hf|]. apply Hstrict. lra.
  - exact Hf.
  - apply Hstrict. lra.
Qed.

Lemma round_half_even_ge (x : Q) (n : Z) :
  (inject_Z n <= x)%Q -> (n <= round_half_even x)%Z.
Proof.
  intros H. unfold round_half_even.
  pose proof (Qfloor_resp_le _ _ H) as Hf. rewrite Qfloor_Z in Hf.
  destruct (_ ?= _)%Q; [destruct (Z.even _)| |]; lia.
Qed.

Lemma round_half_even_int (x : Q) (n : Z) :
  (x == inject_Z n)%Q -> round_half_even x = n.
Proof.
  intros H. apply Z.le_antisymm.
  - apply round_half_even_le. rewrite H. apply Qle_refl.
  - apply round_half_even_ge. rewrite H. apply Qle_refl.
Qed.





Lemma of_Q_compat (x y : Q) : (x == y)%Q -> of_Q x = of_Q y.
Proof. intros H. unfold of_Q. now rewrite (Qred_complete x y H). Qed.

Lemma pow2_1024_large (y : Q) (c : Z) :
  (y <= inject_Z c)%Q -> (c < 2 ^ 53)%Z -> Qle_bool (2 ^ 1024) y = false.
Proof.
  intros Hy Hc. apply not_true_is_false. intros H. apply Qle_bool_iff in H.
  assert (H53 : (2 ^ 53 <= 2 ^ 1024)%Q) by (apply pow2_le; lia).
  rewrite (pow2_int 53) in H53 by lia.
  assert (Hlt : (inject_Z c < inject_Z (2 ^ 53))%Q) by now rewrite <- Zlt_Qlt.
  lra.
Qed.



End Float64Facts.

(** ** DataProcessor.generate_quality_report: missing data *)

Section MissingData.
Import Pandas DataProcessor Spec.

Lemma count_true_le (mask : list bool) : (count_true mask <= length mask)%nat.
Proof. unfold count_true. apply filter_length_le. Qed.



(** In an aligned table no column has more missing cells than the
    table has rows. *)
Lemma total_nulls_le (df : DataFrame) (rows : nat) :
  Forall (fun nc : string * column => col_len (snd nc) = rows) df ->
  (total_nulls df <= rows * ncols df)%nat.
Proof.
  unfold total_nulls, ncols, list_sum.
  induction df as [|[col c] df IH]; intros H; cbn [map fold_right length snd]; [lia|].
  apply Forall_cons_iff in H as [Hc Hdf]. specialize (IH Hdf).
  pose proof (count_true_le (isnull c)) as Hle.
  cbn [snd] in Hc. unfold col_len in Hc. nia.
Qed.

(** The report is there unless a text column meets a table without
    rows. *)
Lemma quality_report_returns (df : DataFrame) :
  (0 < len df)%nat \/ object_columns df = [] ->
  generate_quality_report df
  = inr {| missing_data_percentage := Float64.format_2f (missing_percentage df);
           duplicate_rows := count_true (duplicated df);
           potential_outliers := total_outliers df |}.
Proof.
  intros H. unfold generate_quality_report.
  destruct H as [H|H].
  - destruct (len df); [lia|]. cbn [Nat.eqb]. now rewrite andb_false_r.
  - now rewrite H.
Qed.

Lemma quality_report_raises (df : DataFrame) :
  len df = O -> object_columns df <> [] ->
  generate_quality_report df = inl DivisionByZero.
Proof.
  intros Hlen Hobj. unfold generate_quality_report. rewrite Hlen.
  destruct (object_columns df); [congruence|]. reflexivity.
Qed.





End MissingData.

(** ** Outliers of a column without variance *)

Section Outliers.
Import Pandas DataProcessor Spec.

Lemma insert_sorted_Forall (P : Q -> Prop) (x : Q) (l : list Q) :
  P x -> Forall P l -> Forall P (insert_sorted x l).
Proof.
  intros Hx. induction l as [|y l IH]; intros Hl; cbn [insert_sorted].
  - now constructor.
  - apply Forall_cons_iff in Hl as [Hy Hl].
    destruct (Qle_bool x y); repeat constructor; auto.
Qed.







Lemma fraction_range (h : Q) :
  (0 <= h - inject_Z (Qfloor h))%Q /\ (h - inject_Z (Qfloor h) <= 1)%Q.
Proof.
  pose proof (Qfloor_le h) as H1. pose proof (Qlt_floor h) as H2.
  rewrite inject_Z_plus in H2. change (inject_Z 1) with 1%Q in H2.
  generalize dependent (inject_Z (Qfloor h)). intros z H1 H2. split; lra.
Qed.







(** The profiles are there for a frame without columns and for a frame
    with rows, without a column of truth values and with text cells
    that convert; otherwise the first column that cannot be profiled
    raises. *)
Lemma profiles_of_returns (rows : nat) (columns : DataFrame) :
  (0 < rows)%nat ->
  Forall (fun nc : string * column => is_bool_dtype (snd nc) = false) columns ->
  converts columns = true ->
  exists profiles, profiles_of rows columns = inr profiles.
Proof.
  intros Hrows. induction columns as [|[col c] columns IH]; intros Hbool Hconv;
    [now exists []|].
  apply Forall_cons_iff in Hbool as [Hb Hbool]. cbn [snd] in Hb.
  cbn [profiles_of]. unfold column_profile.
  destruct rows as [|rows]; [lia|]. cbn [Nat.eqb].
  assert (Hrest : converts columns = true).
  { destruct c; try exact Hconv. unfold converts, text_cells in *.
    cbn [object_columns forallb] in Hconv. now apply andb_true_iff in Hconv as [_ H]. }
  destruct (IH Hbool Hrest) as [profiles ->].
  destruct c as [xs|cells|xs|xs]; try (eexists; reflexivity); [|discriminate].
  unfold converts, text_cells in Hconv. cbn [object_columns forallb snd] in Hconv.
  apply andb_true_iff in Hconv as [Hc _].
  destruct (astype_str_all (fun _ => true) _ Hc) as (strs & -> & _).
  eexists; reflexivity.
Qed.





(** Scenario 2: among 10, 12, 11, 13, 12, 100 the fences are 9 and 15
    and 100 is the only outlier. *)
Example scenario2_outlier :
  bounds Samples.ages = (Float64.Finite 9, Float64.Finite 15)
  /\ outliers Samples.ages = [Some 100%Q] /\ outlier_rows Samples.ages = 1%nat.
Proof. repeat split; vm_compute; reflexivity. Qed.

End Outliers.

(** ** DataProcessor.clean_data *)

Section Cleaning.
Import Pandas DataProcessor Spec.

Lemma alloc_extends (h : gmap nat DataFrame) (df : DataFrame) :
  extends h (snd (alloc h df)) (fst (alloc h df)).
Proof.
  unfold alloc. cbn [fst snd].
  assert (Hfresh : h !! fresh (dom h) = None)
    by (apply not_elem_of_dom, is_fresh).
  repeat split.
  - exact Hfresh.
  - rewrite lookup_insert_eq. eauto.
  - intros r' [x Hx]. rewrite lookup_insert_ne; [reflexivity|].
    intros Heq. rewrite Heq, Hx in Hfresh. discriminate.
Qed.

Lemma writes_only_refl (h : gmap nat DataFrame) (r : ref) : writes_only h h r.
Proof. split; auto. Qed.

Lemma writes_only_trans (h1 h2 h3 : gmap nat DataFrame) (r : ref) :
  writes_only h1 h2 r -> writes_only h2 h3 r -> writes_only h1 h3 r.
Proof.
  intros [Ha1 Hf1] [Ha2 Hf2]. split; [auto|].
  intros r' Hne. rewrite Hf2, Hf1; auto.
Qed.

Lemma writes_only_insert (h : gmap nat DataFrame) (r : ref) (df : DataFrame) :
  writes_only h (<[r := df]> h) r.
Proof.
  split.
  - intros _. rewrite lookup_insert_eq. eauto.
  - intros r' Hne. now rewrite lookup_insert_ne.
Qed.

Lemma fill_numeric_writes (l : ref) (h : gmap nat DataFrame) (col : string) :
  writes_only h (fill_numeric l h col) l.
Proof.
  unfold fill_numeric.
  destruct (h !! l) as [frame|]; [|apply writes_only_refl].
  destruct (get_column col frame) as [[xs|xs|xs|xs]|]; try apply writes_only_refl.
  destruct (any (isnull_cells xs)); [apply writes_only_insert|apply writes_only_refl].
Qed.

Lemma fill_categorical_writes (l : ref) (h : gmap nat DataFrame) (col : string) :
  writes_only h (fill_categorical l h col) l.
Proof.
  unfold fill_categorical.
  destruct (h !! l) as [frame|]; [|apply writes_only_refl].
  destruct (get_column col frame) as [[xs|xs|xs|xs]|]; try apply writes_only_refl.
  destruct (any (isnull_cells xs)); [apply writes_only_insert|apply writes_only_refl].
Qed.

Lemma foldl_writes (f : gmap nat DataFrame -> string -> gmap nat DataFrame) (l : ref) :
  (forall h col, writes_only h (f h col) l) ->
  forall cols h, writes_only h (foldl f h cols) l.
Proof.
  intros Hf. induction cols as [|col cols IH]; intros h; cbn [foldl].
  - apply writes_only_refl.
  - eapply writes_only_trans; [apply Hf|apply IH].
Qed.

(** A new reference stays new when only its frame is written. *)
Lemma extends_writes (h h1 h2 : gmap nat DataFrame) (r : ref) :
  extends h h1 r -> writes_only h1 h2 r -> extends h h2 r.
Proof.
  intros (Hnew & Halloc & Hsame) (Hkeep & Hframe). repeat split; auto.
  intros r' Hr'. rewrite Hframe; [now apply Hsame|].
  intros ->. rewrite Hnew in Hr'. now destruct Hr'.
Qed.

(** Two allocations in a row. *)
Lemma extends_extends (h h1 h2 : gmap nat DataFrame) (r1 r2 : ref) :
  extends h h1 r1 -> extends h1 h2 r2 -> extends h h2 r2.
Proof.
  intros (Hnew1 & Halloc1 & Hsame1) (Hnew2 & Halloc2 & Hsame2). repeat split; auto.
  - destruct (h !! r2) as [x|] eqn:Hx; [|reflexivity].
    rewrite <- Hsame1, Hnew2 in Hx by (rewrite Hx; eauto). discriminate.
  - intros r' Hr'. rewrite Hsame2; [now apply Hsame1|].
    rewrite Hsame1; auto.
Qed.

(** C8. Whatever the options, [clean_data] returns a reference that
    did not exist before the call, and every frame of the store, the
    input among them, is after the call what it was before. *)
Theorem clean_data_preserves_input (h : gmap nat DataFrame) (df : ref)
    (cleaning_options : option (gmap string bool)) (frame : DataFrame) :
  h !! df = Some frame ->
  exists c, clean_data h df cleaning_options = Some c
            /\ result_store c !! df = Some frame
            /\ result_ref c <> df
            /\ h !! result_ref c = None
            /\ is_Some (result_store c !! result_ref c)
            /\ forall r, is_Some (h !! r) -> result_store c !! r = h !! r.
Proof.
  intros Hdf. unfold clean_data. rewrite Hdf. cbn [mbind option_bind].
  pose proof (alloc_extends h frame) as Hcopy.
  destruct (alloc h frame) as [r1 h1]. cbn [fst snd] in Hcopy.
  set (opts := default default_options cleaning_options).
  assert (Hdedup : exists r2 h2 out,
            (if get opts "remove_duplicates" then remove_duplicates r1 h1
             else (r1, h1, None)) = (r2, h2, out)
            /\ extends h h2 r2).
  { destruct (get opts "remove_duplicates").
    - unfold remove_duplicates.
      pose proof (alloc_extends h1 (drop_duplicates (deref h1 r1))) as Hnew.
      destruct (alloc h1 (drop_duplicates (deref h1 r1))) as [r2 h2].
      cbn [fst snd] in Hnew. eexists _, _, _. split; [reflexivity|].
      eapply extends_extends; eauto.
    - eexists _, _, _. split; [reflexivity|exact Hcopy]. }
  destruct Hdedup as (r2 & h2 & out & -> & Hext2).
  set (h3 := if get opts "fill_numeric_missing" then fill_numeric_missing r2 h2 else h2).
  assert (Hext3 : extends h h3 r2).
  { apply (extends_writes h h2); [exact Hext2|]. unfold h3.
    destruct (get opts "fill_numeric_missing"); [|apply writes_only_refl].
    apply foldl_writes, fill_numeric_writes. }
  set (h4 := if get opts "fill_categorical_missing"
             then fill_categorical_missing r2 h3 else h3).
  assert (Hext4 : extends h h4 r2).
  { apply (extends_writes h h3); [exact Hext3|]. unfold h4.
    destruct (get opts "fill_categorical_missing"); [|apply writes_only_refl].
    apply foldl_writes, fill_categorical_writes. }
  destruct Hext4 as (Hnew & Halloc & Hsame).
  eexists. split; [reflexivity|]. cbn [result_store result_ref].
  repeat split; auto.
  - rewrite Hsame, Hdf; eauto.
  - intros ->. rewrite Hdf in Hnew. discriminate.
Qed.

(** The table with gaps, cleaned with all three switches on. *)
Lemma clean_data_preserves_input_witness :
  exists c, clean_data {[ 0%nat := Samples.gaps ]} 0%nat (Some Samples.all_switches) = Some c
            /\ result_store c !! 0%nat = Some Samples.gaps
            /\ result_ref c <> 0%nat
            /\ ({[ 0%nat := Samples.gaps ]} : gmap nat DataFrame) !! result_ref c = None
            /\ is_Some (result_store c !! result_ref c)
            /\ forall r, is_Some (({[ 0%nat := Samples.gaps ]} : gmap nat DataFrame) !! r) ->
                         result_store c !! r
                         = ({[ 0%nat := Samples.gaps ]} : gmap nat DataFrame) !! r.
Proof.
  apply (clean_data_preserves_input {[ 0%nat := Samples.gaps ]} 0%nat
           (Some Samples.all_switches) Samples.gaps).
  reflexivity.
Defined.

(** Scenario 3: with [remove_duplicates] alone, the one row that
    repeats an earlier one is dropped, the other rows keep their
    values and their order, and the input keeps its four rows. *)
Example scenario3_remove_duplicates :
  (fun c => (deref (result_store c) (result_ref c), printed c,
             deref (result_store c) 0%nat))
    <$> clean_data {[ 0%nat := Samples.gaps ]} 0%nat None
  = Some ([ ("n", ColNumber [Some 1; None; Some 3]%Q);
            ("s", ColObject [Some (PStr "x"); None; None]) ],
          Some 1%nat,
          Samples.gaps).
Proof. vm_compute. reflexivity. Qed.

End Cleaning.

(** ** The tests of [test-security.py] *)

Section RepositoryTests.
Import SecurityConfig.

Example test_data_validation_safe :
  safe (validate_data_content __init__ Samples.safe_data) = true
  /\ errors (validate_data_content __init__ Samples.safe_data) = [].
Proof. split; vm_compute; reflexivity. Qed.

Example test_data_validation_suspicious :
  warnings (validate_data_content __init__ Samples.suspicious_data)
  = [SuspiciousColumn "comment"].
Proof. vm_compute. reflexivity. Qed.

(** One call, ten more, and a last one, all within a minute: the first
    is allowed, the last is not. *)
Example test_api_rate_limiting :
  map allowed (fst (calls __init__ "test_user" (repeat 0%Q 12)))
  = repeat true 10 ++ [false; false].
Proof. vm_compute. reflexivity. Qed.

End RepositoryTests.

(** ** SecurityConfig.validate_api_usage: identities, counts, denials *)

Section RateLimiterInvariants.
Import SecurityConfig Spec.

Lemma run_invariant (P : t -> Prop) :
  (forall self now uid, P self -> P (snd (validate_api_usage self now uid))) ->
  forall trace self, P self -> P (run self trace).
Proof.
  intros Hstep. induction trace as [|[u now] trace IH]; intros self HP; [exact HP|].
  cbn [run]. apply IH, Hstep, HP.
Qed.

Lemma run_limits (trace : list (string * Q)) (self : t) :
  limits (run self trace) = limits self.
Proof.
  revert self. induction trace as [|[u now] trace IH]; intros self; [reflexivity|].
  cbn [run]. rewrite IH.
  now destruct (validate_api_usage_spec self now u) as (_ & _ & Hlim & _).
Qed.

(** The answer to a call depends on the limits and on the counters of
    the caller only. *)
Lemma validate_api_usage_fst_ext (s1 s2 : t) (now : Q) (uid : string) :
  limits s1 = limits s2 ->
  api_call_tracker s1 !! uid = api_call_tracker s2 !! uid ->
  fst (validate_api_usage s1 now uid) = fst (validate_api_usage s2 now uid).
Proof.
  intros Hlim Htr.
  destruct (validate_api_usage_spec s1 now uid) as (-> & _).
  destruct (validate_api_usage_spec s2 now uid) as (-> & _).
  unfold count, user_map. now rewrite Hlim, Htr.
Qed.

(** X1. Calls of other identities, at whatever clock readings, change
    neither the counters of an identity nor the answer to its next
    call. *)
Theorem other_identities_unaffected (self : t) (trace : list (string * Q))
    (now : Q) (uid : string) :
  Forall (fun c : string * Q => fst c <> uid) trace ->
  api_call_tracker (run self trace) !! uid = api_call_tracker self !! uid
  /\ fst (validate_api_usage (run self trace) now uid)
     = fst (validate_api_usage self now uid).
Proof.
  intros Hother.
  assert (Htr : api_call_tracker (run self trace) !! uid = api_call_tracker self !! uid).
  { revert self. induction Hother as [|[u t0] trace Hu _ IH]; intros self; [reflexivity|].
    cbn [run]. rewrite IH.
    destruct (validate_api_usage_spec self t0 u) as (_ & _ & _ & Hrest).
    apply Hrest. cbn [fst] in Hu. congruence. }
  split; [exact Htr|].
  apply validate_api_usage_fst_ext; [apply run_limits|exact Htr].
Qed.

(** After two calls of [v] and one of [w], [u] still has its full
    quota. *)
Lemma other_identities_unaffected_witness :
  api_call_tracker (run __init__ Samples.two_users) !! "u" = api_call_tracker __init__ !! "u"
  /\ fst (validate_api_usage (run __init__ Samples.two_users) 4%Q "u")
     = fst (validate_api_usage __init__ 4%Q "u").
Proof.
  apply (other_identities_unaffected __init__ Samples.two_users 4%Q "u").
  repeat constructor; discriminate.
Defined.

Lemma validate_api_usage_counts (self : t) (now : Q) (uid : string) :
  counts_within self -> counts_within (snd (validate_api_usage self now uid)).
Proof.
  intros Hinv u ut k c Hut Hc.
  destruct (validate_api_usage_spec self now uid) as (_ & Htr & Hlim & Hrest).
  rewrite Hlim.
  destruct (decide (u = uid)) as [->|Hne];
    [|rewrite Hrest in Hut by exact Hne; exact (Hinv u ut k c Hut Hc)].
  rewrite Htr in Hut. injection Hut as <-.
  assert (Hold : forall k' c', user_map self uid !! k' = Some c' ->
            (1 <= c' <= SecurityLimits.MAX_API_CALLS_PER_MINUTE (limits self))%Z).
  { intros k' c' Hk'. unfold user_map in Hk'.
    destruct (api_call_tracker self !! uid) as [ut0|] eqn:Hu.
    - exact (Hinv uid ut0 k' c' Hu Hk').
    - cbn in Hk'. rewrite lookup_empty in Hk'. discriminate. }
  assert (Hclean : forall k' c',
            clean_old_entries (user_map self uid) (minute_of now) !! k' = Some c' ->
            (1 <= c' <= SecurityLimits.MAX_API_CALLS_PER_MINUTE (limits self))%Z).
  { intros k' c'. rewrite clean_old_entries_lookup. case_decide; [discriminate|].
    apply Hold. }
  destruct (_ <=? _)%Z eqn:Hle; [exact (Hclean k c Hc)|].
  apply Z.leb_gt in Hle.
  destruct (decide (k = minute_of now)) as [->|Hk].
  - rewrite lookup_insert_eq in Hc. injection Hc as <-.
    unfold count in *. set (m := minute_of now) in *.
    destruct (user_map self uid !! m) as [c0|] eqn:Hc0; cbn [from_option id] in *.
    + pose proof (Hold _ _ Hc0). lia.
    + lia.
  - rewrite lookup_insert_ne in Hc by congruence. exact (Hclean k c Hc).
Qed.

(** X2. From a tracker that starts empty, whatever the calls and their
    clock readings: every stored count lies between 1 and the limit, an
    admitted call reports between 0 and limit - 1 remaining calls, and
    a denied call reports a retry_after that is positive and at most
    60 seconds. *)
Theorem usage_report_range (self : t) (trace : list (string * Q)) (now : Q)
    (uid : string) :
  api_call_tracker self = ∅ ->
  counts_within (run self trace)
  /\ match fst (validate_api_usage (run self trace) now uid) with
     | Allowed remaining_calls =>
         (0 <= remaining_calls
          < SecurityLimits.MAX_API_CALLS_PER_MINUTE (limits self))%Z
     | RateLimited limit retry_after =>
         limit = SecurityLimits.MAX_API_CALLS_PER_MINUTE (limits self)
         /\ (0 < retry_after)%Q /\ (retry_after <= 60)%Q
     end.
Proof.
  intros Hempty.
  assert (Hinv : counts_within (run self trace)).
  { apply (run_invariant counts_within); [apply validate_api_usage_counts|].
    intros u ut k c Hu. rewrite Hempty, lookup_empty in Hu. discriminate. }
  split; [exact Hinv|].
  destruct (validate_api_usage_spec (run self trace) now uid) as (-> & _).
  rewrite run_limits.
  destruct (_ <=? _)%Z eqn:Hle.
  - split; [reflexivity|].
    pose proof (seconds_into_minute_range now) as [Hlo Hhi]. split; lra.
  - apply Z.leb_gt in Hle. unfold count, user_map in *.
    set (m := minute_of now) in *.
    destruct (api_call_tracker (run self trace) !! uid) as [ut|] eqn:Hu;
      cbn [from_option id] in *.
    + destruct (ut !! m) as [c|] eqn:Hc; cbn [from_option id] in *.
      * pose proof (Hinv uid ut _ c Hu Hc) as Hr. rewrite run_limits in Hr. lia.
      * lia.
    + rewrite lookup_empty in *. cbn [from_option id] in *. lia.
Qed.

Lemma usage_report_range_witness :
  counts_within (run __init__ Samples.clock_set_back)
  /\ match fst (validate_api_usage (run __init__ Samples.clock_set_back) 3061%Q "u") with
     | Allowed remaining_calls =>
         (0 <= remaining_calls
          < SecurityLimits.MAX_API_CALLS_PER_MINUTE (limits __init__))%Z
     | RateLimited limit retry_after =>
         limit = SecurityLimits.MAX_API_CALLS_PER_MINUTE (limits __init__)
         /\ (0 < retry_after)%Q /\ (retry_after <= 60)%Q
     end.
Proof.
  apply (usage_report_range __init__ Samples.clock_set_back 3061%Q "u").
  reflexivity.
Defined.

(** X3. A denied call is not counted: the count of the bucket is what it
    was, and the next call of the identity within the same minute is
    denied as well. *)
Theorem denial_is_stable (self : t) (now later : Q) (uid : string) :
  allowed (fst (validate_api_usage self now uid)) = false ->
  minute_of later = minute_of now ->
  count (snd (validate_api_usage self now uid)) uid (minute_of now)
  = count self uid (minute_of now)
  /\ allowed (fst (validate_api_usage (snd (validate_api_usage self now uid)) later uid))
     = false.
Proof.
  intros Hdenied Hsame.
  destruct (validate_api_usage_spec self now uid) as (Hfst & Htr & Hlim & _).
  rewrite Hfst in Hdenied.
  destruct (_ <=? _)%Z eqn:Hle; [|discriminate].
  assert (Hcount : count (snd (validate_api_usage self now uid)) uid (minute_of now)
                   = count self uid (minute_of now)).
  { unfold count at 1, user_map at 1. rewrite Htr. cbn [from_option id].
    rewrite clean_old_entries_lookup. case_decide; [lia|reflexivity]. }
  split; [exact Hcount|].
  destruct (validate_api_usage_spec (snd (validate_api_usage self now uid)) later uid)
    as (-> & _).
  now rewrite Hsame, Hcount, Hlim, Hle.
Qed.

(** The twelfth call of the burst is denied like the eleventh. *)
Lemma denial_is_stable_witness :
  count (snd (validate_api_usage (snd (calls __init__ "u" Samples.burst)) Samples.over "u"))
        "u" (minute_of Samples.over)
  = count (snd (calls __init__ "u" Samples.burst)) "u" (minute_of Samples.over)
  /\ allowed (fst (validate_api_usage
                     (snd (validate_api_usage (snd (calls __init__ "u" Samples.burst))
                                              Samples.over "u"))
                     11%Q "u"))
     = false.
Proof.
  apply (denial_is_stable (snd (calls __init__ "u" Samples.burst)) Samples.over 11%Q "u").
  - vm_compute. reflexivity.
  - reflexivity.
Defined.

End RateLimiterInvariants.

(** ** SecurityConfig.validate_data_content: the whole result *)

Section SessionScanResult.
Import Py Pandas SecurityConfig Spec.
Variable self : SecurityConfig.t.

Lemma astype_str_In_inv (xs : list pyobj) (strs : list string) (s : string) :
  astype_str xs = Ok strs -> In s strs -> exists o, In o xs /\ to_str o = Ok s.
Proof.
  revert strs. induction xs as [|x xs IH]; intros strs H Hin.
  - injection H as <-. destruct Hin.
  - rewrite astype_str_cons in H.
    destruct (to_str x) as [sx|] eqn:Hx; [|discriminate].
    destruct (astype_str xs) as [ss|] eqn:Hxs; [|discriminate].
    injection H as <-. destruct Hin as [<-|Hin].
    + exists x. split; [now left|exact Hx].
    + destruct (IH ss eq_refl Hin) as (o & Ho & Hs). exists o. split; [now right|exact Hs].
Qed.

(** The loop over the cell sizes: it leaves the verdict, the errors and
    the suspicious columns alone, it stops with an exception exactly
    when some column does not convert, and otherwise it appends the
    warnings about large cells. *)
Lemma check_cell_sizes_outcome cols v :
  let r := check_cell_sizes self cols v in
  safe (fst r) = safe v /\ errors (fst r) = errors v
  /\ suspicious_columns (fst r) = suspicious_columns v
  /\ (snd r = None <-> all_convert cols = true)
  /\ (snd r = None -> warnings (fst r) = warnings v ++ large_cell_warnings self cols).
Proof.
  revert v. induction cols as [|[col cells] rest IH]; intros v; cbn zeta.
  - cbn. rewrite app_nil_r. repeat split; auto.
  - cbn [check_cell_sizes all_convert forallb snd large_cell_warnings flat_map fst].
    destruct (astype_str (dropna cells)) as [strs|e] eqn:Hconv.
    + rewrite (astype_str_Ok_all _ _ Hconv). cbn [andb].
      match goal with |- context [check_cell_sizes self rest ?v0] =>
        specialize (IH v0); cbn zeta in IH;
        destruct IH as (Hs & He & Hc & Hnone & Hw) end.
      rewrite Hs, He, Hc.
      destruct (gt _ _); cbn [safe errors suspicious_columns warnings add_warning];
        repeat split; try tauto.
      intros Hn. rewrite (Hw Hn). cbn [warnings add_warning].
      now rewrite <- app_assoc.
    + cbn [fst snd]. repeat split; auto; try discriminate.
      intros H. apply andb_true_iff in H as [H _].
      destruct (astype_str_all (fun _ => true) _ H) as (strs & Hs & _). congruence.
Qed.

Lemma check_pii_columns_spec cols :
  all_convert cols = true ->
  check_pii_columns cols
  = Ok (flat_map (fun nc : string * list (option pyobj) =>
                    match astype_str (dropna (snd nc)) with
                    | Ok strs => pii_warnings_of (fst nc) strs
                    | Raise _ => []
                    end) cols).
Proof.
  induction cols as [|[col cells] rest IH]; intros H; [reflexivity|].
  cbn [all_convert forallb snd] in H. apply andb_true_iff in H as [Hc Hrest].
  destruct (astype_str_all (fun _ => true) _ Hc) as (strs & Hconv & _).
  cbn [check_pii_columns flat_map fst snd]. rewrite Hconv, (IH Hrest). reflexivity.
Qed.

Lemma check_pii_columns_raise cols :
  all_convert cols = false -> exists e, check_pii_columns cols = Raise e.
Proof.
  induction cols as [|[col cells] rest IH]; intros H; [discriminate|].
  cbn [all_convert forallb snd] in H. cbn [check_pii_columns].
  destruct (astype_str (dropna cells)) as [strs|e] eqn:Hconv; [|eauto].
  rewrite (astype_str_Ok_all _ _ Hconv) in H. cbn [andb] in H.
  destruct (IH H) as [e ->]. eauto.
Qed.

(** When [validate_data_content] answers safe. *)
Lemma validate_data_content_safe (df : DataFrame) :
  let r := validate_data_content self df in
  (safe r = true <-> errors r = [])
  /\ (safe r = true <->
       (Z.of_nat (len df) <= SecurityLimits.MAX_ROWS (limits self))%Z
       /\ (Z.of_nat (ncols df) <= SecurityLimits.MAX_COLUMNS (limits self))%Z
       /\ converts df = true).
Proof.
  cbn zeta. unfold validate_data_content.
  set (v0 := check_size_limits self df (ValidationResult true [] [] [])).
  assert (H0 : (safe v0 = true <-> errors v0 = [])
               /\ (safe v0 = true <->
                    (Z.of_nat (len df) <= SecurityLimits.MAX_ROWS (limits self))%Z
                    /\ (Z.of_nat (ncols df) <= SecurityLimits.MAX_COLUMNS (limits self))%Z)).
  { unfold v0, check_size_limits.
    destruct (Z.ltb_spec (SecurityLimits.MAX_ROWS (limits self)) (Z.of_nat (len df)));
      destruct (Z.ltb_spec (SecurityLimits.MAX_COLUMNS (limits self)) (Z.of_nat (ncols df)));
      cbn; repeat split; intros; try discriminate; try lia; auto. }
  destruct (check_suspicious_spec self (object_columns df) v0) as (Hs1 & He1 & _).
  set (v1 := check_suspicious self (object_columns df) v0) in *.
  destruct (check_cell_sizes_outcome (object_columns df) v1) as (Hs2 & He2 & _ & Hnone & _).
  destruct (check_cell_sizes self (object_columns df) v1) as [v2 oe].
  cbn [fst snd] in *. fold (converts df) in *.
  change (all_convert (object_columns df)) with (converts df) in Hnone.
  assert (Hbad : forall e, let r := validation_failed v2 e in
            (safe r = true <-> errors r = [])
            /\ (safe r = true <-> False)).
  { intros e. cbn. repeat split; intros H; try discriminate; try tauto.
    destruct (errors v2); discriminate. }
  destruct oe as [e|].
  - destruct (Hbad e) as [Ha Hb]. split; [exact Ha|].
    rewrite Hb. split; [tauto|]. intros (_ & _ & Hc).
    apply Hnone in Hc. discriminate.
  - assert (Hc : converts df = true) by now apply Hnone.
    unfold _check_for_pii. rewrite (check_pii_columns_spec _ Hc).
    cbn [safe errors]. rewrite Hs2, Hs1, He2, He1. tauto.
Qed.

(** X4. The result is safe exactly when it carries no error, and exactly
    when the table is within the limits on rows and columns and every
    text cell converts to [str]. *)
Theorem session_scan_safe_iff (df : DataFrame) :
  let r := validate_data_content self df in
  (safe r = true <-> errors r = [])
  /\ (safe r = true <->
       (Z.of_nat (len df) <= SecurityLimits.MAX_ROWS (limits self))%Z
       /\ (Z.of_nat (ncols df) <= SecurityLimits.MAX_COLUMNS (limits self))%Z
       /\ converts df = true).
Proof. exact (validate_data_content_safe df). Qed.

(** Within the limits and with every cell converting, the result is
    safe and without error, lists the flagged columns, and holds the
    warnings in this order: suspicious content, large cells, PII. *)
Lemma validate_data_content_normal (df : DataFrame) :
  (Z.of_nat (len df) <= SecurityLimits.MAX_ROWS (limits self))%Z ->
  (Z.of_nat (ncols df) <= SecurityLimits.MAX_COLUMNS (limits self))%Z ->
  converts df = true ->
  exists ws,
    _check_for_pii df = Ok ws
    /\ validate_data_content self df
       = ValidationResult true
           (map SuspiciousColumn (flagged self (object_columns df))
            ++ large_cell_warnings self (object_columns df) ++ ws)
           [] (flagged self (object_columns df)).
Proof.
  intros Hrows Hcols Hconv. unfold validate_data_content.
  assert (Hlim : check_size_limits self df (ValidationResult true [] [] [])
                 = ValidationResult true [] [] []).
  { unfold check_size_limits.
    apply Z.ltb_ge in Hrows. apply Z.ltb_ge in Hcols. now rewrite Hrows, Hcols. }
  rewrite Hlim.
  assert (Hsusp : forall cols v,
            check_suspicious self cols v
            = ValidationResult (safe v)
                (warnings v ++ map SuspiciousColumn (flagged self cols))
                (errors v) (suspicious_columns v ++ flagged self cols)).
  { induction cols as [|[col cells] rest IH]; intros v.
    - cbn. rewrite !app_nil_r. now destruct v.
    - cbn [check_suspicious]. unfold flagged. cbn [List.filter snd].
      destruct (_scan_column_for_threats self cells).
      + rewrite IH. cbn. now rewrite <- !app_assoc.
      + apply IH. }
  rewrite Hsusp. cbn [safe warnings errors suspicious_columns app].
  match goal with |- context [check_cell_sizes self _ ?v1] =>
    destruct (check_cell_sizes_outcome (object_columns df) v1)
      as (Hs2 & He2 & Hc2 & Hnone & Hw2);
    destruct (check_cell_sizes self (object_columns df) v1) as [v2 oe] end.
  cbn [fst snd safe errors suspicious_columns warnings] in *.
  assert (oe = None) as -> by now apply Hnone.
  unfold _check_for_pii. rewrite (check_pii_columns_spec _ Hconv).
  eexists. split; [reflexivity|].
  rewrite Hs2, He2, Hc2, (Hw2 eq_refl), <- app_assoc. reflexivity.
Qed.

(** Quantifiers over patterns and over cells commute. *)
Lemma existsb_swap {A B} (f : A -> B -> bool) (xs : list A) (ys : list B) :
  existsb (fun x => existsb (f x) ys) xs
  = existsb (fun y => existsb (fun x => f x y) xs) ys.
Proof.
  apply eq_true_iff_eq. rewrite !existsb_exists. split.
  - intros (x & Hx & H). apply existsb_exists in H as (y & Hy & H).
    exists y. split; [exact Hy|]. apply existsb_exists. eauto.
  - intros (y & Hy & H). apply existsb_exists in H as (x & Hx & H).
    exists x. split; [exact Hx|]. apply existsb_exists. eauto.
Qed.

Lemma existsb_pointwise {A} (f g : A -> bool) (l : list A) :
  (forall x, f x = g x) -> existsb f l = existsb g l.
Proof. intros H. induction l as [|x l IH]; cbn; [reflexivity|]. now rewrite H, IH. Qed.

Lemma any_str_contains (icase : bool) (r : Re.re) (strs : list string) :
  any (str_contains icase r strs) = existsb (Re.search icase r) strs.
Proof.
  unfold any, str_contains. induction strs as [|s strs IH]; cbn; [reflexivity|].
  now rewrite IH.
Qed.

Lemma scan_column_converted (cells : list (option pyobj)) (strs : list string) :
  astype_str (dropna cells) = Ok strs ->
  _scan_column_for_threats self cells = existsb (matches_catalogue self) strs.
Proof.
  intros H. unfold _scan_column_for_threats, matches_catalogue. rewrite H.
  rewrite <- existsb_swap. apply existsb_pointwise. intros p.
  apply any_str_contains.
Qed.

Lemma pii_warnings_of_nil (col : string) (strs : list string) :
  pii_warnings_of col strs = [] <-> existsb pii_shaped strs = false.
Proof.
  unfold pii_shaped. rewrite <- existsb_swap. unfold pii_warnings_of.
  induction pii_patterns as [|[ty pat] pats IH]; cbn [flat_map existsb fst snd];
    [tauto|].
  rewrite any_str_contains. destruct (existsb _ strs); cbn; [split; discriminate|].
  exact IH.
Qed.

Lemma fold_left_max_ge (xs : list Z) (x : Z) :
  (x <= fold_left Z.max xs x)%Z
  /\ Forall (fun y => (y <= fold_left Z.max xs x)%Z) xs.
Proof.
  revert x. induction xs as [|y ys IH]; intros x; cbn [fold_left].
  - split; [lia|constructor].
  - destruct (IH (Z.max x y)) as [H1 H2]. split; [lia|].
    constructor; [lia|exact H2].
Qed.

Lemma gt_max_false (bound : Z) (xs : list Z) :
  gt (max xs) bound = false <-> forallb (fun x => (x <=? bound)%Z) xs = true.
Proof.
  split.
  - destruct xs as [|x xs]; [reflexivity|]. unfold max, gt. intros H.
    apply Z.ltb_ge in H. destruct (fold_left_max_ge xs x) as [H1 H2].
    apply forallb_forall. intros y [<-|Hy]; apply Z.leb_le; [lia|].
    rewrite Forall_forall in H2. apply list_elem_of_In, H2 in Hy. lia.
  - intros H. apply max_le. apply Forall_forall. intros x Hx.
    rewrite forallb_forall in H. apply list_elem_of_In, H in Hx. now apply Z.leb_le.
Qed.

Lemma forallb_to_str (P : string -> bool) (xs : list pyobj) :
  forallb (fun o => match to_str o with Ok s => P s | Raise _ => false end) xs
  = match astype_str xs with Ok strs => forallb P strs | Raise _ => false end.
Proof.
  induction xs as [|x xs IH]; [reflexivity|].
  rewrite astype_str_cons. cbn [forallb]. rewrite IH.
  destruct (to_str x) as [s|]; [|reflexivity].
  destruct (astype_str xs); [reflexivity|apply andb_false_r].
Qed.

(** Column by column: nothing is reported exactly when every cell is
    unremarkable. *)
Lemma nothing_to_report (cols : list (string * list (option pyobj))) :
  all_convert cols = true ->
  (flagged self cols = []
   /\ large_cell_warnings self cols = []
   /\ flat_map (fun nc : string * list (option pyobj) =>
                  match astype_str (dropna (snd nc)) with
                  | Ok strs => pii_warnings_of (fst nc) strs
                  | Raise _ => []
                  end) cols = [])
  <-> forallb (fun nc : string * list (option pyobj) =>
                 forallb (fun o => match to_str o with
                                   | Ok s => unremarkable self s
                                   | Raise _ => false
                                   end) (dropna (snd nc))) cols = true.
Proof.
  induction cols as [|[col cells] rest IH]; intros Hconv; [cbn; tauto|].
  cbn [all_convert forallb snd] in Hconv. apply andb_true_iff in Hconv as [Hc Hrest].
  destruct (astype_str_all (fun _ => true) _ Hc) as (strs & Hstrs & _).
  specialize (IH Hrest).
  unfold flagged in *. cbn [List.filter large_cell_warnings flat_map forallb fst snd map].
  rewrite forallb_to_str, Hstrs, (scan_column_converted cells strs Hstrs).
  rewrite andb_true_iff, <- IH. clear IH.
  assert (Hcol : forallb (unremarkable self) strs = true
                 <-> existsb (matches_catalogue self) strs = false
                     /\ gt (max (str_len strs))
                           (SecurityLimits.MAX_CELL_SIZE_CHARS (limits self)) = false
                     /\ pii_warnings_of col strs = []).
  { rewrite pii_warnings_of_nil, gt_max_false. unfold str_len.
    clear. induction strs as [|s strs IH]; cbn [forallb existsb map]; [tauto|].
    rewrite andb_true_iff, IH, !orb_false_iff, !andb_true_iff.
    unfold unremarkable. rewrite !andb_true_iff, !negb_true_iff. tauto. }
  rewrite Hcol. clear Hcol.
  split.
  - intros (Hf & Hl & Hp).
    destruct (existsb (matches_catalogue self) strs); [discriminate|].
    destruct (gt _ _); [discriminate|].
    apply app_eq_nil in Hp as [Hp1 Hp2]. cbn [app] in Hl. repeat split; auto.
  - intros ((Hm & Hg & Hpii) & Hf & Hl & Hp). rewrite Hm, Hg, Hpii, Hp. auto.
Qed.

(** X5. The result is the untouched record [{safe: True, [], [], []}]
    exactly when the table is within the limits on rows and columns and
    every text cell converts, matches no pattern of the catalogue, has
    no PII shape and is within [MAX_CELL_SIZE_CHARS]. *)
Theorem session_scan_all_clear (df : DataFrame) :
  validate_data_content self df = ValidationResult true [] [] []
  <-> (Z.of_nat (len df) <= SecurityLimits.MAX_ROWS (limits self))%Z
      /\ (Z.of_nat (ncols df) <= SecurityLimits.MAX_COLUMNS (limits self))%Z
      /\ text_cells (unremarkable self) df = true.
Proof.
  split.
  - intros Hr.
    destruct (validate_data_content_safe df) as [_ Hsafe]. cbn zeta in Hsafe.
    rewrite Hr in Hsafe. destruct Hsafe as [(Hrows & Hcols & Hconv) _]; [reflexivity|].
    repeat split; auto.
    destruct (validate_data_content_normal df Hrows Hcols Hconv) as (ws & Hpii & Heq).
    rewrite Hr in Heq. injection Heq as Hw Hf.
    symmetry in Hw, Hf. rewrite Hf in Hw. cbn [map app] in Hw.
    apply app_eq_nil in Hw as [Hlarge Hws]. subst ws.
    unfold _check_for_pii in Hpii. rewrite (check_pii_columns_spec _ Hconv) in Hpii.
    injection Hpii as Hpii.
    apply (nothing_to_report (object_columns df) Hconv). repeat split; auto.
  - intros (Hrows & Hcols & Hclear).
    assert (Hconv : converts df = true)
      by (revert Hclear; apply text_cells_impl; reflexivity).
    destruct (validate_data_content_normal df Hrows Hcols Hconv) as (ws & Hpii & ->).
    apply (nothing_to_report (object_columns df) Hconv) in Hclear
      as (Hf & Hl & Hp).
    unfold _check_for_pii in Hpii. rewrite (check_pii_columns_spec _ Hconv) in Hpii.
    injection Hpii as <-. now rewrite Hf, Hl, Hp.
Qed.

(** The PII warnings, cell by cell. *)
Lemma check_for_pii_warnings (df : DataFrame) (ws : list warning)
    (col pii_type : string) :
  _check_for_pii df = Ok ws ->
  (In (MayContainPII col pii_type) ws
   <-> exists cells pat o s,
         In (col, cells) (object_columns df)
         /\ In (pii_type, pat) pii_patterns
         /\ In (Some o) cells /\ to_str o = Ok s
         /\ Re.search false (compiled pat) s = true).
Proof.
  unfold _check_for_pii. intros Hok.
  destruct (all_convert (object_columns df)) eqn:Hconv;
    [|destruct (check_pii_columns_raise _ Hconv) as [e He]; congruence].
  rewrite (check_pii_columns_spec _ Hconv) in Hok. injection Hok as <-.
  assert (Hone : forall c strs,
            In (MayContainPII col pii_type) (pii_warnings_of c strs)
            <-> c = col /\ exists pat s, In (pii_type, pat) pii_patterns
                                        /\ In s strs
                                        /\ Re.search false (compiled pat) s = true).
  { intros c strs. unfold pii_warnings_of. rewrite in_flat_map. split.
    - intros ([ty pat] & Hin & Hw). cbn [fst snd] in Hw.
      rewrite any_str_contains in Hw.
      destruct (existsb _ strs) eqn:Hex; [|destruct Hw].
      destruct Hw as [Hw|[]]. injection Hw as -> ->. split; [reflexivity|].
      apply existsb_exists in Hex as (s & Hs & Hm). eauto.
    - intros (-> & pat & s & Hin & Hs & Hm). exists (pii_type, pat).
      split; [exact Hin|]. cbn [fst snd]. rewrite any_str_contains.
      assert (existsb (Re.search false (compiled pat)) strs = true) as ->
        by (apply existsb_exists; eauto).
      now left. }
  rewrite in_flat_map. split.
  - intros ([c cells] & Hin & Hw). cbn [fst snd] in Hw.
    destruct (astype_str (dropna cells)) as [strs|] eqn:Hstrs; [|destruct Hw].
    apply Hone in Hw as (-> & pat & s & Hpat & Hs & Hm).
    destruct (astype_str_In_inv _ _ _ Hstrs Hs) as (o & Ho & Hos).
    exists cells, pat, o, s. repeat split; auto. now apply dropna_In.
  - intros (cells & pat & o & s & Hin & Hpat & Ho & Hos & Hm).
    exists (col, cells). split; [exact Hin|]. cbn [fst snd].
    unfold all_convert in Hconv. rewrite forallb_forall in Hconv.
    specialize (Hconv _ Hin). cbn [snd] in Hconv.
    destruct (astype_str_all (fun _ => true) _ Hconv) as (strs & Hstrs & _).
    rewrite Hstrs. apply Hone. split; [reflexivity|]. exists pat, s.
    repeat split; auto. eapply astype_str_In; eauto. now apply dropna_In.
Qed.

(** X6. A PII warning is raised for a column and a kind exactly when some
    cell of the column matches the pattern of that kind, the match
    being case-sensitive. *)
Theorem pii_warnings_exact (df : DataFrame) (ws : list warning)
    (col pii_type : string) :
  _check_for_pii df = Ok ws ->
  (In (MayContainPII col pii_type) ws
   <-> exists cells pat o s,
         In (col, cells) (object_columns df)
         /\ In (pii_type, pat) pii_patterns
         /\ In (Some o) cells /\ to_str o = Ok s
         /\ Re.search false (compiled pat) s = true).
Proof. exact (check_for_pii_warnings df ws col pii_type). Qed.

Lemma flagged_In (cols : list (string * list (option pyobj))) (col : string) :
  all_convert cols = true ->
  (In col (flagged self cols)
   <-> exists cells o s p,
         In (col, cells) cols /\ In (Some o) cells /\ to_str o = Ok s
         /\ In p (suspicious_patterns self)
         /\ Re.search true (compiled p) s = true).
Proof.
  intros Hconv. unfold flagged. rewrite in_map_iff. split.
  - intros ([c cells] & <- & Hin). apply filter_In in Hin as [Hin Hscan].
    cbn [fst snd] in *.
    unfold all_convert in Hconv. rewrite forallb_forall in Hconv.
    pose proof (Hconv _ Hin) as Hc. cbn [snd] in Hc.
    destruct (astype_str_all (fun _ => true) _ Hc) as (strs & Hstrs & _).
    rewrite (scan_column_converted cells strs Hstrs) in Hscan.
    apply existsb_exists in Hscan as (s & Hs & Hm).
    unfold matches_catalogue in Hm. apply existsb_exists in Hm as (p & Hp & Hm).
    destruct (astype_str_In_inv _ _ _ Hstrs Hs) as (o & Ho & Hos).
    exists cells, o, s, p. repeat split; auto. now apply dropna_In.
  - intros (cells & o & s & p & Hin & Ho & Hos & Hp & Hm).
    exists (col, cells). split; [reflexivity|]. apply filter_In. split; [exact Hin|].
    cbn [snd].
    unfold all_convert in Hconv. rewrite forallb_forall in Hconv.
    pose proof (Hconv _ Hin) as Hc. cbn [snd] in Hc.
    destruct (astype_str_all (fun _ => true) _ Hc) as (strs & Hstrs & _).
    rewrite (scan_column_converted cells strs Hstrs).
    apply existsb_exists. exists s. split.
    + eapply astype_str_In; eauto. now apply dropna_In.
    + unfold matches_catalogue. apply existsb_exists. eauto.
Qed.

Lemma large_cell_warnings_kind (cols : list (string * list (option pyobj)))
    (w : warning) :
  In w (large_cell_warnings self cols) -> exists col n, w = VeryLargeCells col n.
Proof.
  unfold large_cell_warnings. rewrite in_flat_map.
  intros ([col cells] & _ & Hw). cbn [fst snd] in Hw.
  destruct (astype_str (dropna cells)); [|destruct Hw].
  destruct (gt _ _); [|destruct Hw]. destruct Hw as [<-|[]]. eauto.
Qed.

Lemma pii_warnings_kind (df : DataFrame) (ws : list warning) (w : warning) :
  _check_for_pii df = Ok ws -> In w ws -> exists col pii_type, w = MayContainPII col pii_type.
Proof.
  unfold _check_for_pii. intros Hok.
  destruct (all_convert (object_columns df)) eqn:Hconv;
    [|destruct (check_pii_columns_raise _ Hconv) as [e He]; congruence].
  rewrite (check_pii_columns_spec _ Hconv) in Hok. injection Hok as <-.
  rewrite in_flat_map. intros ([col cells] & _ & Hw). cbn [fst snd] in Hw.
  destruct (astype_str (dropna cells)); [|destruct Hw].
  unfold pii_warnings_of in Hw. apply in_flat_map in Hw as ([ty pat] & _ & Hw).
  destruct (any _); [|destruct Hw]. destruct Hw as [<-|[]]. eauto.
Qed.

(** C10. A table within the limits on rows and columns, none of whose
    text cells raises on conversion, is reported safe by the
    in-session scan, with no error, whatever its text cells match. A
    column is listed in [suspicious_columns] exactly when one of its
    cells matches a pattern of the catalogue, without regard to case,
    and exactly then it gets its warning; a column gets the warning of
    a PII kind exactly when one of its cells matches the pattern of
    that kind. *)
Theorem session_scan_stays_safe (df : DataFrame) :
  (Z.of_nat (len df) <= SecurityLimits.MAX_ROWS (limits self))%Z ->
  (Z.of_nat (ncols df) <= SecurityLimits.MAX_COLUMNS (limits self))%Z ->
  converts df = true ->
  let r := validate_data_content self df in
  safe r = true /\ errors r = []
  /\ (forall col,
        In col (suspicious_columns r)
        <-> exists cells o s p,
              In (col, cells) (object_columns df)
              /\ In (Some o) cells /\ to_str o = Ok s
              /\ In p (suspicious_patterns self)
              /\ Re.search true (compiled p) s = true)
  /\ (forall col,
        In (SuspiciousColumn col) (warnings r) <-> In col (suspicious_columns r))
  /\ (forall col pii_type,
        In (MayContainPII col pii_type) (warnings r)
        <-> exists cells pat o s,
              In (col, cells) (object_columns df)
              /\ In (pii_type, pat) pii_patterns
              /\ In (Some o) cells /\ to_str o = Ok s
              /\ Re.search false (compiled pat) s = true).
Proof.
  intros Hrows Hcols Hconv. cbn zeta.
  destruct (validate_data_content_normal df Hrows Hcols Hconv) as (ws & Hpii & ->).
  cbn [safe errors suspicious_columns warnings].
  split; [reflexivity|]. split; [reflexivity|].
  split; [intros col; now apply flagged_In|]. split.
  - intros col. rewrite !in_app_iff, in_map_iff. split.
    + intros [(c & Hc & Hin)|[Hin|Hin]].
      * now injection Hc as <-.
      * apply large_cell_warnings_kind in Hin as (c & n & Hw). discriminate.
      * apply (pii_warnings_kind df ws _ Hpii) in Hin as (c & k & Hw). discriminate.
    + intros Hin. left. eauto.
  - intros col pii_type. rewrite <- (check_for_pii_warnings df ws col pii_type Hpii).
    rewrite !in_app_iff, in_map_iff. split.
    + intros [(c & Hc & _)|[Hin|Hin]]; [discriminate| |exact Hin].
      apply large_cell_warnings_kind in Hin as (c & n & Hw). discriminate.
    + intros Hin. right. now right.
Qed.

End SessionScanResult.

(** Scenario 1 in the in-session scan: safe, and the column [comment],
    whose second cell holds a script element, is the one listed and
    warned about. *)
Lemma session_scan_stays_safe_witness :
  let r := SecurityConfig.validate_data_content SecurityConfig.__init__ Samples.scenario1 in
  (SecurityConfig.safe r = true /\ SecurityConfig.errors r = []
   /\ (forall col,
         In col (SecurityConfig.suspicious_columns r)
         <-> exists cells o s p,
               In (col, cells) (Pandas.object_columns Samples.scenario1)
               /\ In (Some o) cells /\ Pandas.to_str o = Py.Ok s
               /\ In p (SecurityConfig.suspicious_patterns SecurityConfig.__init__)
               /\ Re.search true (compiled p) s = true)
   /\ (forall col,
         In (SecurityConfig.SuspiciousColumn col) (SecurityConfig.warnings r)
         <-> In col (SecurityConfig.suspicious_columns r))
   /\ (forall col pii_type,
         In (SecurityConfig.MayContainPII col pii_type) (SecurityConfig.warnings r)
         <-> exists cells pat o s,
               In (col, cells) (Pandas.object_columns Samples.scenario1)
               /\ In (pii_type, pat) SecurityConfig.pii_patterns
               /\ In (Some o) cells /\ Pandas.to_str o = Py.Ok s
               /\ Re.search false (compiled pat) s = true))
  /\ SecurityConfig.suspicious_columns r = ["comment"]
  /\ SecurityConfig.warnings r = [SecurityConfig.SuspiciousColumn "comment"].
Proof.
  split; [|split; vm_compute; reflexivity].
  apply (session_scan_stays_safe SecurityConfig.__init__ Samples.scenario1).
  - vm_compute. discriminate.
  - vm_compute. discriminate.
  - vm_compute. reflexivity.
Defined.

(** The e-mail address and the card number of the sample are reported,
    each under its kind. *)
Lemma pii_warnings_exact_witness :
  In (SecurityConfig.MayContainPII "contact" "email")
     [SecurityConfig.MayContainPII "contact" "email";
      SecurityConfig.MayContainPII "contact" "credit_card"]
  <-> exists cells pat o s,
        In ("contact", cells) (Pandas.object_columns Samples.contacts)
        /\ In ("email", pat) SecurityConfig.pii_patterns
        /\ In (Some o) cells /\ Pandas.to_str o = Py.Ok s
        /\ Re.search false (compiled pat) s = true.
Proof.
  apply (pii_warnings_exact Samples.contacts
           [SecurityConfig.MayContainPII "contact" "email";
            SecurityConfig.MayContainPII "contact" "credit_card"]
           "contact" "email").
  vm_compute. reflexivity.
Defined.

(** ** SecureFileHandler._security_scan: the whole verdict *)

Section UploadScanVerdict.
Import Py Pandas SecureFileHandler Spec.

Lemma upload_pattern_found (strs : list string) :
  existsb (pattern_found strs) suspicious_patterns
  = existsb matches_upload_signature strs.
Proof.
  unfold matches_upload_signature. rewrite <- existsb_swap.
  apply existsb_pointwise. intros p. apply any_str_contains.
Qed.

Lemma forallb_passes (strs : list string) :
  forallb passes strs
  = negb (existsb matches_upload_signature strs)
    && negb (gt (max (str_len strs)) max_cell_size).
Proof.
  apply eq_true_iff_eq.
  rewrite andb_true_iff, !negb_true_iff, gt_max_false. unfold str_len.
  induction strs as [|s strs IH]; cbn [forallb existsb map]; [tauto|].
  rewrite andb_true_iff, IH, orb_false_iff, andb_true_iff.
  unfold passes, within_cell_limit. rewrite andb_true_iff, negb_true_iff. tauto.
Qed.

(** The first loop runs through exactly when every text column
    converts and holds no signature. *)
Lemma scan_string_columns_outcome (cols : list (string * list (option pyobj))) :
  match scan_string_columns cols with
  | Ok None =>
      forallb (fun nc : string * list (option pyobj) =>
                 match astype_str (dropna (snd nc)) with
                 | Ok strs => negb (existsb matches_upload_signature strs)
                 | Raise _ => false
                 end) cols = true
  | Ok (Some v) =>
      safe v = false
      /\ forallb (fun nc : string * list (option pyobj) =>
                    match astype_str (dropna (snd nc)) with
                    | Ok strs => negb (existsb matches_upload_signature strs)
                    | Raise _ => false
                    end) cols = false
  | Raise _ =>
      forallb (fun nc : string * list (option pyobj) =>
                 match astype_str (dropna (snd nc)) with
                 | Ok strs => negb (existsb matches_upload_signature strs)
                 | Raise _ => false
                 end) cols = false
  end.
Proof.
  induction cols as [|[col cells] rest IH]; [reflexivity|].
  cbn [scan_string_columns forallb snd]. unfold mbind, result_bind.
  destruct (astype_str (dropna cells)) as [strs|e]; [|reflexivity].
  rewrite upload_pattern_found.
  destruct (existsb matches_upload_signature strs); [now split|exact IH].
Qed.

Lemma scan_cell_sizes_outcome (df : DataFrame) :
  match scan_cell_sizes df with
  | Ok None =>
      forallb (fun nc : string * list (option pyobj) =>
                 match astype_str (dropna (snd nc)) with
                 | Ok strs => negb (gt (max (str_len strs)) max_cell_size)
                 | Raise _ => false
                 end) (object_columns df) = true
  | Ok (Some v) => safe v = false
  | Raise _ => True
  end.
Proof.
  induction df as [|[col [xs|cells|xs|xs]] rest IH];
    cbn [scan_cell_sizes object_columns]; try exact IH; [reflexivity|].
  cbn [forallb snd]. unfold mbind, result_bind.
  destruct (astype_str (dropna cells)) as [strs|e]; [|exact I].
  destruct (gt _ _); [reflexivity|exact IH].
Qed.

Lemma forallb_and {A} (f g : A -> bool) (l : list A) :
  forallb (fun x => f x && g x) l = forallb f l && forallb g l.
Proof.
  induction l as [|x l IH]; [reflexivity|]. cbn [forallb]. rewrite IH.
  destruct (f x), (g x), (forallb f l); reflexivity.
Qed.

Lemma text_cells_columns (P : string -> bool) (df : DataFrame) :
  text_cells P df
  = forallb (fun nc : string * list (option pyobj) =>
               match astype_str (dropna (snd nc)) with
               | Ok strs => forallb P strs
               | Raise _ => false
               end) (object_columns df).
Proof.
  unfold text_cells. induction (object_columns df) as [|nc cols IH]; [reflexivity|].
  cbn [forallb]. now rewrite forallb_to_str, IH.
Qed.

(** X7. The upload-time scan answers safe exactly when every text cell
    converts to [str], matches none of its signatures and is at most
    10,000 characters long. *)
Theorem security_scan_safe_iff (df : DataFrame) :
  safe (_security_scan df) = true <-> text_cells passes df = true.
Proof.
  split; [|intros H; now rewrite (security_scan_pass df H)].
  unfold _security_scan, _security_scan_try.
  pose proof (scan_string_columns_outcome (object_columns df)) as H1.
  pose proof (scan_cell_sizes_outcome df) as H2.
  destruct (scan_string_columns (object_columns df)) as [[v|]|e];
    unfold mbind, result_bind; cbn [safe].
  - destruct H1 as [-> _]. discriminate.
  - destruct (scan_cell_sizes df) as [[v|]|e]; cbn [safe].
    + rewrite H2. discriminate.
    + intros _. rewrite text_cells_columns.
      rewrite forallb_forall in *. intros nc Hnc.
      specialize (H1 nc Hnc). specialize (H2 nc Hnc).
      destruct (astype_str (dropna (snd nc))) as [strs|]; [|discriminate].
      now rewrite forallb_passes, H1, H2.
    + discriminate.
  - discriminate.
Qed.

Lemma object_columns_app (df1 df2 : DataFrame) :
  object_columns (df1 ++ df2) = object_columns df1 ++ object_columns df2.
Proof.
  induction df1 as [|[col [xs|cells|xs|xs]] df1 IH]; cbn [object_columns app];
    try exact IH; [reflexivity|]. now rewrite IH.
Qed.

(** X8. Pattern findings come first and in column order: the verdict names
    the first text column that holds a signature, whatever the size of
    the cells before it and whatever the columns after it hold. *)
Theorem first_offending_column_reported (df1 df2 : DataFrame) (col : string)
    (cells : list (option pyobj)) (strs : list string) :
  text_cells (fun s => negb (matches_upload_signature s)) df1 = true ->
  astype_str (dropna cells) = Ok strs ->
  existsb matches_upload_signature strs = true ->
  _security_scan (df1 ++ (col, ColObject cells) :: df2)
  = ScanVerdict false (SuspiciousContent col).
Proof.
  intros Hbefore Hconv Hmatch.
  unfold _security_scan, _security_scan_try.
  rewrite object_columns_app. cbn [object_columns].
  rewrite text_cells_columns in Hbefore.
  assert (H : scan_string_columns
                (object_columns df1 ++ (col, cells) :: object_columns df2)
              = Ok (Some (ScanVerdict false (SuspiciousContent col)))).
  { induction (object_columns df1) as [|[c0 cells0] rest IH].
    - cbn [app scan_string_columns]. rewrite Hconv. unfold mbind, result_bind.
      now rewrite upload_pattern_found, Hmatch.
    - cbn [forallb snd] in Hbefore. apply andb_true_iff in Hbefore as [H0 Hrest].
      cbn [app scan_string_columns].
      destruct (astype_str (dropna cells0)) as [strs0|]; [|discriminate].
      unfold mbind, result_bind. rewrite upload_pattern_found.
      assert (existsb matches_upload_signature strs0 = false) as ->.
      { apply not_true_is_false. intros Hex.
        apply existsb_exists in Hex as (s & Hs & Hm).
        rewrite forallb_forall in H0. apply H0 in Hs. rewrite Hm in Hs. discriminate. }
      exact (IH Hrest). }
  now rewrite H.
Qed.

(** Scenario 1 behind two harmless columns: [comment] is named. *)
Lemma first_offending_column_reported_witness :
  _security_scan Samples.names_then_scenario1
  = ScanVerdict false (SuspiciousContent "comment").
Proof.
  apply (first_offending_column_reported
           [("id", ColNumber [Some 1; Some 2]%Q);
            ("code", ColObject [Some (PStr "abc"); None]);
            ("name", ColObject [Some (PStr "John"); Some (PStr "Jane")])]
           [] "comment"
           [Some (PStr "Normal comment"); Some (PStr "<script>alert(1)</script>")]
           ["Normal comment"; "<script>alert(1)</script>"]).
  - vm_compute. reflexivity.
  - reflexivity.
  - vm_compute. reflexivity.
Defined.

Lemma object_columns_text (df : DataFrame) :
  object_columns (text_columns df) = object_columns df.
Proof.
  unfold text_columns.
  induction df as [|[col [xs|cells|xs|xs]] df IH];
    cbn [List.filter is_text_column snd object_columns]; try exact IH; [reflexivity|].
  now rewrite IH.
Qed.

Lemma scan_cell_sizes_text (df : DataFrame) :
  scan_cell_sizes (text_columns df) = scan_cell_sizes df.
Proof.
  unfold text_columns.
  induction df as [|[col [xs|cells|xs|xs]] df IH];
    cbn [List.filter is_text_column snd scan_cell_sizes]; try exact IH; [reflexivity|].
  now rewrite IH.
Qed.

(** X9. Columns of numbers, dates and booleans play no part in the
    upload-time scan: the verdict, message included, is that of the
    text columns alone. *)
Theorem security_scan_text_only (df : DataFrame) :
  _security_scan df = _security_scan (text_columns df).
Proof.
  unfold _security_scan, _security_scan_try.
  now rewrite object_columns_text, scan_cell_sizes_text.
Qed.

End UploadScanVerdict.

(** ** SecureFileHandler._is_safe_filename: the names it admits *)

Section SafeFilenames.
Import Py Re SecureFileHandler Spec.

Lemma safe_pattern_shape :
  compiled safe_pattern = Cat Bol (Cat (Cat safe_class (Star safe_class)) Eol).
Proof. reflexivity. Qed.

(** One character of the bracket. *)
Lemma safe_class_matches (icase : bool) (s : list ascii) (i j : nat) :
  matches false s safe_class i j
  <-> j = S i /\ exists c, char_at s i = Some c /\ filename_char c = true.
Proof.
  assert (Hcls : forall c items,
            safe_class = OneOf false items ->
            xorb false (existsb (fun it => item_match false it c) items)
            = filename_char c).
  { intros c items Hi. injection Hi as <-. revert c. apply forall_chars_eq.
    vm_compute. reflexivity. }
  split.
  - intros H. unfold safe_class in H. inversion H; subst.
    split; [reflexivity|].
    match goal with Hc : char_at s i = Some ?c |- _ => exists c; split; [exact Hc|] end.
    now rewrite <- (Hcls _ _ eq_refl).
  - intros (-> & c & Hc & Hf). unfold safe_class. econstructor; [exact Hc|].
    now rewrite (Hcls c _ eq_refl).
Qed.

(** A run of characters of the bracket. *)
Lemma safe_run_matches (s : list ascii) (i j : nat) :
  matches false s (Star safe_class) i j
  <-> (i <= j)%nat
      /\ forall k, (i <= k < j)%nat ->
                   exists c, char_at s k = Some c /\ filename_char c = true.
Proof.
  split.
  - intros H. remember (Star safe_class) as r eqn:Hr.
    induction H as [| | | | | | |r0 i|r0 i k j H1 _ H2 IH2| | |]; try discriminate.
    + split; [lia|]. intros k Hk. lia.
    + injection Hr as ->. apply (safe_class_matches false) in H1 as (-> & c & Hc & Hf).
      destruct (IH2 eq_refl) as [Hle Hall]. split; [lia|].
      intros k' Hk'. destruct (Nat.eq_dec k' i) as [->|Hne]; [eauto|].
      apply Hall. lia.
  - intros [Hle Hall]. remember (j - i)%nat as n eqn:Hn.
    revert i Hle Hall Hn. induction n as [|n IH]; intros i Hle Hall Hn.
    + replace j with i by lia. constructor.
    + destruct (Hall i) as (c & Hc & Hf); [lia|].
      apply MStarCons with (k := S i).
      * apply (safe_class_matches false). eauto.
      * apply IH; [lia| |lia]. intros k Hk. apply Hall. lia.
Qed.

(** [safe_pattern.match(filename)] succeeds exactly on a non-empty run
    of characters of the bracket that ends the text or is followed by
    one final line feed. *)
Lemma safe_pattern_match (s : string) :
  Re.match_ false (compiled safe_pattern) s = true
  <-> exists j, (1 <= j)%nat
        /\ (forall k, (k < j)%nat ->
               exists c, char_at (chars s) k = Some c /\ filename_char c = true)
        /\ at_end (chars s) j = true.
Proof.
  rewrite safe_pattern_shape. unfold match_, matches_at. split.
  - intros H.
    destruct (ends false _ (chars s) 0) as [|j l] eqn:He; [discriminate|].
    assert (Hm : matches false (chars s)
                   (Cat Bol (Cat (Cat safe_class (Star safe_class)) Eol)) 0 j)
      by (apply ends_sound; rewrite He; now left).
    inversion Hm as [| | | |r1 r2 i k j0 Hbol Hrest| | | | | | |]; subst.
    inversion Hbol; subst.
    inversion Hrest as [| | | |r1 r2 i k j0 Hbody Heol| | | | | | |]; subst.
    inversion Heol as [| | | | | | | | | |i He0|]; subst.
    inversion Hbody as [| | | |r1 r2 i k j0 Hone Hrun| | | | | | |]; subst.
    apply (safe_class_matches false) in Hone as (-> & c & Hc & Hf).
    apply safe_run_matches in Hrun as [Hle Hall].
    exists j. repeat split; [lia| |assumption].
    intros k' Hk'. destruct k' as [|k']; [eauto|]. apply Hall. lia.
  - intros (j & Hj & Hall & Hend).
    assert (Hm : matches false (chars s)
                   (Cat Bol (Cat (Cat safe_class (Star safe_class)) Eol)) 0 j).
    { apply MCat with (k := O); [constructor|].
      apply MCat with (k := j); [|now constructor].
      apply MCat with (k := 1%nat).
      - apply (safe_class_matches false). split; [reflexivity|]. apply Hall. lia.
      - apply safe_run_matches. split; [lia|]. intros k Hk. apply Hall. lia. }
    apply ends_complete in Hm; [|lia].
    destruct (ends false _ (chars s) 0); [destruct Hm|reflexivity].
Qed.

Lemma chars_append (a b : string) : chars (String.append a b) = chars a ++ chars b.
Proof.
  unfold chars. induction a as [|c a IH]; [reflexivity|].
  change (c :: list_ascii_of_string (String.append a b)
          = c :: (list_ascii_of_string a ++ list_ascii_of_string b)).
  now rewrite IH.
Qed.

Lemma chars_inj (a b : string) : chars a = chars b -> a = b.
Proof.
  unfold chars. intros H.
  rewrite <- (string_of_list_ascii_of_string a), <- (string_of_list_ascii_of_string b).
  now rewrite H.
Qed.

(** The same in terms of the text. *)
Lemma safe_pattern_match_text (s : string) :
  Re.match_ false (compiled safe_pattern) s = true
  <-> exists body, body <> ""
        /\ forallb filename_char (chars body) = true
        /\ (s = body \/ s = String.append body line_feed).
Proof.
  rewrite safe_pattern_match. split.
  - intros (j & Hj & Hall & Hend).
    assert (Hlen : (j <= length (chars s))%nat).
    { destruct (Hall (j - 1)%nat) as (c & Hc & _); [lia|].
      assert (j - 1 < length (chars s))%nat; [|lia].
      apply nth_error_Some. unfold char_at in Hc. congruence. }
    exists (string_of_list_ascii (firstn j (chars s))).
    assert (Hchars : chars (string_of_list_ascii (firstn j (chars s)))
                     = firstn j (chars s))
      by apply list_ascii_of_string_of_list_ascii.
    repeat split.
    + intros Hnil. apply (f_equal chars) in Hnil. rewrite Hchars in Hnil.
      apply (f_equal (@length ascii)) in Hnil.
      rewrite length_firstn in Hnil. cbn in Hnil. lia.
    + rewrite Hchars. apply forallb_forall. intros c Hc.
      apply In_nth_error in Hc as [k Hk].
      assert (Hkj : (k < j)%nat).
      { assert (k < length (firstn j (chars s)))%nat
          by (apply nth_error_Some; congruence).
        rewrite length_firstn in H. lia. }
      rewrite nth_error_firstn in Hk.
      destruct (Nat.ltb_spec k j); [|lia].
      destruct (Hall k Hkj) as (c' & Hc' & Hf). unfold char_at in Hc'. congruence.
    + unfold at_end in Hend. apply orb_true_iff in Hend as [Hend|Hend].
      * left. apply Nat.eqb_eq in Hend. apply chars_inj. rewrite Hchars.
        subst j. now rewrite firstn_all.
      * right. apply andb_true_iff in Hend as [Hsj Hnl]. apply Nat.eqb_eq in Hsj.
        destruct (char_at (chars s) j) as [c|] eqn:Hc; [|discriminate].
        apply Ascii.eqb_eq in Hnl. subst c.
        apply chars_inj. rewrite chars_append, Hchars.
        rewrite <- (firstn_skipn j (chars s)) at 1. f_equal.
        unfold char_at in Hc.
        rewrite <- (firstn_skipn j (chars s)) in Hc.
        rewrite nth_error_app2 in Hc by (rewrite length_firstn; lia).
        rewrite length_firstn in Hc. replace (j - Nat.min j _)%nat with O in Hc by lia.
        assert (Hl : length (skipn j (chars s)) = 1%nat) by (rewrite length_skipn; lia).
        destruct (skipn j (chars s)) as [|c [|c' l]]; try discriminate.
        cbn in Hc. now injection Hc as ->.
  - intros (body & Hne & Hall & Hs).
    exists (length (chars body)).
    assert (Hpos : (1 <= length (chars body))%nat).
    { destruct body; [congruence|]. cbn. lia. }
    assert (Hk : forall l k, (k < length (chars body))%nat ->
              exists c, char_at (chars body ++ l) k = Some c /\ filename_char c = true).
    { intros l k Hk. unfold char_at. rewrite nth_error_app1 by exact Hk.
      destruct (nth_error (chars body) k) as [c|] eqn:Hc.
      - exists c. split; [reflexivity|]. rewrite forallb_forall in Hall.
        apply Hall. eapply nth_error_In; eauto.
      - apply nth_error_None in Hc. lia. }
    destruct Hs as [->| ->].
    + repeat split; [exact Hpos| |].
      * intros k Hlt. specialize (Hk [] k Hlt). now rewrite app_nil_r in Hk.
      * unfold at_end. now rewrite Nat.eqb_refl.
    + rewrite chars_append. repeat split; [exact Hpos|now apply Hk|].
      unfold at_end. apply orb_true_iff. right.
      rewrite length_app. cbn [chars line_feed list_ascii_of_string length].
      rewrite Nat.add_1_r, Nat.eqb_refl. unfold char_at.
      rewrite nth_error_app2, Nat.sub_diag by lia. reflexivity.
Qed.

(** The names [_is_safe_filename] admits. *)
Lemma is_safe_filename_shape (filename : string) :
  _is_safe_filename filename = true
  <-> Py.contains ".." filename = false
      /\ Py.contains "/" filename = false
      /\ Py.contains two_backslashes filename = false
      /\ exists body, body <> ""
            /\ forallb filename_char (chars body) = true
            /\ (filename = body \/ filename = String.append body line_feed).
Proof.
  unfold _is_safe_filename. rewrite <- safe_pattern_match_text.
  destruct (Py.contains ".." filename), (Py.contains "/" filename),
    (Py.contains two_backslashes filename); cbn [orb];
    split; intros; repeat split; try tauto; try discriminate;
    repeat match goal with H : _ /\ _ |- _ => destruct H end; try discriminate.
Qed.

(** X10. [_is_safe_filename] admits exactly the names without [..], [/] and
    two backslashes in a row that consist of letters, digits, [.], [_],
    [(], [)] and single backslashes, possibly followed by one final
    line feed. A blank, a hyphen or any other character makes the name
    unsafe. *)
Theorem is_safe_filename_iff (filename : string) :
  _is_safe_filename filename = true
  <-> Py.contains ".." filename = false
      /\ Py.contains "/" filename = false
      /\ Py.contains two_backslashes filename = false
      /\ exists body, body <> ""
            /\ forallb filename_char (chars body) = true
            /\ (filename = body \/ filename = String.append body line_feed).
Proof. exact (is_safe_filename_shape filename). Qed.

Lemma last_component_snoc (sep c : ascii) (s : string) :
  c <> sep ->
  forall acc,
    last_component sep acc (String.append s (String c ""))
    = String.append (last_component sep acc s) (String c "").
Proof.
  intros Hc. induction s as [|a s IH]; intros acc.
  - simpl. destruct (Ascii.eqb_spec c sep); [contradiction|reflexivity].
  - change (String.append (String a s) (String c ""))
      with (String a (String.append s (String c ""))).
    cbn [last_component]. destruct (Ascii.eqb a sep); apply IH.
Qed.

Lemma string_of_list_ascii_snoc (l : list ascii) (c : ascii) :
  string_of_list_ascii (l ++ [c])
  = String.append (string_of_list_ascii l) (String c "").
Proof. induction l as [|a l IH]; [reflexivity|]. cbn. now rewrite IH. Qed.

Lemma str_lower_snoc (s : string) (c : ascii) :
  str_lower (String.append s (String c ""))
  = String.append (str_lower s) (String (lower c) "").
Proof.
  unfold str_lower. rewrite chars_append, map_app.
  apply string_of_list_ascii_snoc.
Qed.

Lemma snoc_line_feed_not_xlsx (s : string) :
  String.append s line_feed <> "xlsx".
Proof.
  intros H. apply (f_equal chars) in H. rewrite chars_append in H.
  apply (f_equal (@rev ascii)) in H. rewrite rev_app_distr in H.
  cbn in H. discriminate.
Qed.

(** X11. Every upload the default validator accepts has a size that is not
    0 and at most 52,428,800 bytes, the MIME type of an xlsx workbook, a last
    dot-separated name component that reads xlsx in some letter case,
    and a non-empty name of letters, digits, [.], [_], [(], [)] and
    backslashes without [..]. *)
Theorem accepted_upload_shape (f : UploadedFile.t) :
  valid (_validate_file __init__ f) = true ->
  UploadedFile.size f <> 0%Z /\ (UploadedFile.size f <= 52428800)%Z
  /\ UploadedFile.type f = Samples.xlsx_mime
  /\ str_lower (split_last "." (UploadedFile.name f)) = "xlsx"
  /\ UploadedFile.name f <> ""
  /\ forallb filename_char (chars (UploadedFile.name f)) = true
  /\ Py.contains ".." (UploadedFile.name f) = false.
Proof.
  unfold _validate_file. cbn [MAX_FILE_SIZE ALLOWED_EXTENSIONS ALLOWED_MIME_TYPES __init__].
  destruct (Z.ltb_spec (50 * 1024 * 1024) (UploadedFile.size f)) as [|Hmax];
    [discriminate|].
  destruct (str_in (file_extension_of (UploadedFile.name f)) [".xlsx"]) eqn:Hext;
    [|discriminate]. cbn [negb].
  destruct (str_in (UploadedFile.type f) _) eqn:Hmime; [|discriminate]. cbn [negb].
  destruct (_is_safe_filename (UploadedFile.name f)) eqn:Hname; [|discriminate].
  cbn [negb].
  destruct (Z.eqb_spec (UploadedFile.size f) 0) as [|Hsize]; [discriminate|].
  intros _.
  assert (Hlower : str_lower (split_last "." (UploadedFile.name f)) = "xlsx").
  { unfold str_in in Hext. cbn [existsb] in Hext. rewrite orb_false_r in Hext.
    apply String.eqb_eq in Hext. unfold file_extension_of in Hext.
    cbn [String.append] in Hext. now injection Hext. }
  apply is_safe_filename_shape in Hname as (Hdots & _ & _ & body & Hne & Hall & Hbody).
  assert (Hb : UploadedFile.name f = body).
  { destruct Hbody as [Hb|Hb]; [exact Hb|]. exfalso.
    rewrite Hb in Hlower. unfold split_last, line_feed in Hlower.
    rewrite last_component_snoc in Hlower by (intros H; discriminate).
    rewrite str_lower_snoc in Hlower.
    exact (snoc_line_feed_not_xlsx _ Hlower). }
  rewrite Hb in *. repeat split; auto; try lia.
  - unfold str_in in Hmime. cbn [existsb] in Hmime. rewrite orb_false_r in Hmime.
    now apply String.eqb_eq in Hmime.
Qed.

Lemma accepted_upload_shape_witness :
  UploadedFile.size Samples.report <> 0%Z
  /\ (UploadedFile.size Samples.report <= 52428800)%Z
  /\ UploadedFile.type Samples.report = Samples.xlsx_mime
  /\ str_lower (split_last "." (UploadedFile.name Samples.report)) = "xlsx"
  /\ UploadedFile.name Samples.report <> ""
  /\ forallb filename_char (chars (UploadedFile.name Samples.report)) = true
  /\ Py.contains ".." (UploadedFile.name Samples.report) = false.
Proof.
  apply (accepted_upload_shape Samples.report). vm_compute. reflexivity.
Defined.

End SafeFilenames.

(** ** DataProcessor: duplicate rows *)

Section Duplicates.
Import Pandas DataProcessor Spec.

Lemma select_map {A B} (f : A -> B) (mask : list bool) (xs : list A) :
  select mask (map f xs) = map f (select mask xs).
Proof.
  revert xs. induction mask as [|[|] mask IH]; intros [|x xs]; cbn; try reflexivity.
  - now rewrite IH.
  - apply IH.
Qed.

Lemma select_length {A} (mask : list bool) (xs : list A) :
  length xs = length mask -> length (select mask xs) = count_true mask.
Proof.
  unfold count_true. revert xs.
  induction mask as [|[|] mask IH]; intros [|x xs] H; cbn in *; try lia; auto.
Qed.

Lemma cells_of_select (mask : list bool) (c : column) :
  cells_of (select_rows mask c) = select mask (cells_of c).
Proof. destruct c; cbn [select_rows cells_of]; now rewrite select_map. Qed.

Lemma cells_of_behead (c : column) : cells_of (behead_column c) = tl (cells_of c).
Proof. destruct c as [xs|xs|xs|xs]; destruct xs; reflexivity. Qed.

Lemma nth_tl {A} (i : nat) (l : list A) (d : A) : nth i (tl l) d = nth (S i) l d.
Proof. destruct l; [now destruct i|reflexivity]. Qed.

Lemma row_behead (df : DataFrame) (i : nat) : row (behead df) i = row df (S i).
Proof.
  unfold row, behead. rewrite map_map. apply map_ext. intros [n c]. cbn [fst snd].
  now rewrite cells_of_behead, nth_tl.
Qed.

Lemma rows_n_S (n : nat) (df : DataFrame) :
  rows_n (S n) df = row df 0 :: rows_n n (behead df).
Proof.
  unfold rows_n. cbn [seq map]. f_equal.
  rewrite <- seq_shift, map_map. apply map_ext. intros i. now rewrite row_behead.
Qed.

Lemma keep_rows_true (mask : list bool) (df : DataFrame) :
  row (keep_rows (true :: mask) df) 0 = row df 0
  /\ behead (keep_rows (true :: mask) df) = keep_rows mask (behead df).
Proof.
  unfold row, behead, keep_rows. rewrite !map_map. split; apply map_ext;
    intros [n [xs|xs|xs|xs]]; cbn [fst snd]; destruct xs, mask as [|[|] mask];
    reflexivity.
Qed.

Lemma keep_rows_false (mask : list bool) (df : DataFrame) :
  keep_rows (false :: mask) df = keep_rows mask (behead df).
Proof.
  unfold behead, keep_rows. rewrite map_map. apply map_ext.
  intros [n [xs|xs|xs|xs]]; cbn [fst snd]; destruct xs, mask as [|[|] mask];
    reflexivity.
Qed.

(** Selecting rows column by column selects the rows. *)
Lemma rows_keep_rows (mask : list bool) :
  forall df,
    rows_n (count_true mask) (keep_rows mask df) = select mask (rows_n (length mask) df).
Proof.
  unfold count_true.
  induction mask as [|[|] mask IH]; intros df; cbn [List.filter length].
  - reflexivity.
  - rewrite !rows_n_S. destruct (keep_rows_true mask df) as [-> ->].
    cbn [select]. now rewrite IH.
  - rewrite rows_n_S, keep_rows_false. cbn [select]. apply IH.
Qed.

Lemma duplicated_after_length (seen rs : list (list cell)) :
  length (duplicated_after seen rs) = length rs.
Proof.
  revert seen. induction rs as [|r rs IH]; intros seen; cbn; [reflexivity|].
  now rewrite IH.
Qed.

Lemma duplicated_length (df : DataFrame) : length (duplicated df) = len df.
Proof.
  unfold duplicated, rows. now rewrite duplicated_after_length, length_map, length_seq.
Qed.

Lemma cells_of_length (c : column) : length (cells_of c) = col_len c.
Proof.
  unfold col_len. destruct c; cbn [cells_of isnull]; unfold isnull_cells;
    now rewrite !length_map.
Qed.

Lemma len_keep_rows (mask : list bool) (df : DataFrame) :
  length mask = len df -> len (keep_rows mask df) = count_true mask.
Proof.
  destruct df as [|[n c] df]; cbn [keep_rows map len fst snd].
  - destruct mask; [reflexivity|discriminate].
  - intros H. rewrite <- cells_of_length, cells_of_select.
    apply select_length. now rewrite cells_of_length.
Qed.

Lemma pyobj_eqb_trans (a b c : pyobj) :
  pyobj_eqb a b = true -> pyobj_eqb b c = true -> pyobj_eqb a c = true.
Proof.
  destruct a, b, c; cbn; try discriminate.
  - rewrite !String.eqb_eq. congruence.
  - rewrite !Nat.eqb_eq. congruence.
Qed.

Lemma cell_eqb_trans (a b c : cell) :
  cell_eqb a b = true -> cell_eqb b c = true -> cell_eqb a c = true.
Proof.
  destruct a, b, c; cbn; try discriminate; auto.
  - rewrite !Qeq_bool_iff. intros H1 H2. now rewrite H1.
  - apply pyobj_eqb_trans.
  - rewrite !Z.eqb_eq. congruence.
  - destruct b, b0, b1; auto.
Qed.

Lemma row_eqb_trans (a b c : list cell) :
  row_eqb a b = true -> row_eqb b c = true -> row_eqb a c = true.
Proof.
  revert b c. induction a as [|x a IH]; intros [|y b] [|z c]; cbn; try discriminate; auto.
  rewrite !andb_true_iff. intros [H1 H2] [H3 H4]. split.
  - eapply cell_eqb_trans; eauto.
  - eapply IH; eauto.
Qed.

Lemma count_true_negb (mask : list bool) :
  (count_true (map negb mask) + count_true mask = length mask)%nat.
Proof.
  unfold count_true. induction mask as [|[|] mask IH]; cbn [map negb List.filter length];
    lia.
Qed.

(** Among the rows that are kept none repeats an earlier one. *)
Lemma kept_rows_distinct (rs : list (list cell)) :
  forall seen1 seen2,
    (forall r, existsb (row_eqb r) seen1 = existsb (row_eqb r) seen2) ->
    count_true
      (duplicated_after seen2 (select (map negb (duplicated_after seen1 rs)) rs)) = O.
Proof.
  induction rs as [|r rs IH]; intros seen1 seen2 Hseen; [reflexivity|].
  cbn [duplicated_after map]. destruct (existsb (row_eqb r) seen1) eqn:Hdup;
    cbn [negb select].
  - apply IH. intros r'. rewrite <- Hseen. cbn [existsb].
    destruct (row_eqb r' r) eqn:Hr; [|reflexivity]. cbn [orb]. symmetry.
    apply existsb_exists in Hdup as (s & Hs & Hrs).
    apply existsb_exists. exists s. split; [exact Hs|].
    eapply row_eqb_trans; eauto.
  - cbn [duplicated_after]. rewrite <- Hseen, Hdup.
    unfold count_true. cbn [List.filter]. apply IH.
    intros r'. cbn [existsb]. now rewrite Hseen.
Qed.

(** The rows [drop_duplicates] keeps. *)
Lemma drop_duplicates_rows (df : DataFrame) :
  rows (drop_duplicates df) = select (map negb (duplicated df)) (rows df)
  /\ (len (drop_duplicates df) + count_true (duplicated df) = len df)%nat
  /\ count_true (duplicated (drop_duplicates df)) = O
  /\ map fst (drop_duplicates df) = map fst df.
Proof.
  assert (Hlen : length (map negb (duplicated df)) = len df)
    by (rewrite length_map; apply duplicated_length).
  assert (Hkept : len (drop_duplicates df) = count_true (map negb (duplicated df)))
    by (apply (len_keep_rows _ df Hlen)).
  assert (Hrows : rows (drop_duplicates df)
                  = select (map negb (duplicated df)) (rows df)).
  { unfold rows at 1. rewrite Hkept.
    change (rows_n (count_true (map negb (duplicated df)))
                   (keep_rows (map negb (duplicated df)) df)
            = select (map negb (duplicated df)) (rows df)).
    rewrite rows_keep_rows, Hlen. reflexivity. }
  repeat split.
  - exact Hrows.
  - rewrite Hkept, <- (duplicated_length df). apply count_true_negb.
  - unfold duplicated at 1. rewrite Hrows. unfold duplicated.
    now apply kept_rows_distinct.
  - unfold drop_duplicates. rewrite map_map. reflexivity.
Qed.

(** X12. [drop_duplicates] keeps the rows that [duplicated] does not mark,
    in their order and with their values; it removes as many rows as
    [duplicated] marks; what it returns has no duplicate row; the
    columns keep their labels. *)
Theorem drop_duplicates_spec (df : DataFrame) :
  rows (drop_duplicates df) = select (map negb (duplicated df)) (rows df)
  /\ (len (drop_duplicates df) + count_true (duplicated df) = len df)%nat
  /\ count_true (duplicated (drop_duplicates df)) = O
  /\ map fst (drop_duplicates df) = map fst df.
Proof. exact (drop_duplicates_rows df). Qed.

End Duplicates.

(** ** DataProcessor.clean_data: the frame it returns *)

Section CleanedFrame.
Import Pandas DataProcessor Spec.

Lemma get_column_skip (pre post : DataFrame) (col : string) :
  ~ In col (map fst pre) -> get_column col (pre ++ post) = get_column col post.
Proof.
  induction pre as [|[n c] pre IH]; intros Hnot; [reflexivity|].
  cbn [app get_column]. destruct (String.eqb_spec n col) as [->|_].
  - exfalso. apply Hnot. now left.
  - apply IH. intros H. apply Hnot. now right.
Qed.

Lemma set_column_skip (pre post : DataFrame) (col : string) (c : column) :
  ~ In col (map fst pre) -> set_column col c (pre ++ post) = pre ++ set_column col c post.
Proof.
  induction pre as [|[n c0] pre IH]; intros Hnot; [reflexivity|].
  cbn [app set_column]. destruct (String.eqb_spec n col) as [->|_].
  - exfalso. apply Hnot. now left.
  - f_equal. apply IH. intros H. apply Hnot. now right.
Qed.

Lemma map_columns_labels (f : column -> column) (df : DataFrame) :
  map fst (map_columns f df) = map fst df.
Proof. unfold map_columns. rewrite map_map. reflexivity. Qed.

(** A loop over the labels of the columns that [upd] may change, on a
    frame with distinct labels, updates column by column. *)
Lemma fill_loop (upd : column -> option column) (P : column -> bool) :
  (forall c, P c = false -> upd c = None) ->
  forall post pre,
    NoDup (map fst (pre ++ post)) ->
    foldl (fill_step upd)
          (map_columns (fun c => default c (upd c)) pre ++ post)
          (map fst (List.filter (fun nc : string * column => P (snd nc)) post))
    = map_columns (fun c => default c (upd c)) (pre ++ post).
Proof.
  intros HP. induction post as [|[n c] post IH]; intros pre Hnd.
  - cbn. unfold map_columns. now rewrite !app_nil_r.
  - assert (Hnot : ~ In n (map fst (map_columns (fun c => default c (upd c)) pre))).
    { rewrite map_columns_labels. rewrite map_app in Hnd.
      apply NoDup_app in Hnd as (_ & Hdisj & _). intros Hin.
      apply list_elem_of_In in Hin. apply (Hdisj n Hin). cbn. left. }
    assert (Hnext : map_columns (fun c => default c (upd c)) (pre ++ [(n, c)]) ++ post
                    = map_columns (fun c => default c (upd c)) pre
                      ++ (n, default c (upd c)) :: post).
    { unfold map_columns. rewrite map_app, <- app_assoc. reflexivity. }
    specialize (IH (pre ++ [(n, c)])).
    rewrite <- app_assoc in IH. cbn [app] in IH. specialize (IH Hnd).
    rewrite Hnext in IH. cbn [List.filter snd].
    destruct (P c) eqn:HPc.
    + cbn [map fst foldl]. unfold fill_step at 2.
      rewrite get_column_skip by exact Hnot. cbn [get_column].
      rewrite String.eqb_refl.
      destruct (upd c) as [c'|] eqn:Hupd; cbn [from_option id] in IH.
      * rewrite set_column_skip by exact Hnot. cbn [set_column].
        rewrite String.eqb_refl. exact IH.
      * exact IH.
    + rewrite (HP c HPc) in IH. exact IH.
Qed.

Lemma number_columns_labels (df : DataFrame) :
  map fst (number_columns df)
  = map fst (List.filter (fun nc : string * column =>
                            match snd nc with ColNumber _ => true | _ => false end) df).
Proof.
  induction df as [|[n [xs|xs|xs|xs]] df IH]; cbn [number_columns List.filter snd map fst];
    try exact IH; [reflexivity|]. now rewrite IH.
Qed.

Lemma object_columns_labels (df : DataFrame) :
  map fst (object_columns df)
  = map fst (List.filter (fun nc : string * column =>
                            match snd nc with ColObject _ => true | _ => false end) df).
Proof.
  induction df as [|[n [xs|xs|xs|xs]] df IH]; cbn [object_columns List.filter snd map fst];
    try exact IH; [reflexivity|]. now rewrite IH.
Qed.

Lemma fill_numeric_step (l : ref) (h : gmap nat DataFrame) (cur : DataFrame) (col : string) :
  h !! l = Some cur ->
  fill_numeric l h col !! l = Some (fill_step numeric_update cur col).
Proof.
  intros H. unfold fill_numeric, fill_step, numeric_update. rewrite H.
  destruct (get_column col cur) as [[xs|xs|xs|xs]|]; try exact H.
  destruct (any (isnull_cells xs)); [apply lookup_insert_eq|exact H].
Qed.

Lemma fill_categorical_step (l : ref) (h : gmap nat DataFrame) (cur : DataFrame)
    (col : string) :
  h !! l = Some cur ->
  fill_categorical l h col !! l = Some (fill_step categorical_update cur col).
Proof.
  intros H. unfold fill_categorical, fill_step, categorical_update. rewrite H.
  destruct (get_column col cur) as [[xs|xs|xs|xs]|]; try exact H.
  destruct (any (isnull_cells xs)); [apply lookup_insert_eq|exact H].
Qed.

Lemma foldl_store (f : gmap nat DataFrame -> string -> gmap nat DataFrame)
    (g : DataFrame -> string -> DataFrame) (l : ref) :
  (forall h cur col, h !! l = Some cur -> f h col !! l = Some (g cur col)) ->
  forall cols h cur, h !! l = Some cur ->
    foldl f h cols !! l = Some (foldl g cur cols).
Proof.
  intros Hstep. induction cols as [|col cols IH]; intros h cur H; [exact H|].
  cbn [foldl]. apply IH, Hstep, H.
Qed.

Lemma deref_lookup (h : gmap nat DataFrame) (l : ref) (cur : DataFrame) :
  h !! l = Some cur -> deref h l = cur.
Proof. unfold deref, DataFrame in *. now intros ->. Qed.

Lemma fill_numeric_missing_frame (l : ref) (h : gmap nat DataFrame) (cur : DataFrame) :
  h !! l = Some cur -> NoDup (map fst cur) ->
  fill_numeric_missing l h !! l = Some (map_columns fill_numeric_column cur).
Proof.
  intros H Hnd. unfold fill_numeric_missing. rewrite (deref_lookup h l cur H).
  rewrite (foldl_store _ _ l (fill_numeric_step l) _ h cur H).
  rewrite number_columns_labels. f_equal.
  pose proof (fill_loop numeric_update
                (fun c => match c with ColNumber _ => true | _ => false end)) as Hloop.
  specialize (Hloop ltac:(intros [| | |]; cbn; congruence) cur [] Hnd).
  cbn [app map_columns map] in Hloop. rewrite Hloop.
  unfold map_columns. apply map_ext. intros [n [xs|xs|xs|xs]]; cbn; try reflexivity.
  now destruct (any (isnull_cells xs)).
Qed.

Lemma fill_categorical_missing_frame (l : ref) (h : gmap nat DataFrame) (cur : DataFrame) :
  h !! l = Some cur -> NoDup (map fst cur) ->
  fill_categorical_missing l h !! l = Some (map_columns fill_categorical_column cur).
Proof.
  intros H Hnd. unfold fill_categorical_missing. rewrite (deref_lookup h l cur H).
  rewrite (foldl_store _ _ l (fill_categorical_step l) _ h cur H).
  rewrite object_columns_labels. f_equal.
  pose proof (fill_loop categorical_update
                (fun c => match c with ColObject _ => true | _ => false end)) as Hloop.
  specialize (Hloop ltac:(intros [| | |]; cbn; congruence) cur [] Hnd).
  cbn [app map_columns map] in Hloop. rewrite Hloop.
  unfold map_columns. apply map_ext. intros [n [xs|xs|xs|xs]]; cbn; try reflexivity.
  now destruct (any (isnull_cells xs)).
Qed.

(** [clean_data] computes [cleaned_frame]. *)
Lemma clean_data_refines (h : gmap nat DataFrame) (df : ref)
    (cleaning_options : option (gmap string bool)) (frame : DataFrame) :
  h !! df = Some frame ->
  NoDup (map fst frame) ->
  let opts := default default_options cleaning_options in
  exists c, clean_data h df cleaning_options = Some c
            /\ result_store c !! result_ref c = Some (cleaned_frame opts frame)
            /\ printed c
               = if get opts "remove_duplicates" && (0 <? count_true (duplicated frame))%nat
                 then Some (count_true (duplicated frame)) else None.
Proof.
  intros Hdf Hnd opts. unfold clean_data. rewrite Hdf. cbn [mbind option_bind].
  fold opts. unfold alloc at 1. cbn zeta.
  set (r1 := fresh (dom h)). set (h1 := <[r1 := frame]> h).
  assert (H1 : h1 !! r1 = Some frame) by apply lookup_insert_eq.
  assert (Hdedup : exists r2 h2,
            (if get opts "remove_duplicates" then remove_duplicates r1 h1
             else (r1, h1, None))
            = (r2, h2,
               if get opts "remove_duplicates" && (0 <? count_true (duplicated frame))%nat
               then Some (count_true (duplicated frame)) else None)
            /\ h2 !! r2 = Some (if get opts "remove_duplicates"
                                then drop_duplicates frame else frame)).
  { destruct (get opts "remove_duplicates"); cbn [andb].
    - unfold remove_duplicates, alloc. rewrite (deref_lookup h1 r1 frame H1).
      rewrite (deref_lookup _ _ (drop_duplicates frame) (lookup_insert_eq _ _ _)).
      destruct (drop_duplicates_rows frame) as (_ & Hlen & _).
      replace (len frame - len (drop_duplicates frame))%nat
        with (count_true (duplicated frame)) by lia.
      eexists _, _. split; [reflexivity|apply lookup_insert_eq].
    - eexists _, _. split; [reflexivity|exact H1]. }
  destruct Hdedup as (r2 & h2 & -> & H2).
  set (f1 := if get opts "remove_duplicates" then drop_duplicates frame else frame) in *.
  assert (Hnd1 : NoDup (map fst f1)).
  { unfold f1. destruct (get opts "remove_duplicates"); [|exact Hnd].
    destruct (drop_duplicates_rows frame) as (_ & _ & _ & ->). exact Hnd. }
  set (h3 := if get opts "fill_numeric_missing" then fill_numeric_missing r2 h2 else h2).
  set (f2 := if get opts "fill_numeric_missing"
             then map_columns fill_numeric_column f1 else f1).
  assert (H3 : h3 !! r2 = Some f2).
  { unfold h3, f2. destruct (get opts "fill_numeric_missing"); [|exact H2].
    now apply fill_numeric_missing_frame. }
  assert (Hnd2 : NoDup (map fst f2)).
  { unfold f2. destruct (get opts "fill_numeric_missing"); [|exact Hnd1].
    now rewrite map_columns_labels. }
  eexists. split; [reflexivity|]. cbn [result_store result_ref printed].
  split; [|reflexivity].
  unfold cleaned_frame. fold f1. fold f2.
  destruct (get opts "fill_categorical_missing"); [|exact H3].
  now apply fill_categorical_missing_frame.
Qed.

(** X13. For a frame with distinct column labels, the frame behind the
    reference [clean_data] returns is the input without its duplicate
    rows (if asked), then with the gaps of its numeric columns filled
    by the median of the column (if asked), then with the gaps of its
    text columns filled by the mode of the column, or by ['Unknown']
    (if asked); the number printed is the number of duplicates, when
    there are any. *)
Theorem clean_data_result (h : gmap nat DataFrame) (df : ref)
    (cleaning_options : option (gmap string bool)) (frame : DataFrame) :
  h !! df = Some frame ->
  NoDup (map fst frame) ->
  let opts := default default_options cleaning_options in
  exists c, clean_data h df cleaning_options = Some c
            /\ result_store c !! result_ref c = Some (cleaned_frame opts frame)
            /\ printed c
               = if get opts "remove_duplicates" && (0 <? count_true (duplicated frame))%nat
                 then Some (count_true (duplicated frame)) else None.
Proof. exact (clean_data_refines h df cleaning_options frame). Qed.

Lemma clean_data_result_witness :
  exists c, clean_data {[ 0%nat := Samples.gaps ]} 0%nat (Some Samples.all_switches) = Some c
            /\ result_store c !! result_ref c
               = Some (cleaned_frame Samples.all_switches Samples.gaps)
            /\ printed c
               = if get Samples.all_switches "remove_duplicates"
                    && (0 <? count_true (duplicated Samples.gaps))%nat
                 then Some (count_true (duplicated Samples.gaps)) else None.
Proof.
  apply (clean_data_result {[ 0%nat := Samples.gaps ]} 0%nat
           (Some Samples.all_switches) Samples.gaps).
  - reflexivity.
  - apply (bool_decide_unpack _). vm_compute. reflexivity.
Defined.

Lemma fillna_keeps {A} (F : A -> cell) (v : option A) (xs : list (option A)) :
  Forall2 (fun x y : cell => x = CNull \/ y = x)
          (map (opt_cell F) xs) (map (opt_cell F) (fillna v xs)).
Proof.
  induction xs as [|[a|] xs IH]; cbn [map fillna]; constructor; auto.
Qed.

Lemma keeps_values_refl (c : column) : keeps_values c c.
Proof.
  unfold keeps_values. induction (cells_of c); constructor; auto.
Qed.

Lemma keeps_values_trans (a b c : column) :
  keeps_values a b -> keeps_values b c -> keeps_values a c.
Proof.
  unfold keeps_values. generalize (cells_of a), (cells_of b), (cells_of c).
  intros la lb lc Hab. revert lc.
  induction Hab as [|x y la lb Hxy Hab IH]; intros lc Hbc; inversion Hbc; subst;
    constructor; [|now apply IH].
  destruct Hxy as [-> | ->]; [now left|assumption].
Qed.

Lemma fillna_complete {A} (v : A) (xs : list (option A)) :
  any (isnull_cells (fillna (Some v) xs)) = false.
Proof.
  unfold any. induction xs as [|[a|] xs IH]; cbn; auto.
Qed.

Lemma insert_sorted_cons (x : Q) (l : list Q) : insert_sorted x l <> [].
Proof. destruct l; cbn; [discriminate|]. now destruct (Qle_bool x q). Qed.

Lemma sort_values_nil (l : list Q) : sort_values l = [] -> l = [].
Proof.
  destruct l as [|x l]; [reflexivity|]. unfold sort_values. cbn [foldr].
  intros H. now apply insert_sorted_cons in H.
Qed.

Lemma dropna_nil {A} (xs : list (option A)) :
  dropna xs = [] -> forallb (fun b : bool => b) (isnull_cells xs) = true.
Proof.
  induction xs as [|[a|] xs IH]; cbn; [reflexivity|discriminate|exact IH].
Qed.

Lemma median_None (xs : list (option Q)) :
  median xs = None -> forallb (fun b : bool => b) (isnull_cells xs) = true.
Proof.
  unfold median. intros H. apply dropna_nil, sort_values_nil.
  destruct (sort_values (dropna xs)) as [|v0 vals]; [reflexivity|].
  cbn zeta in H. now destruct (Nat.even _).
Qed.

Lemma fill_numeric_column_spec (c : column) :
  keeps_values c (fill_numeric_column c)
  /\ numbers_filled (fill_numeric_column c) = true
  /\ text_complete (fill_numeric_column c) = text_complete c.
Proof.
  destruct c as [xs|xs|xs|xs]; cbn [fill_numeric_column];
    try (repeat split; [apply keeps_values_refl]).
  destruct (any (isnull_cells xs)) eqn:Hany.
  - repeat split; [apply (fillna_keeps CNum)|].
    unfold numbers_filled, complete, vacant. cbn [isnull].
    destruct (median xs) as [m|] eqn:Hm.
    + now rewrite fillna_complete.
    + assert (Hsame : fillna None xs = xs).
      { unfold fillna. rewrite <- (map_id xs) at 2. apply map_ext. now intros [a|]. }
      rewrite Hsame, (median_None xs Hm). apply orb_true_r.
  - repeat split; [apply keeps_values_refl|].
    unfold numbers_filled, complete. cbn [isnull]. now rewrite Hany.
Qed.

Lemma fill_categorical_column_spec (c : column) :
  keeps_values c (fill_categorical_column c)
  /\ text_complete (fill_categorical_column c) = true
  /\ numbers_filled (fill_categorical_column c) = numbers_filled c.
Proof.
  destruct c as [xs|xs|xs|xs]; cbn [fill_categorical_column];
    try (repeat split; [apply keeps_values_refl]).
  destruct (any (isnull_cells xs)) eqn:Hany.
  - repeat split; [apply (fillna_keeps CObj)|].
    unfold text_complete, complete. cbn [isnull]. now rewrite fillna_complete.
  - repeat split; [apply keeps_values_refl|].
    unfold text_complete, complete. cbn [isnull]. now rewrite Hany.
Qed.

(** X14. For a frame with distinct column labels: every column of the frame
    [clean_data] returns has the label and the cells of the column of
    the rows that were kept, except where that one had a gap; if text
    gaps are filled, no text column of the result has a gap; if numeric
    gaps are filled, a column of numbers of the result has a gap only
    if it has no value at all. *)
Theorem clean_data_fills (h : gmap nat DataFrame) (df : ref)
    (cleaning_options : option (gmap string bool)) (frame : DataFrame) :
  h !! df = Some frame ->
  NoDup (map fst frame) ->
  let opts := default default_options cleaning_options in
  let kept := if get opts "remove_duplicates" then drop_duplicates frame else frame in
  exists c out,
    clean_data h df cleaning_options = Some c
    /\ result_store c !! result_ref c = Some out
    /\ Forall2 (fun a b : string * column =>
                  fst b = fst a /\ keeps_values (snd a) (snd b)) kept out
    /\ (get opts "fill_categorical_missing" = true ->
        forallb (fun nc : string * column => text_complete (snd nc)) out = true)
    /\ (get opts "fill_numeric_missing" = true ->
        forallb (fun nc : string * column => numbers_filled (snd nc)) out = true).
Proof.
  intros Hdf Hnd opts kept.
  destruct (clean_data_refines h df cleaning_options frame Hdf Hnd) as (c & Hc & Hout & _).
  exists c, (cleaned_frame opts frame). split; [exact Hc|]. split; [exact Hout|].
  unfold cleaned_frame. fold kept. clearbody kept. clear.
  destruct (get opts "fill_numeric_missing"), (get opts "fill_categorical_missing");
    (split; [|split; intros Hopt; try discriminate]);
    induction kept as [|[n col] kept IH]; cbn [map_columns map forallb fst snd];
    try constructor; try reflexivity; try assumption; cbn [fst snd];
    pose proof (fill_numeric_column_spec col) as (Hn1 & Hn2 & Hn3);
    pose proof (fill_categorical_column_spec col) as (Hc1 & Hc2 & Hc3);
    pose proof (fill_categorical_column_spec (fill_numeric_column col))
      as (Hd1 & Hd2 & Hd3);
    try (split; [reflexivity|]);
    eauto using keeps_values_refl, keeps_values_trans;
    try (apply andb_true_iff; split; [|now apply IH]); try congruence.
Qed.

Lemma clean_data_fills_witness :
  let opts := default default_options (Some Samples.all_switches) in
  let kept := if get opts "remove_duplicates"
              then drop_duplicates Samples.gaps else Samples.gaps in
  exists c out,
    clean_data {[ 0%nat := Samples.gaps ]} 0%nat (Some Samples.all_switches) = Some c
    /\ result_store c !! result_ref c = Some out
    /\ Forall2 (fun a b : string * column =>
                  fst b = fst a /\ keeps_values (snd a) (snd b)) kept out
    /\ (get opts "fill_categorical_missing" = true ->
        forallb (fun nc : string * column => text_complete (snd nc)) out = true)
    /\ (get opts "fill_numeric_missing" = true ->
        forallb (fun nc : string * column => numbers_filled (snd nc)) out = true).
Proof.
  apply (clean_data_fills {[ 0%nat := Samples.gaps ]} 0%nat
           (Some Samples.all_switches) Samples.gaps).
  - reflexivity.
  - apply (bool_decide_unpack _). vm_compute. reflexivity.
Defined.

(** X15. [clean_data] reads three keys of its options and nothing else, a
    key that is absent counting as [False]: two dictionaries that agree
    on [remove_duplicates], [fill_numeric_missing] and
    [fill_categorical_missing] give the same result, whatever they say
    about [remove_outliers] or any other key. *)
Theorem clean_data_reads_three_keys (h : gmap nat DataFrame) (df : ref)
    (o1 o2 : gmap string bool) :
  Forall (fun key => get o1 key = get o2 key)
         ["remove_duplicates"; "fill_numeric_missing"; "fill_categorical_missing"] ->
  clean_data h df (Some o1) = clean_data h df (Some o2).
Proof.
  intros H. inversion_clear H as [|? ? H1 Ha]. inversion_clear Ha as [|? ? H2 Hb].
  inversion_clear Hb as [|? ? H3 _].
  unfold clean_data. cbn [from_option id]. now rewrite H1, H2, H3.
Qed.

Lemma clean_data_reads_three_keys_witness :
  clean_data {[ 0%nat := Samples.gaps ]} 0%nat (Some Samples.all_switches)
  = clean_data {[ 0%nat := Samples.gaps ]} 0%nat
      (Some (<["remove_outliers" := true]> Samples.all_switches)).
Proof.
  apply (clean_data_reads_three_keys {[ 0%nat := Samples.gaps ]} 0%nat
           Samples.all_switches (<["remove_outliers" := true]> Samples.all_switches)).
  repeat constructor.
Defined.

End CleanedFrame.

(** ** SecureFileHandler.validate_and_process *)

Section UploadPipeline.
Import Py Pandas SecureFileHandler.
Variable self : SecureFileHandler.t.

Lemma read_sheets_In (read : option string -> attempt DataFrame) (names : list string)
    (n : string) (df : DataFrame) :
  In (n, df) (read_sheets read names) ->
  In n names /\ read (Some n) = Returned df /\ empty df = false.
Proof.
  induction names as [|s names IH]; cbn [read_sheets]; [intros []|].
  destruct (read (Some s)) as [d|e] eqn:Hread.
  - destruct (empty d) eqn:Hempty; cbn [negb].
    + intros H. destruct (IH H) as (? & ? & ?). repeat split; auto. now right.
    + intros [H|H].
      * injection H as <- <-. repeat split; auto. now left.
      * destruct (IH H) as (? & ? & ?). repeat split; auto. now right.
  - intros H. destruct (IH H) as (? & ? & ?). repeat split; auto. now right.
Qed.

Lemma read_sheets_skip (read : option string -> attempt DataFrame)
    (skipped rest : list string) :
  Forall (fun s => match read (Some s) with
                   | Returned df => empty df = true
                   | Raised _ => True
                   end) skipped ->
  read_sheets read (skipped ++ rest) = read_sheets read rest.
Proof.
  induction 1 as [|s skipped Hs _ IH]; [reflexivity|].
  cbn [app read_sheets]. destruct (read (Some s)) as [d|e]; [|exact IH].
  now rewrite Hs.
Qed.

Lemma process_and_scan_outcome (main_df : DataFrame) :
  let r := process_and_scan main_df in
  (success r = true
   /\ safe (_security_scan main_df) = true
   /\ r = Response true ProcessedSuccessfully (Some main_df)
                   (Some (_process_data main_df)))
  \/ (success r = false /\ data r = None /\ processed_data r = None
      /\ safe (_security_scan main_df) = false).
Proof.
  cbn zeta. unfold process_and_scan.
  destruct (safe (_security_scan main_df)); cbn [negb]; [left|right]; auto.
Qed.

(** X16. Data is handed back only with [success], and only a frame that was
    read from the uploaded bytes of a file that the validator accepts
    and that the scan finds safe; it comes with its own
    [processed_data]. Without [success] neither data nor processed
    data are handed back. *)
Theorem returned_data_is_vetted (uploaded_file : UploadedFile.t) (file_content : workbook) :
  let r := fst (validate_and_process self uploaded_file file_content) in
  (success r = true <-> exists df, data r = Some df)
  /\ (success r = false -> data r = None /\ processed_data r = None)
  /\ (forall df, data r = Some df ->
        valid (_validate_file self uploaded_file) = true
        /\ (exists sheet, read_excel file_content sheet = Returned df)
        /\ safe (_security_scan df) = true
        /\ processed_data r = Some (_process_data df)
        /\ response_message_of r = ProcessedSuccessfully).
Proof.
  cbn zeta. unfold validate_and_process.
  destruct (valid (_validate_file self uploaded_file)); cbn [negb fst];
    [|cbn; repeat split; try discriminate; intros [? ?]; discriminate].
  assert (Hfail : forall m,
             let r := Response false m None None in
             (success r = true <-> exists df, data r = Some df)
             /\ (success r = false -> data r = None /\ processed_data r = None)
             /\ (forall df, data r = Some df ->
                  true = true
                  /\ (exists sheet, read_excel file_content sheet = Returned df)
                  /\ safe (_security_scan df) = true
                  /\ processed_data r = Some (_process_data df)
                  /\ response_message_of r = ProcessedSuccessfully)).
  { intros m. cbn. repeat split; try discriminate. intros [? ?]; discriminate. }
  assert (Hscan : forall main_df,
             (exists sheet, read_excel file_content sheet = Returned main_df) ->
             let r := process_and_scan main_df in
             (success r = true <-> exists df, data r = Some df)
             /\ (success r = false -> data r = None /\ processed_data r = None)
             /\ (forall df, data r = Some df ->
                  true = true
                  /\ (exists sheet, read_excel file_content sheet = Returned df)
                  /\ safe (_security_scan df) = true
                  /\ processed_data r = Some (_process_data df)
                  /\ response_message_of r = ProcessedSuccessfully)).
  { intros main_df Hread. cbn zeta.
    destruct (process_and_scan_outcome main_df) as [(Hs & Hsafe & Hr)|(Hs & Hd & Hp & _)].
    - rewrite Hr. cbn. split; [split; [intros _; eauto|reflexivity]|].
      split; [discriminate|]. intros df [= <-].
      split; [reflexivity|]. split; [exact Hread|]. split; [exact Hsafe|].
      split; reflexivity.
    - rewrite Hs, Hd, Hp. split; [split; [discriminate|intros [? ?]; discriminate]|].
      split; [auto|]. discriminate. }
  destruct (sheetnames file_content) as [worksheet_names|e]; [|apply Hfail].
  destruct (1 <? length worksheet_names)%nat.
  - destruct (read_sheets (read_excel file_content) worksheet_names)
      as [|[first_sheet main_df] others] eqn:Hsheets; [apply Hfail|].
    cbn [fst]. apply Hscan. exists (Some first_sheet).
    apply (read_sheets_In _ worksheet_names first_sheet main_df).
    rewrite Hsheets. now left.
  - destruct (read_excel file_content None) as [main_df|e] eqn:Hread; [|apply Hfail].
    cbn [fst]. apply Hscan. now exists None.
Qed.

(** X17. Of a workbook with several sheets, the sheet that is loaded is the
    first one, in the order of the workbook, that can be read and is
    not empty: the sheets before it are passed over without a message,
    and the response, with the sheet it announces, is the one for that
    sheet alone, whatever the sheets after it hold, also when the scan
    rejects it and a later sheet would pass. *)
Theorem first_readable_sheet_is_loaded (uploaded_file : UploadedFile.t)
    (file_content : workbook) (skipped rest : list string) (sheet : string)
    (df : DataFrame) :
  valid (_validate_file self uploaded_file) = true ->
  sheetnames file_content = Returned (skipped ++ sheet :: rest) ->
  (1 < length (skipped ++ sheet :: rest))%nat ->
  Forall (fun s => match read_excel file_content (Some s) with
                   | Returned d => empty d = true
                   | Raised _ => True
                   end) skipped ->
  read_excel file_content (Some sheet) = Returned df ->
  empty df = false ->
  validate_and_process self uploaded_file file_content
  = (process_and_scan df, Some (sheet, length (skipped ++ sheet :: rest))).
Proof.
  intros Hvalid Hnames Hlen Hskipped Hread Hempty.
  unfold validate_and_process. rewrite Hvalid, Hnames. cbn [negb].
  apply Nat.ltb_lt in Hlen. rewrite Hlen.
  rewrite (read_sheets_skip _ skipped (sheet :: rest) Hskipped).
  cbn [read_sheets]. now rewrite Hread, Hempty.
Qed.

Lemma text_cells_no_rows (P : string -> bool) (df : DataFrame) :
  aligned df -> len df = O -> text_cells P df = true.
Proof.
  intros Hal Hlen. unfold aligned in Hal. rewrite Hlen in Hal. clear Hlen.
  unfold text_cells.
  induction Hal as [|[n c] rest Hc _ IH]; [reflexivity|].
  destruct c as [xs|xs|xs|xs]; cbn [object_columns]; try exact IH.
  cbn [forallb snd]. rewrite IH.
  cbn [snd] in Hc. unfold col_len in Hc. cbn [isnull] in Hc.
  unfold isnull_cells in Hc. rewrite length_map in Hc.
  destruct xs; [reflexivity|discriminate].
Qed.

(** X18. An empty sheet is data in a workbook of one sheet and no data in a
    workbook of several: a frame without rows, read from a workbook
    with at most one sheet name, is handed back with [success]; a
    workbook with more sheet names whose every sheet is empty or
    unreadable is rejected with 'No valid data found in any
    worksheet'. *)
Theorem empty_sheets_differ (uploaded_file : UploadedFile.t) (single several : workbook)
    (sheet_names worksheet_names : list string) (df : DataFrame) :
  valid (_validate_file self uploaded_file) = true ->
  aligned df -> len df = O ->
  sheetnames single = Returned sheet_names ->
  (length sheet_names <= 1)%nat ->
  read_excel single None = Returned df ->
  sheetnames several = Returned worksheet_names ->
  (1 < length worksheet_names)%nat ->
  Forall (fun s => match read_excel several (Some s) with
                   | Returned d => empty d = true
                   | Raised _ => True
                   end) worksheet_names ->
  validate_and_process self uploaded_file single
  = (Response true ProcessedSuccessfully (Some df) (Some (_process_data df)), None)
  /\ validate_and_process self uploaded_file several
     = (Response false NoValidData None None, None).
Proof.
  intros Hvalid Hal Hrows Hnames1 Hlen1 Hread Hnames Hlen Hall.
  unfold validate_and_process. rewrite Hvalid, Hnames1, Hnames. cbn [negb]. split.
  - assert (Hlt : (1 <? length sheet_names)%nat = false) by (apply Nat.ltb_ge; lia).
    rewrite Hlt, Hread. unfold process_and_scan.
    rewrite (security_scan_pass df (text_cells_no_rows _ df Hal Hrows)).
    reflexivity.
  - apply Nat.ltb_lt in Hlen. rewrite Hlen.
    rewrite <- (app_nil_r worksheet_names).
    rewrite (read_sheets_skip _ worksheet_names [] Hall). reflexivity.
Qed.

End UploadPipeline.

Lemma first_readable_sheet_is_loaded_witness :
  SecureFileHandler.validate_and_process SecureFileHandler.__init__ Samples.report
    Samples.quarterly
  = (SecureFileHandler.process_and_scan Samples.safe_data, Some ("Data", 4%nat)).
Proof.
  apply (first_readable_sheet_is_loaded SecureFileHandler.__init__ Samples.report
           Samples.quarterly ["Cover"; "Broken"] ["Notes"] "Data" Samples.safe_data).
  - vm_compute. reflexivity.
  - reflexivity.
  - simpl. lia.
  - repeat constructor.
  - reflexivity.
  - reflexivity.
Defined.

Lemma empty_sheets_differ_witness :
  let read := fun _ : option string => SecureFileHandler.Returned Samples.header_only in
  SecureFileHandler.validate_and_process SecureFileHandler.__init__ Samples.report
    (SecureFileHandler.Workbook (SecureFileHandler.Returned ["Sheet1"]) read)
  = (SecureFileHandler.Response true SecureFileHandler.ProcessedSuccessfully
       (Some Samples.header_only)
       (Some (SecureFileHandler._process_data Samples.header_only)), None)
  /\ SecureFileHandler.validate_and_process SecureFileHandler.__init__ Samples.report
       (SecureFileHandler.Workbook (SecureFileHandler.Returned ["Sheet1"; "Sheet2"]) read)
     = (SecureFileHandler.Response false SecureFileHandler.NoValidData None None, None).
Proof.
  intros read.
  apply (empty_sheets_differ SecureFileHandler.__init__ Samples.report
           (SecureFileHandler.Workbook (SecureFileHandler.Returned ["Sheet1"]) read)
           (SecureFileHandler.Workbook (SecureFileHandler.Returned ["Sheet1"; "Sheet2"]) read)
           ["Sheet1"] ["Sheet1"; "Sheet2"] Samples.header_only).
  - vm_compute. reflexivity.
  - repeat constructor.
  - reflexivity.
  - reflexivity.
  - simpl. lia.
  - reflexivity.
  - reflexivity.
  - simpl. lia.
  - repeat constructor.
Defined.

(** ** DataProcessor.get_data_summary *)

Section Summaries.
Import Pandas DataProcessor DataSummary.

Lemma column_kinds_le (df : DataFrame) :
  (length (number_columns df) + length (object_columns df)
   + length (SecureFileHandler.datetime_columns_of df) <= length df)%nat.
Proof.
  induction df as [|[n [xs|xs|xs|xs]] df IH];
    cbn [number_columns object_columns SecureFileHandler.datetime_columns_of length];
    lia.
Qed.

Lemma first_row_kept (r : list cell) (rs : list (list cell)) :
  (count_true (duplicated_after [] (r :: rs)) <= length rs)%nat.
Proof.
  cbn [duplicated_after existsb]. unfold count_true. cbn [List.filter].
  fold (count_true (duplicated_after [r] rs)).
  rewrite <- (duplicated_after_length [r] rs). apply count_true_le.
Qed.

(** X19. The counts of the summary of a frame whose columns have the same
    number of cells: at most one missing value per cell; fewer
    duplicate rows than rows, unless there is no row; and the numeric,
    categorical and datetime columns together are at most the
    columns. *)
Theorem data_summary_bounds (df : DataFrame) :
  aligned df ->
  let s := get_data_summary df in
  (missing_values s <= total_rows s * total_columns s)%nat
  /\ (duplicate_rows s < total_rows s \/ total_rows s = O /\ duplicate_rows s = O)%nat
  /\ (numeric_columns s + categorical_columns s + datetime_columns s
      <= total_columns s)%nat.
Proof.
  intros Hal. cbn. split; [|split].
  - apply total_nulls_le, Hal.
  - unfold duplicated, rows. destruct (len df) as [|k]; [right; split; reflexivity|].
    left. cbn [seq map].
    pose proof (first_row_kept (row df 0) (map (row df) (seq 1 k))) as H.
    rewrite length_map, length_seq in H. lia.
  - apply column_kinds_le.
Qed.

Lemma data_summary_bounds_witness :
  let s := get_data_summary Samples.gaps in
  (missing_values s <= total_rows s * total_columns s)%nat
  /\ (duplicate_rows s < total_rows s \/ total_rows s = O /\ duplicate_rows s = O)%nat
  /\ (numeric_columns s + categorical_columns s + datetime_columns s
      <= total_columns s)%nat.
Proof.
  apply (data_summary_bounds Samples.gaps). repeat constructor.
Defined.

End Summaries.

(** ** DataProcessor: the Tukey fences *)

Section TukeyFences.
Import Pandas DataProcessor Spec.

Lemma insert_sorted_In (v x : Q) (l : list Q) :
  In v (insert_sorted x l) -> v = x \/ In v l.
Proof.
  induction l as [|y l IH]; cbn [insert_sorted].
  - intros [H|[]]. now left.
  - destruct (Qle_bool x y).
    + intros [H|H]; [now left|now right].
    + intros [H|H]; [right; now left|].
      destruct (IH H) as [?|?]; [now left|right; now right].
Qed.

Lemma sort_values_In (v : Q) (l : list Q) : In v (sort_values l) -> In v l.
Proof.
  unfold sort_values. induction l as [|x l IH]; cbn [foldr]; [tauto|].
  intros H. apply insert_sorted_In in H as [H|H]; [now left|right; auto].
Qed.

Lemma insert_sorted_length (x : Q) (l : list Q) :
  length (insert_sorted x l) = S (length l).
Proof.
  induction l as [|y l IH]; cbn [insert_sorted]; [reflexivity|].
  destruct (Qle_bool x y); cbn [length]; [reflexivity|now rewrite IH].
Qed.

Lemma sort_values_length (l : list Q) : length (sort_values l) = length l.
Proof.
  unfold sort_values. induction l as [|x l IH]; cbn [foldr length]; [reflexivity|].
  now rewrite insert_sorted_length, IH.
Qed.

Lemma insert_sorted_ascending (x : Q) (l : list Q) :
  ascending l -> ascending (insert_sorted x l).
Proof.
  induction l as [|y l IH]; cbn [insert_sorted ascending].
  - intros _. split; [constructor|exact I].
  - intros [Hy Hl]. destruct (Qle_bool x y) eqn:Hxy; cbn [ascending].
    + apply Qle_bool_iff in Hxy. split; [|split; assumption].
      constructor; [exact Hxy|].
      eapply Forall_impl; [exact Hy|]. intros z Hz. cbn in Hz. lra.
    + assert (Hyx : (y <= x)%Q).
      { apply Qlt_le_weak, Qnot_le_lt. intros H. apply Qle_bool_iff in H. congruence. }
      split; [|now apply IH].
      apply insert_sorted_Forall; assumption.
Qed.

Lemma sort_values_ascending (l : list Q) : ascending (sort_values l).
Proof.
  unfold sort_values. induction l as [|x l IH]; cbn [foldr]; [exact I|].
  now apply insert_sorted_ascending.
Qed.

Lemma ascending_nth (l : list Q) (d : Q) (i j : nat) :
  ascending l -> (i <= j)%nat -> (j < length l)%nat -> (nth i l d <= nth j l d)%Q.
Proof.
  revert i j. induction l as [|x l IH]; intros i j Hl Hij Hj; [cbn in Hj; lia|].
  destruct Hl as [Hx Hl]. destruct j as [|j].
  - assert (i = O) by lia. subst. cbn. lra.
  - destruct i as [|i]; cbn [nth].
    + cbn [length] in Hj. clear IH Hij.
      assert (Hin : In (nth j l d) l) by (apply nth_In; lia).
      rewrite Forall_forall in Hx. apply Hx. now apply list_elem_of_In.
    + apply IH; [assumption|lia|cbn [length] in Hj; lia].
Qed.

Lemma interpolate_between (vals : list Q) (v0 h : Q) :
  ascending vals ->
  (Z.to_nat (Qfloor h) < length vals)%nat ->
  (nth (Z.to_nat (Qfloor h)) vals v0 <= interpolate vals v0 h)%Q
  /\ (interpolate vals v0 h
      <= nth (Nat.min (S (Z.to_nat (Qfloor h))) (length vals - 1)) vals v0)%Q.
Proof.
  intros Hasc Hlo. unfold interpolate.
  set (lo := Z.to_nat (Qfloor h)) in *.
  set (hi := Nat.min (S lo) (length vals - 1)).
  assert (Hab : (nth lo vals v0 <= nth hi vals v0)%Q)
    by (apply ascending_nth; [assumption|unfold hi; lia|unfold hi; lia]).
  destruct (fraction_range h) as [Hf0 Hf1].
  generalize dependent (h - inject_Z (Qfloor h))%Q. intros f Hf0 Hf1.
  generalize dependent (nth lo vals v0). intros a.
  generalize dependent (nth hi vals v0). intros b Hab.
  split; nra.
Qed.

Lemma interpolate_mono (vals : list Q) (v0 h1 h2 : Q) :
  ascending vals ->
  (0 <= h1)%Q -> (h1 <= h2)%Q ->
  (Z.to_nat (Qfloor h2) < length vals)%nat ->
  (interpolate vals v0 h1 <= interpolate vals v0 h2)%Q.
Proof.
  intros Hasc H0 H12 Hlo2.
  assert (Hk1 : (0 <= Qfloor h1)%Z).
  { change 0%Z with (Qfloor 0). now apply Qfloor_resp_le. }
  assert (Hk : (Qfloor h1 <= Qfloor h2)%Z) by now apply Qfloor_resp_le.
  destruct (Z.eq_dec (Qfloor h1) (Qfloor h2)) as [Heq|Hne].
  - unfold interpolate. rewrite Heq.
    set (lo := Z.to_nat (Qfloor h2)) in *.
    set (hi := Nat.min (S lo) (length vals - 1)).
    assert (Hab : (nth lo vals v0 <= nth hi vals v0)%Q)
      by (apply ascending_nth; [assumption|unfold hi; lia|unfold hi; lia]).
    generalize dependent (inject_Z (Qfloor h2)). intros z.
    generalize dependent (nth lo vals v0). intros a.
    generalize dependent (nth hi vals v0). intros b Hab.
    nra.
  - assert (Hlo1 : (Z.to_nat (Qfloor h1) < length vals)%nat) by lia.
    destruct (interpolate_between vals v0 h1 Hasc Hlo1) as [_ Hup].
    destruct (interpolate_between vals v0 h2 Hasc Hlo2) as [Hdown _].
    assert (Hmid : (nth (Nat.min (S (Z.to_nat (Qfloor h1))) (length vals - 1)) vals v0
                    <= nth (Z.to_nat (Qfloor h2)) vals v0)%Q)
      by (apply ascending_nth; [assumption|lia|assumption]).
    lra.
Qed.

(** The fractional indices of the two quartiles among [S m] values. *)
Lemma quartile_positions (m : nat) :
  let h1 := (inject_Z (Z.of_nat m) * (1 # 4))%Q in
  let h3 := (inject_Z (Z.of_nat m) * (3 # 4))%Q in
  (0 <= h1)%Q /\ (h1 <= h3)%Q /\ (h3 == 3 * h1)%Q
  /\ (Z.to_nat (Qfloor h3) < S m)%nat.
Proof.
  cbn zeta.
  assert (Hm : (0 <= inject_Z (Z.of_nat m))%Q).
  { change 0%Q with (inject_Z 0). rewrite <- Zle_Qle. lia. }
  assert (Hfloor : (Qfloor (inject_Z (Z.of_nat m) * (3 # 4)) <= Z.of_nat m)%Z).
  { rewrite <- (Qfloor_Z (Z.of_nat m)) at 2. apply Qfloor_resp_le.
    generalize dependent (inject_Z (Z.of_nat m)). intros z Hz. lra. }
  generalize dependent (inject_Z (Z.of_nat m)). intros z Hz Hfloor.
  repeat split; try lra. lia.
Qed.

Lemma quartiles_ordered (vals : list Q) (v0 : Q) :
  ascending vals -> vals <> [] ->
  let m := (length vals - 1)%nat in
  let Q1 := interpolate vals v0 (inject_Z (Z.of_nat m) * (1 # 4)) in
  let Q3 := interpolate vals v0 (inject_Z (Z.of_nat m) * (3 # 4)) in
  let v := nth (Z.to_nat (Qfloor (inject_Z (Z.of_nat m) * (3 # 4)))) vals v0 in
  (Q1 <= Q3)%Q /\ (Q1 - (3 # 2) * (Q3 - Q1) <= v)%Q /\ (v <= Q3)%Q /\ In v vals.
Proof.
  intros Hasc Hne. cbn zeta.
  assert (Hlen : length vals = S (length vals - 1))
    by (destruct vals; [congruence|cbn [length]; lia]).
  destruct (quartile_positions (length vals - 1)) as (H0 & H13 & H3 & Hlo3).
  rewrite <- Hlen in Hlo3.
  set (h1 := (inject_Z (Z.of_nat (length vals - 1)) * (1 # 4))%Q) in *.
  set (h3 := (inject_Z (Z.of_nat (length vals - 1)) * (3 # 4))%Q) in *.
  pose proof (interpolate_mono vals v0 h1 h3 Hasc H0 H13 Hlo3) as Hord.
  destruct (interpolate_between vals v0 h3 Hasc Hlo3) as [Hdown3 _].
  split; [exact Hord|]. split; [|split; [exact Hdown3|now apply nth_In]].
  assert (Hk1 : (0 <= Qfloor h1)%Z).
  { change 0%Z with (Qfloor 0). now apply Qfloor_resp_le. }
  assert (Hk : (Qfloor h1 <= Qfloor h3)%Z) by now apply Qfloor_resp_le.
  destruct (Z.eq_dec (Qfloor h1) (Qfloor h3)) as [Heq|Hne3].
  - clear Hord Hdown3. unfold interpolate. rewrite Heq.
    set (lo := Z.to_nat (Qfloor h3)) in *.
    set (hi := Nat.min (S lo) (length vals - 1)).
    assert (Hab : (nth lo vals v0 <= nth hi vals v0)%Q)
      by (apply ascending_nth; [assumption|unfold hi; lia|unfold hi; lia]).
    assert (Hz : (0 <= inject_Z (Qfloor h3))%Q).
    { change 0%Q with (inject_Z 0). rewrite <- Zle_Qle. lia. }
    generalize dependent (inject_Z (Qfloor h3)). intros z Hz.
    generalize dependent (nth lo vals v0). intros a.
    generalize dependent (nth hi vals v0). intros b Hab.
    clearbody h1 h3. nra.
  - assert (Hlo1 : (Z.to_nat (Qfloor h1) < length vals)%nat) by lia.
    destruct (interpolate_between vals v0 h1 Hasc Hlo1) as [_ Hup].
    assert (Hmid : (nth (Nat.min (S (Z.to_nat (Qfloor h1))) (length vals - 1)) vals v0
                    <= nth (Z.to_nat (Qfloor h3)) vals v0)%Q)
      by (apply ascending_nth; [assumption|lia|assumption]).
    lra.
Qed.

Lemma insert_sorted_In_inv (v x : Q) (l : list Q) :
  v = x \/ In v l -> In v (insert_sorted x l).
Proof.
  induction l as [|y l IH]; cbn [insert_sorted].
  - intros [H|[]]. now left.
  - destruct (Qle_bool x y).
    + intros [H|H]; [now left|now right].
    + intros [H|[H|H]]; [right; apply IH; now left|now left|right; apply IH; now right].
Qed.

Lemma sort_values_In_inv (v : Q) (l : list Q) : In v l -> In v (sort_values l).
Proof.
  unfold sort_values. induction l as [|x l IH]; cbn [foldr]; [tauto|].
  intros [H|H]; apply insert_sorted_In_inv; [now left|right; auto].
Qed.

Lemma outside_count (b : Float64.t * Float64.t) (xs : list (option Q)) :
  (count_true (map (outside b) xs) <= values_count xs)%nat
  /\ ((exists v, In (Some v) xs /\ outside b (Some v) = false) ->
      (count_true (map (outside b) xs) < values_count xs)%nat)
  /\ length (List.filter (outside b) xs) = count_true (map (outside b) xs).
Proof.
  unfold values_count, count_true.
  induction xs as [|[x|] xs (IH1 & IH2 & IH3)].
  - cbn. repeat split; [lia|]. intros (v & [] & _).
  - cbn [map List.filter dropna length].
    destruct (outside b (Some x)) eqn:Hx; cbn [length].
    + split; [lia|]. split; [|lia].
      intros (v & [Hv|Hv] & Hout); [congruence|].
      apply -> Nat.succ_lt_mono. apply IH2. eauto.
    + split; [lia|]. split; [intros _; lia|exact IH3].
  - cbn [map List.filter dropna outside]. repeat split; try assumption.
    intros (v & [Hv|Hv] & Hout); [discriminate|]. apply IH2. eauto.
Qed.

Lemma no_cell_outside (b : Float64.t * Float64.t) (xs : list (option Q)) :
  (forall v, In (Some v) xs -> outside b (Some v) = false) ->
  count_true (map (outside b) xs) = O /\ List.filter (outside b) xs = [].
Proof.
  unfold count_true.
  induction xs as [|x xs IH]; intros H; [split; reflexivity|].
  destruct IH as [IH1 IH2]; [intros v Hv; apply H; now right|].
  assert (Hx : outside b x = false).
  { destruct x as [v|]; [apply H; now left|reflexivity]. }
  cbn [map List.filter]. rewrite Hx. split; assumption.
Qed.

End TukeyFences.

(** ** DataProcessor: quartiles and fences of whole numbers *)

(** For whole numbers of at most [2 ^ 40] in absolute value every step
    of the quartiles and of the fences is a number of eighths below
    [2 ^ 53]: float64 holds it without rounding, and an [int64] column
    gives the same results as a [float64] one. *)

Section WholeNumbers.
Import Pandas DataProcessor Spec Float64.

(** Below [2 ^ 50] the floats around [x] are at most an eighth apart. *)
Lemma ulp_inverse_eighth (x : Q) :
  (0 < x)%Q -> (x < 2 ^ 50)%Q ->
  exists K : Z, (0 < K)%Z /\ (inject_Z (8 * K) * ulp x == 1)%Q.
Proof.
  intros Hx Hlt. unfold ulp.
  pose proof (pow2_between _ _ _ (ilog2_lower x Hx) Hlt) as He.
  set (E := Z.max (ilog2 x) (-1022)) in *.
  exists (2 ^ (49 - E))%Z. split; [apply Z.pow_pos_nonneg; lia|].
  replace (8 * 2 ^ (49 - E))%Z with (2 ^ (52 - E))%Z.
  - rewrite <- pow2_int by lia. rewrite <- pow2_plus.
    now replace (52 - E + (E - 52))%Z with 0%Z by lia.
  - replace (52 - E)%Z with (3 + (49 - E))%Z by lia.
    rewrite Z.pow_add_r by lia. reflexivity.
Qed.

(** A number of eighths below [2 ^ 53] is a float. *)
Lemma nearest_eighths (x : Q) (k : Z) :
  (x == k # 8)%Q -> (0 < k < 2 ^ 53)%Z -> (nearest x == x)%Q.
Proof.
  intros Hxk [Hk Hc].
  assert (Hk8 : (inject_Z k == x * 8)%Q).
  { rewrite Hxk. unfold Qeq. cbn. lia. }
  assert (Hx : (0 < x)%Q).
  { assert (H : (0 < inject_Z k)%Q)
      by (change 0%Q with (inject_Z 0); now rewrite <- Zlt_Qlt).
    lra. }
  assert (Hlt : (x < 2 ^ 50)%Q).
  { assert (H : (inject_Z k < inject_Z (2 ^ 53))%Q) by now rewrite <- Zlt_Qlt.
    rewrite (pow2_int 50) by lia.
    change (inject_Z (2 ^ 53)) with (8 * inject_Z (2 ^ 50))%Q in H. lra. }
  destruct (ulp_inverse_eighth _ Hx Hlt) as (K & HK & Hinv).
  pose proof (pow2_pos (Z.max (ilog2 x) (-1022) - 52)) as Hu. fold (ulp x) in Hu.
  rewrite inject_Z_mult in Hinv.
  unfold nearest.
  assert (Hq : (x / ulp x == inject_Z (k * K))%Q).
  { rewrite inject_Z_mult. apply Qmult_inj_r with (ulp x); [lra|].
    setoid_replace (x / ulp x * ulp x)%Q with x using relation Qeq by (field; lra).
    rewrite Hk8.
    setoid_replace (x * 8 * inject_Z K * ulp x)%Q
      with (x * (inject_Z 8 * inject_Z K * ulp x))%Q using relation Qeq by ring.
    rewrite Hinv. ring. }
  rewrite (round_half_even_int _ _ Hq), inject_Z_mult, Hk8.
  setoid_replace (x * 8 * inject_Z K * ulp x)%Q
    with (x * (inject_Z 8 * inject_Z K * ulp x))%Q using relation Qeq by ring.
  rewrite Hinv. ring.
Qed.

Lemma on_grid_compat (d : positive) (B : Z) (x y : Q) :
  (x == y)%Q -> on_grid d B x -> on_grid d B y.
Proof. intros H (k & Hk & HB). exists k. split; [now rewrite <- H|exact HB]. Qed.

Lemma exactly_compat (a : Float64.t) (x y : Q) :
  (x == y)%Q -> exactly a x -> exactly a y.
Proof. intros H (z & Hz & Hx). exists z. split; [exact Hz|now rewrite Hx]. Qed.

(** An operation whose exact result is a number of eighths below
    [2 ^ 53] returns it. *)
Lemma of_Q_eighths (x : Q) (B : Z) :
  on_grid 8 B x -> (B < 2 ^ 53)%Z -> exactly (of_Q x) x.
Proof.
  intros (k & Hk & HB) Hc. unfold of_Q.
  pose proof (Qred_correct x) as Hred.
  destruct (Qred x) as [n d] eqn:Hx. cbn [Qnum].
  assert (Hsign : (k * Z.pos d = n * 8)%Z).
  { rewrite Hk in Hred. unfold Qeq in Hred. cbn in Hred. lia. }
  destruct n as [|n|n].
  - exists 0%Q. split; [reflexivity|]. rewrite <- Hred. reflexivity.
  - assert (Hn : (0 < k < 2 ^ 53)%Z) by lia.
    assert (Hxk : (Z.pos n # d == k # 8)%Q) by (rewrite Hred; exact Hk).
    pose proof (nearest_eighths _ k Hxk Hn) as Hexact.
    assert (Hup : (nearest (Z.pos n # d) <= inject_Z k)%Q).
    { rewrite Hexact, Hxk. unfold Qle. cbn. lia. }
    rewrite (pow2_1024_large _ k Hup ltac:(lia)).
    eexists. split; [reflexivity|]. now rewrite Qred_correct, Hexact.
  - assert (Hn : (0 < - k < 2 ^ 53)%Z) by lia.
    assert (Hxk : (- (Z.neg n # d) == (- k) # 8)%Q).
    { rewrite Hred, Hk. unfold Qeq. cbn. lia. }
    pose proof (nearest_eighths _ (- k) Hxk Hn) as Hexact.
    assert (Hup : (nearest (- (Z.neg n # d)) <= inject_Z (- k))%Q).
    { rewrite Hexact, Hxk. unfold Qle. cbn. lia. }
    rewrite (pow2_1024_large _ (- k) Hup ltac:(lia)).
    eexists. split; [reflexivity|]. rewrite Qred_correct, Hexact, <- Hred. ring.
Qed.

Lemma on_grid_weaken (d : positive) (B B' : Z) (x : Q) :
  (B <= B')%Z -> on_grid d B x -> on_grid d B' x.
Proof. intros H (k & Hk & HB). exists k. split; [exact Hk|lia]. Qed.

Lemma on_grid_scale (e d : positive) (B : Z) (x : Q) :
  on_grid d B x -> on_grid (d * e) (B * Z.pos e) x.
Proof.
  intros (k & Hk & HB). exists (k * Z.pos e)%Z. split.
  - rewrite Hk. unfold Qeq. cbn [Qnum Qden]. rewrite Pos2Z.inj_mul. ring.
  - rewrite Z.abs_mul. apply Z.mul_le_mono_nonneg; lia.
Qed.

Lemma on_grid_add (d : positive) (B1 B2 : Z) (x y : Q) :
  on_grid d B1 x -> on_grid d B2 y -> on_grid d (B1 + B2) (x + y).
Proof.
  intros (k1 & Hk1 & HB1) (k2 & Hk2 & HB2). exists (k1 + k2)%Z. split; [|lia].
  rewrite Hk1, Hk2. unfold Qeq, Qplus. cbn [Qnum Qden]. rewrite Pos2Z.inj_mul. ring.
Qed.

Lemma on_grid_opp (d : positive) (B : Z) (x : Q) :
  on_grid d B x -> on_grid d B (- x).
Proof.
  intros (k & Hk & HB). exists (- k)%Z. split; [|lia].
  rewrite Hk. reflexivity.
Qed.

Lemma on_grid_mul (d1 d2 : positive) (B1 B2 : Z) (x y : Q) :
  on_grid d1 B1 x -> on_grid d2 B2 y -> on_grid (d1 * d2) (B1 * B2) (x * y).
Proof.
  intros (k1 & Hk1 & HB1) (k2 & Hk2 & HB2). exists (k1 * k2)%Z. split.
  - rewrite Hk1, Hk2. reflexivity.
  - rewrite Z.abs_mul. apply Z.mul_le_mono_nonneg; lia.
Qed.

Lemma exactly_Finite (x : Q) : exactly (Finite x) x.
Proof. exists x. split; reflexivity. Qed.

Lemma add_exact (a b : Float64.t) (x y : Q) (B : Z) :
  exactly a x -> exactly b y -> on_grid 8 B (x + y) -> (B < 2 ^ 53)%Z ->
  exactly (add a b) (x + y).
Proof.
  intros (x' & -> & Hx) (y' & -> & Hy) Hg HB. cbn [add].
  rewrite (of_Q_compat (x' + y') (x + y)) by now rewrite Hx, Hy.
  now apply of_Q_eighths with B.
Qed.

Lemma sub_exact (a b : Float64.t) (x y : Q) (B : Z) :
  exactly a x -> exactly b y -> on_grid 8 B (x - y) -> (B < 2 ^ 53)%Z ->
  exactly (sub a b) (x - y).
Proof.
  intros Ha (y' & -> & Hy) Hg HB. unfold sub. cbn [opp].
  apply add_exact with B; try assumption.
  exists (- y')%Q. split; [reflexivity|now rewrite Hy].
Qed.

Lemma mul_exact (a b : Float64.t) (x y : Q) (B : Z) :
  exactly a x -> exactly b y -> on_grid 8 B (x * y) -> (B < 2 ^ 53)%Z ->
  exactly (mul a b) (x * y).
Proof.
  intros (x' & -> & Hx) (y' & -> & Hy) Hg HB. cbn [mul].
  rewrite (of_Q_compat (x' * y') (x * y)) by now rewrite Hx, Hy.
  now apply of_Q_eighths with B.
Qed.

(** [_lerp] between whole numbers, at a weight of so many quarters,
    is exact. *)
Lemma lerp_exact (va vb t : Q) (j : Z) :
  on_grid 1 (2 ^ 40) va -> on_grid 1 (2 ^ 40) vb ->
  (t == j # 4)%Q -> (0 <= j <= 4)%Z ->
  exactly (lerp (Finite va) (Finite vb) t) (va + (vb - va) * t)
  /\ on_grid 4 (2 ^ 44) (va + (vb - va) * t).
Proof.
  intros Ha Hb Ht Hj.
  assert (Hdiff : on_grid 1 (2 ^ 41) (vb - va)).
  { apply on_grid_weaken with (2 ^ 40 + 2 ^ 40)%Z; [reflexivity|].
    apply on_grid_add; [exact Hb|now apply on_grid_opp]. }
  assert (Ht4 : on_grid 4 4 t) by (exists j; split; [exact Ht|lia]).
  assert (Hs4 : on_grid 4 4 (1 - t)).
  { exists (4 - j)%Z. split; [|lia]. rewrite Ht. unfold Qeq. cbn. lia. }
  assert (Hmul : forall s, on_grid 4 4 s -> on_grid 4 (2 ^ 43) ((vb - va) * s)).
  { intros s Hs. exact (on_grid_mul 1 4 _ _ _ _ Hdiff Hs). }
  assert (Hsum : forall v s, on_grid 1 (2 ^ 40) v -> on_grid 4 4 s ->
                             on_grid 4 (2 ^ 44) (v + (vb - va) * s)).
  { intros v s Hv Hs. apply on_grid_weaken with (2 ^ 40 * 4 + 2 ^ 43)%Z; [vm_compute; discriminate|].
    apply on_grid_add; [exact (on_grid_scale 4 1 _ _ Hv)|now apply Hmul]. }
  assert (Heighth : forall B x, on_grid 4 B x -> on_grid 8 (B * 2) x).
  { intros B x Hx. exact (on_grid_scale 2 4 _ _ Hx). }
  assert (Hd : exactly (sub (Finite vb) (Finite va)) (vb - va)).
  { apply sub_exact with (2 ^ 41 * 8)%Z; [apply exactly_Finite..| |reflexivity].
    exact (on_grid_scale 8 1 _ _ Hdiff). }
  assert (Hw : forall s, on_grid 4 4 s -> exactly (of_Q s) s).
  { intros s Hs. apply of_Q_eighths with (4 * 2)%Z; [now apply Heighth|reflexivity]. }
  assert (Hprod : forall s, on_grid 4 4 s ->
            exactly (mul (sub (Finite vb) (Finite va)) (of_Q s)) ((vb - va) * s)).
  { intros s Hs. apply mul_exact with (2 ^ 43 * 2)%Z; [exact Hd|now apply Hw| |reflexivity].
    now apply Heighth, Hmul. }
  split; [|now apply Hsum].
  unfold lerp. destruct (Qle_bool (1 # 2) t).
  - apply exactly_compat with (vb - (vb - va) * (1 - t))%Q; [ring|].
    apply sub_exact with (2 ^ 44 * 2)%Z; [apply exactly_Finite|now apply Hprod| |reflexivity].
    apply Heighth. apply on_grid_compat with (va + (vb - va) * t)%Q; [ring|now apply Hsum].
  - apply add_exact with (2 ^ 44 * 2)%Z; [apply exactly_Finite|now apply Hprod| |reflexivity].
    now apply Heighth, Hsum.
Qed.

Lemma small_integer_on_grid (q : Q) :
  small_integer q = true -> on_grid 1 (2 ^ 40) q.
Proof.
  unfold small_integer. intros H. apply andb_true_iff in H as [H1 H2].
  apply Qeq_bool_iff in H1. apply Z.leb_le in H2.
  exists (Qfloor q). split; [exact H1|exact H2].
Qed.

Lemma small_integers_sorted (xs : list (option Q)) (v : Q) :
  small_integers xs = true -> In v (sort_values (dropna xs)) ->
  on_grid 1 (2 ^ 40) v.
Proof.
  unfold small_integers. rewrite List.forallb_forall. intros H Hv.
  apply small_integer_on_grid, H, sort_values_In, Hv.
Qed.

(** The weight of a quartile is a number of quarters below 1, and its
    position is before the last value unless there is one value. *)
Lemma quartile_weight (m : nat) (k : quartile) :
  let h := (inject_Z (Z.of_nat m) * fraction k)%Q in
  (exists j : Z, (h - inject_Z (Qfloor h) == j # 4)%Q /\ (0 <= j < 4)%Z)
  /\ (0 <= Qfloor h)%Z
  /\ (Qle_bool (inject_Z (Z.of_nat m)) h = true -> m = O)
  /\ (Qle_bool (inject_Z (Z.of_nat m)) h = false -> (Z.to_nat (Qfloor h) < m)%nat).
Proof.
  cbn zeta.
  assert (Hc : exists c : Z, (fraction k = c # 4) /\ (0 < c < 4)%Z).
  { destruct k; [exists 1%Z|exists 3%Z]; split; (reflexivity || lia). }
  destruct Hc as (c & -> & Hc).
  set (z := Z.of_nat m). assert (Hz : (0 <= z)%Z) by lia.
  assert (Hfloor : Qfloor (inject_Z z * (c # 4)) = (z * c / 4)%Z) by reflexivity.
  rewrite Hfloor.
  pose proof (Z.div_mod (z * c) 4 ltac:(discriminate)) as Hdm.
  pose proof (Z.mod_pos_bound (z * c) 4 ltac:(reflexivity)) as Hmod.
  assert (Hzc : (0 <= z * c)%Z) by (apply Z.mul_nonneg_nonneg; lia).
  assert (Hzc4 : (z * c <= z * 3)%Z) by (apply Z.mul_le_mono_nonneg_l; lia).
  split; [|split; [|split]].
  - exists ((z * c) mod 4)%Z. split; [|exact Hmod].
    unfold Qeq, Qminus, Qplus, Qmult, Qopp, inject_Z. cbn [Qnum Qden].
    change (Z.pos (1 * 4 * 1)) with 4%Z. change (Z.pos (1 * 4)) with 4%Z. lia.
  - apply Z.div_pos; lia.
  - intros H. apply Qle_bool_iff in H. unfold Qle in H. cbn [Qnum Qden inject_Z Qmult] in H.
    change (Z.pos (1 * 4)) with 4%Z in H. lia.
  - intros H. apply not_true_iff_false in H. rewrite Qle_bool_iff in H.
    unfold Qle in H. cbn [Qnum Qden inject_Z Qmult] in H.
    change (Z.pos (1 * 4)) with 4%Z in H. lia.
Qed.

(** For small whole numbers the quartile in float64 is the exact
    interpolation. *)
Lemma quantile_exact (xs : list (option Q)) (k : quartile) (v0 : Q) (vals : list Q) :
  small_integers xs = true -> sort_values (dropna xs) = v0 :: vals ->
  let Qk := interpolate (v0 :: vals) v0 (inject_Z (Z.of_nat (length vals)) * fraction k) in
  exactly (quantile xs k) Qk /\ on_grid 4 (2 ^ 44) Qk.
Proof.
  intros Hsmall Hsort. cbn zeta.
  assert (Hin : forall i, (i < S (length vals))%nat ->
                          on_grid 1 (2 ^ 40) (nth i (v0 :: vals) v0)).
  { intros i Hi. apply (small_integers_sorted xs); [exact Hsmall|].
    rewrite Hsort. apply nth_In. exact Hi. }
  unfold quantile. rewrite Hsort. cbv beta iota zeta.
  replace (length (v0 :: vals) - 1)%nat with (length vals) by (cbn [length]; lia).
  destruct (quartile_weight (length vals) k) as ((j & Hj & Hj4) & Hfl & Hlast & Hmid).
  set (h := (inject_Z (Z.of_nat (length vals)) * fraction k)%Q) in *.
  unfold interpolate.
  replace (length (v0 :: vals) - 1)%nat with (length vals) by (cbn [length]; lia).
  destruct (Qle_bool (inject_Z (Z.of_nat (length vals))) h) eqn:Hbranch.
  - specialize (Hlast eq_refl). destruct vals; [|discriminate].
    assert (Hh : (h == 0)%Q) by (unfold h; cbn [length]; change (inject_Z (Z.of_nat 0)) with 0%Q; ring).
    assert (Hlo : Z.to_nat (Qfloor h) = O) by (rewrite Hh; reflexivity).
    rewrite Hlo. cbn [length nth Nat.min].
    destruct (lerp_exact v0 v0 (h + 1) 4 (Hin O ltac:(cbn; lia)) (Hin O ltac:(cbn; lia)))
      as [He Hg]; [rewrite Hh; reflexivity|lia|].
    split.
    + apply exactly_compat with (v0 + (v0 - v0) * (h + 1))%Q; [ring|exact He].
    + apply on_grid_compat with (v0 + (v0 - v0) * (h + 1))%Q; [ring|exact Hg].
  - specialize (Hmid eq_refl).
    replace (Nat.min (S (Z.to_nat (Qfloor h))) (length vals))
      with (S (Z.to_nat (Qfloor h))) by lia.
    apply lerp_exact with j; [apply Hin; lia|apply Hin; lia|exact Hj|lia].
Qed.

(** For small whole numbers the fences in float64 are the exact
    ones. *)
Lemma bounds_exact (xs : list (option Q)) (v0 : Q) (vals : list Q) :
  small_integers xs = true -> sort_values (dropna xs) = v0 :: vals ->
  let Q1 := interpolate (v0 :: vals) v0 (inject_Z (Z.of_nat (length vals)) * (1 # 4)) in
  let Q3 := interpolate (v0 :: vals) v0 (inject_Z (Z.of_nat (length vals)) * (3 # 4)) in
  exists q1 q3 lower_bound upper_bound : Q,
    quantile xs first_quartile = Finite q1 /\ quantile xs third_quartile = Finite q3
    /\ bounds xs = (Finite lower_bound, Finite upper_bound)
    /\ (q1 == Q1)%Q /\ (q3 == Q3)%Q
    /\ (lower_bound == Q1 - (3 # 2) * (Q3 - Q1))%Q
    /\ (upper_bound == Q3 + (3 # 2) * (Q3 - Q1))%Q.
Proof.
  intros Hsmall Hsort. cbn zeta.
  destruct (quantile_exact xs first_quartile v0 vals Hsmall Hsort) as [H1 G1].
  destruct (quantile_exact xs third_quartile v0 vals Hsmall Hsort) as [H3 G3].
  cbn zeta in H1, G1, H3, G3. cbn [fraction] in H1, G1, H3, G3.
  set (Q1 := interpolate _ _ (_ * (1 # 4))%Q) in *.
  set (Q3 := interpolate _ _ (_ * (3 # 4))%Q) in *.
  assert (GI : on_grid 4 (2 ^ 45) (Q3 - Q1)).
  { apply on_grid_weaken with (2 ^ 44 + 2 ^ 44)%Z; [reflexivity|].
    apply on_grid_add; [exact G3|now apply on_grid_opp]. }
  assert (HI : exactly (sub (quantile xs third_quartile) (quantile xs first_quartile))
                       (Q3 - Q1)).
  { apply sub_exact with (2 ^ 45 * 2)%Z; [exact H3|exact H1| |reflexivity].
    exact (on_grid_scale 2 4 _ _ GI). }
  assert (GM : on_grid 8 (3 * 2 ^ 45) ((3 # 2) * (Q3 - Q1))).
  { apply (on_grid_mul 2 4 3 (2 ^ 45)); [|exact GI].
    exists 3%Z. split; [reflexivity|lia]. }
  assert (HM : exactly (mul (Finite (3 # 2))
                            (sub (quantile xs third_quartile) (quantile xs first_quartile)))
                       ((3 # 2) * (Q3 - Q1))).
  { apply mul_exact with (3 * 2 ^ 45)%Z; [apply exactly_Finite|exact HI|exact GM|reflexivity]. }
  assert (HL : exactly (fst (bounds xs)) (Q1 - (3 # 2) * (Q3 - Q1))).
  { unfold bounds. cbn zeta. cbn [fst].
    apply sub_exact with (2 ^ 44 * 2 + 3 * 2 ^ 45)%Z; [exact H1|exact HM| |reflexivity].
    apply on_grid_add; [exact (on_grid_scale 2 4 _ _ G1)|now apply on_grid_opp]. }
  assert (HU : exactly (snd (bounds xs)) (Q3 + (3 # 2) * (Q3 - Q1))).
  { unfold bounds. cbn zeta. cbn [snd].
    apply add_exact with (2 ^ 44 * 2 + 3 * 2 ^ 45)%Z; [exact H3|exact HM| |reflexivity].
    apply on_grid_add; [exact (on_grid_scale 2 4 _ _ G3)|exact GM]. }
  destruct H1 as (q1 & Hq1 & E1). destruct H3 as (q3 & Hq3 & E3).
  destruct HL as (lo & Hlo & EL). destruct HU as (up & Hup & EU).
  exists q1, q3, lo, up. repeat split; try assumption.
  destruct (bounds xs) as [l u]. cbn [fst snd] in Hlo, Hup. now subst.
Qed.

Lemma outside_false_iff (lower upper v : Q) :
  outside (Finite lower, Finite upper) (Some v) = false
  <-> (lower <= v)%Q /\ (v <= upper)%Q.
Proof.
  unfold outside, ltb. cbn [fst snd].
  rewrite orb_false_iff, !negb_false_iff, !Qle_bool_iff. tauto.
Qed.

(** Up to three numbers in ascending order lie within their exact
    fences. *)
Lemma few_values_within (vals : list Q) (v0 v : Q) :
  ascending vals -> (length vals <= 3)%nat -> In v vals ->
  let m := (length vals - 1)%nat in
  let Q1 := interpolate vals v0 (inject_Z (Z.of_nat m) * (1 # 4)) in
  let Q3 := interpolate vals v0 (inject_Z (Z.of_nat m) * (3 # 4)) in
  (Q1 - (3 # 2) * (Q3 - Q1) <= v)%Q /\ (v <= Q3 + (3 # 2) * (Q3 - Q1))%Q.
Proof.
  intros Hasc Hcount Hv.
  destruct vals as [|a [|b [|c [|d vals]]]];
    [destruct Hv| | | |cbn [length] in Hcount; lia];
    cbv beta iota zeta; unfold interpolate; cbn [length Nat.sub].
  - change (Qfloor (inject_Z (Z.of_nat 0) * (1 # 4))) with 0%Z.
    change (Qfloor (inject_Z (Z.of_nat 0) * (3 # 4))) with 0%Z.
    change (Z.to_nat 0) with O. cbn [nth Nat.min].
    change (inject_Z (Z.of_nat 0)) with 0%Q. change (inject_Z 0) with 0%Q.
    destruct Hv as [<-|[]]. split; lra.
  - change (Qfloor (inject_Z (Z.of_nat 1) * (1 # 4))) with 0%Z.
    change (Qfloor (inject_Z (Z.of_nat 1) * (3 # 4))) with 0%Z.
    change (Z.to_nat 0) with O. cbn [nth Nat.min].
    change (inject_Z (Z.of_nat 1)) with 1%Q. change (inject_Z 0) with 0%Q.
    destruct Hasc as (Hab & _). apply Forall_cons_iff in Hab as [Hab _].
    destruct Hv as [<-|[<-|[]]]; split; lra.
  - change (Qfloor (inject_Z (Z.of_nat 2) * (1 # 4))) with 0%Z.
    change (Qfloor (inject_Z (Z.of_nat 2) * (3 # 4))) with 1%Z.
    change (Z.to_nat 0) with O. change (Z.to_nat 1) with 1%nat. cbn [nth Nat.min].
    change (inject_Z (Z.of_nat 2)) with 2%Q. change (inject_Z 0) with 0%Q.
    change (inject_Z 1) with 1%Q.
    destruct Hasc as (Hab & Hbc & _).
    apply Forall_cons_iff in Hab as [Hab _]. apply Forall_cons_iff in Hbc as [Hbc _].
    destruct Hv as [<-|[<-|[<-|[]]]]; split; lra.
Qed.

Lemma values_sorted (xs : list (option Q)) :
  values_count xs <> O ->
  exists v0 vals, sort_values (dropna xs) = v0 :: vals.
Proof.
  unfold values_count. rewrite <- (sort_values_length (dropna xs)).
  destruct (sort_values (dropna xs)) as [|v0 vals]; [now cbn|eauto].
Qed.

(** X20. In a column of whole numbers of at most [2 ^ 40] in absolute
    value, with at least one number, the quartiles and the fences are
    numbers, and the fences lie outside the quartiles:
    [lower_bound <= Q1 <= Q3 <= upper_bound], so that no value from
    the first to the third quartile is counted as an outlier. *)
Theorem fences_enclose_quartiles (xs : list (option Q)) :
  small_integers xs = true -> values_count xs <> O ->
  exists Q1 Q3 lower_bound upper_bound : Q,
    quantile xs first_quartile = Float64.Finite Q1
    /\ quantile xs third_quartile = Float64.Finite Q3
    /\ bounds xs = (Float64.Finite lower_bound, Float64.Finite upper_bound)
    /\ (lower_bound <= Q1)%Q /\ (Q1 <= Q3)%Q /\ (Q3 <= upper_bound)%Q
    /\ forall v, (Q1 <= v)%Q -> (v <= Q3)%Q -> outside (bounds xs) (Some v) = false.
Proof.
  intros Hsmall Hcount.
  destruct (values_sorted xs Hcount) as (v0 & vals & Hsort).
  destruct (bounds_exact xs v0 vals Hsmall Hsort)
    as (q1 & q3 & lo & up & Hq1 & Hq3 & Hb & E1 & E3 & EL & EU).
  pose proof (sort_values_ascending (dropna xs)) as Hasc. rewrite Hsort in Hasc.
  destruct (quartiles_ordered (v0 :: vals) v0 Hasc ltac:(discriminate)) as (Hord & _).
  replace (length (v0 :: vals) - 1)%nat with (length vals) in Hord
    by (cbn [length]; lia).
  cbv beta iota zeta in Hord.
  set (Q1 := interpolate _ _ (_ * (1 # 4))%Q) in *.
  set (Q3 := interpolate _ _ (_ * (3 # 4))%Q) in *.
  exists q1, q3, lo, up. rewrite Hb.
  split; [exact Hq1|]. split; [exact Hq3|]. split; [reflexivity|].
  split; [lra|]. split; [lra|]. split; [lra|].
  intros v H1 H3. apply outside_false_iff. lra.
Qed.

Lemma fences_enclose_quartiles_witness :
  exists Q1 Q3 lower_bound upper_bound : Q,
    quantile Samples.ages first_quartile = Float64.Finite Q1
    /\ quantile Samples.ages third_quartile = Float64.Finite Q3
    /\ bounds Samples.ages = (Float64.Finite lower_bound, Float64.Finite upper_bound)
    /\ (lower_bound <= Q1)%Q /\ (Q1 <= Q3)%Q /\ (Q3 <= upper_bound)%Q
    /\ forall v, (Q1 <= v)%Q -> (v <= Q3)%Q ->
                 outside (bounds Samples.ages) (Some v) = false.
Proof.
  apply (fences_enclose_quartiles Samples.ages); [reflexivity|].
  vm_compute. lia.
Defined.

(** X21. In a column of whole numbers of at most [2 ^ 40] in absolute
    value, with at least one number, at least one number is within the
    fences: the outliers counted by the quality report and by the
    column profile are fewer than the values of the column. *)
Theorem not_every_value_an_outlier (xs : list (option Q)) :
  small_integers xs = true -> values_count xs <> O ->
  (outlier_rows xs < values_count xs)%nat
  /\ (length (outliers xs) < values_count xs)%nat.
Proof.
  intros Hsmall Hcount.
  assert (Hin : exists v, In (Some v) xs /\ outside (bounds xs) (Some v) = false).
  { destruct (values_sorted xs Hcount) as (v0 & vals & Hsort).
    destruct (bounds_exact xs v0 vals Hsmall Hsort)
      as (q1 & q3 & lo & up & _ & _ & Hb & _ & _ & EL & EU).
    pose proof (sort_values_ascending (dropna xs)) as Hasc. rewrite Hsort in Hasc.
    assert (Hsub : forall v, In v (v0 :: vals) -> In (Some v) xs).
    { intros v Hv. rewrite <- Hsort in Hv. now apply dropna_In, sort_values_In. }
    destruct (quartiles_ordered (v0 :: vals) v0 Hasc ltac:(discriminate))
      as (Hord & Hlow & Hup & Hv).
    replace (length (v0 :: vals) - 1)%nat with (length vals) in Hord, Hlow, Hup, Hv
      by (cbn [length]; lia).
    cbv beta iota zeta in Hord, Hlow, Hup, Hv.
    eexists. split; [apply Hsub, Hv|].
    rewrite Hb. apply outside_false_iff.
    set (Q1 := interpolate _ _ (_ * (1 # 4))%Q) in *.
    set (Q3 := interpolate _ _ (_ * (3 # 4))%Q) in *.
    split; lra. }
  destruct (outside_count (bounds xs) xs) as (_ & Hlt & Hlen).
  unfold outlier_rows, outliers. cbn zeta. rewrite Hlen. split; now apply Hlt.
Qed.

Lemma not_every_value_an_outlier_witness :
  (outlier_rows Samples.ages < values_count Samples.ages)%nat
  /\ (length (outliers Samples.ages) < values_count Samples.ages)%nat.
Proof.
  apply (not_every_value_an_outlier Samples.ages); [reflexivity|].
  vm_compute. lia.
Defined.

(** X22. Outliers need four values: in a column with at most three
    numbers, each a whole number of at most [2 ^ 40] in absolute
    value, no cell lies outside the fences. *)
Theorem few_values_no_outliers (xs : list (option Q)) :
  small_integers xs = true -> (values_count xs <= 3)%nat ->
  outlier_rows xs = O /\ outliers xs = [].
Proof.
  intros Hsmall Hcount. unfold outlier_rows, outliers. cbn zeta.
  apply no_cell_outside. intros v Hv.
  apply dropna_In, sort_values_In_inv in Hv.
  pose proof (sort_values_ascending (dropna xs)) as Hasc.
  unfold values_count in Hcount. rewrite <- (sort_values_length (dropna xs)) in Hcount.
  destruct (sort_values (dropna xs)) as [|v0 vals] eqn:Hsort; [destruct Hv|].
  destruct (bounds_exact xs v0 vals Hsmall Hsort)
    as (q1 & q3 & lo & up & _ & _ & Hb & _ & _ & EL & EU).
  destruct (few_values_within (v0 :: vals) v0 v Hasc Hcount Hv) as [Hlo Hup].
  replace (length (v0 :: vals) - 1)%nat with (length vals) in Hlo, Hup
    by (cbn [length]; lia).
  cbv beta iota zeta in Hlo, Hup.
  rewrite Hb. apply outside_false_iff.
  set (Q1 := interpolate _ _ (_ * (1 # 4))%Q) in *.
  set (Q3 := interpolate _ _ (_ * (3 # 4))%Q) in *.
  split; lra.
Qed.

Lemma few_values_no_outliers_witness :
  outlier_rows [Some 0; None; Some 10; Some 1000]%Q = O
  /\ outliers [Some 0; None; Some 10; Some 1000]%Q = [].
Proof.
  apply (few_values_no_outliers [Some 0; None; Some 10; Some 1000]%Q); [reflexivity|].
  vm_compute. lia.
Defined.

End WholeNumbers.

(** ** SecurityConfig: the session check and the recommendations *)

Section SessionAdvice.
Import Pandas SecurityConfig.
Variable self : SecurityConfig.t.

(** X23. The session check only warns: its answer is always [secure] and
    carries no error; it warns of a long session exactly when a start
    time is recorded and lies more than [SESSION_TIMEOUT_HOURS] hours
    before the clock reading; it records the clock reading as start
    time when none is recorded, and otherwise leaves the recorded one
    as it is, also when the session is too long. *)
Theorem session_check_only_warns (state : session_state) (current_time : Q) :
  let r := fst (validate_session_security self state current_time) in
  let state' := snd (validate_session_security self state current_time) in
  secure r = true
  /\ session_errors r = []
  /\ (In LongSession (session_warnings r) <->
      exists start, session_start state = Some start
                    /\ (inject_Z (SecurityLimits.SESSION_TIMEOUT_HOURS (limits self) * 3600)
                        < current_time - start)%Q)
  /\ session_start state' = Some (default current_time (session_start state))
  /\ data_size state' = data_size state.
Proof.
  cbn zeta. unfold validate_session_security.
  assert (Hlarge : forall l : list session_warning,
             In LongSession
                (match data_size state with
                 | Some size => if (100 * 1024 * 1024 <? size)%Z then [LargeDataset] else []
                 | None => []
                 end ++ l) <-> In LongSession l).
  { intros l. destruct (data_size state) as [size|]; [|reflexivity].
    destruct (100 * 1024 * 1024 <? size)%Z; [|reflexivity].
    cbn. split; [intros [H|H]; [discriminate|exact H]|now right]. }
  destruct (session_start state) as [start|] eqn:Hstart; cbn [fst snd secure
    session_errors session_warnings session_start data_size from_option id].
  - split; [reflexivity|]. split; [reflexivity|]. split; [|split; [exact Hstart|reflexivity]].
    rewrite Hlarge.
    destruct (Qle_bool (current_time - start) _) eqn:Hle; cbn [negb].
    + apply Qle_bool_iff in Hle. split; [intros []|].
      intros (s & Hs & Hlt). injection Hs as <-. lra.
    + split; [|intros _; now left]. intros _. exists start. split; [reflexivity|].
      apply Qnot_le_lt. intros H. apply Qle_bool_iff in H. congruence.
  - split; [reflexivity|]. split; [reflexivity|]. split; [|split; reflexivity].
    rewrite <- (app_nil_r (match data_size state with Some _ => _ | None => _ end)).
    rewrite Hlarge. split; [intros []|intros (s & Hs & _); discriminate].
Qed.

Ltac listed := intros; cbn [In]; repeat (first [left; reflexivity | right]).
Ltac not_listed :=
  let H := fresh in
  intros H; cbn [In] in H; repeat destruct H as [H|H];
  first [discriminate|contradiction].

Lemma warnings_need_text (df : DataFrame) :
  object_columns df = [] -> warnings (validate_data_content self df) = [].
Proof.
  intros H. unfold validate_data_content, _check_for_pii. rewrite H.
  cbn [check_suspicious check_cell_sizes check_pii_columns].
  rewrite app_nil_r. unfold check_size_limits.
  destruct (_ <? _)%Z, (_ <? _)%Z; reflexivity.
Qed.

(** X24. The recommendations start with the five general ones and are at
    most eight; without a frame they are the five. The advice on text
    columns is given exactly for a frame with a text column, and
    whenever the review of flagged columns is advised, so is the
    caution with text columns: warnings come from text columns only.
    Sampling is advised exactly above 10000 rows. *)
Theorem recommendations_shape (df : option DataFrame) :
  let r := get_security_recommendations self df in
  firstn 5 r = general_recommendations
  /\ (length r <= 8)%nat
  /\ (df = None -> r = general_recommendations)
  /\ (In CautionWithTextColumns r <->
      exists frame, df = Some frame /\ object_columns frame <> [])
  /\ (In ReviewFlaggedColumns r -> In CautionWithTextColumns r)
  /\ (In ConsiderSampling r <->
      exists frame, df = Some frame /\ (10000 < Z.of_nat (len frame))%Z).
Proof.
  cbn zeta. unfold get_security_recommendations.
  destruct df as [frame|].
  2:{ cbn [firstn general_recommendations length].
      split; [reflexivity|]. split; [lia|]. split; [reflexivity|].
      split; [split; [not_listed|intros (f & Hf & _); discriminate]|].
      split; [not_listed|].
      split; [not_listed|intros (f & Hf & _); discriminate]. }
  pose proof (warnings_need_text frame) as Hw.
  destruct (warnings (validate_data_content self frame)) as [|w ws];
    destruct (Z.ltb_spec 10000 (Z.of_nat (len frame))) as [Hrows|Hrows];
    destruct (object_columns frame) as [|c cs] eqn:Hoc;
    try (specialize (Hw eq_refl); discriminate);
    cbn [is_empty negb length Nat.ltb Nat.leb app firstn general_recommendations];
    (split; [reflexivity|]); (split; [lia|]);
    (split; [intros Hn; discriminate Hn|]);
    (split; [|split]);
    first [ solve [listed]
          | solve [not_listed]
          | solve [split;
                   [ intros _; exists frame; split;
                     [reflexivity|first [congruence|lia]]
                   | intros _; listed ]]
          | solve [split;
                   [ not_listed
                   | intros (f & Hf' & Hf); injection Hf' as <-;
                     first [congruence|lia] ]] ].
Qed.

End SessionAdvice.

(** ** DataProcessor.detect_data_types *)

Section TypeDetection.
Import Py Pandas DataProcessor Spec.

Lemma detect_loop_spec (df : DataFrame) :
  forall t0 t, detect_loop df t0 = inr t ->
    numeric t = numeric t0 ++ of_category Numeric df
    /\ categorical t = categorical t0 ++ of_category Categorical df
    /\ datetime t = datetime t0 ++ of_category Datetime df
    /\ boolean t = boolean t0 ++ of_category Boolean df
    /\ text t = text t0 ++ of_category Text df
    /\ mixed t = mixed t0 ++ of_category Mixed df.
Proof.
  induction df as [|[col c] df IH]; intros t0 t H.
  - cbn in H. injection H as <-. unfold of_category. cbn. now rewrite !app_nil_r.
  - cbn [detect_loop] in H. unfold of_category in *. cbn [List.filter snd].
    destruct (classify c) as [e|k]; [discriminate|].
    apply IH in H. destruct H as (H1 & H2 & H3 & H4 & H5 & H6).
    rewrite H1, H2, H3, H4, H5, H6.
    destruct k; cbn [append_to numeric categorical datetime boolean text mixed map fst];
      rewrite <- ?app_assoc; repeat split; reflexivity.
Qed.

Lemma detect_loop_raises (df : DataFrame) (col : string) (c : column) (e : failure) :
  In (col, c) df -> classify c = inl e ->
  forall t0, exists e', detect_loop df t0 = inl e'.
Proof.
  intros Hin Hc. induction df as [|[col' c'] df IH]; intros t0; [destruct Hin|].
  cbn [detect_loop]. destruct Hin as [Heq|Hin].
  - injection Heq as -> ->. rewrite Hc. eauto.
  - destruct (classify c') as [e'|k]; [eauto|]. now apply IH.
Qed.

Lemma of_category_In (k : category) (df : DataFrame) (col : string) :
  In col (of_category k df) <-> exists c, In (col, c) df /\ classify c = inr k.
Proof.
  unfold of_category. rewrite in_map_iff. split.
  - intros ([col' c] & <- & Hin). apply filter_In in Hin as [Hin Hk]. cbn [snd] in Hk.
    exists c. split; [exact Hin|].
    destruct (classify c) as [e|k']; [discriminate|]. destruct k', k; try discriminate;
      reflexivity.
  - intros (c & Hin & Hk). exists (col, c). split; [reflexivity|].
    apply filter_In. split; [exact Hin|]. cbn [snd]. rewrite Hk. now destruct k.
Qed.

Lemma of_category_lengths (df : DataFrame) :
  Forall (fun nc : string * column => exists k, classify (snd nc) = inr k) df ->
  (length (of_category Numeric df) + length (of_category Categorical df)
   + length (of_category Datetime df) + length (of_category Boolean df)
   + length (of_category Text df) + length (of_category Mixed df) = length df)%nat.
Proof.
  unfold of_category. induction 1 as [|[col c] df [k Hk] _ IH]; [reflexivity|].
  cbn [List.filter snd] in *. rewrite Hk.
  destruct k; cbn [map length]; lia.
Qed.

Lemma detect_loop_classified (df : DataFrame) :
  forall t0 t, detect_loop df t0 = inr t ->
    Forall (fun nc : string * column => exists k, classify (snd nc) = inr k) df.
Proof.
  induction df as [|[col c] df IH]; intros t0 t H; [constructor|].
  cbn [detect_loop] in H. destruct (classify c) as [e|k] eqn:Hk; [discriminate|].
  constructor; [cbn [snd]; eauto|]. eapply IH, H.
Qed.

(** X25. When the columns are classified, every column is in one of the six
    lists; the list [boolean] is empty, and a column of truth values
    is in the list [numeric], because the test for a numeric dtype
    comes first and holds of [bool]. *)
Theorem boolean_columns_counted_numeric (df : DataFrame) (t : type_categories) :
  detect_data_types df = inr t ->
  boolean t = []
  /\ (forall col cells, In (col, ColBool cells) df -> In col (numeric t))
  /\ (length (numeric t) + length (categorical t) + length (datetime t)
      + length (boolean t) + length (text t) + length (mixed t) = ncols df)%nat.
Proof.
  intros H. unfold detect_data_types in H.
  pose proof (detect_loop_classified df _ _ H) as Hall.
  apply detect_loop_spec in H as (H1 & H2 & H3 & H4 & H5 & H6).
  cbn [numeric categorical datetime boolean text mixed app] in *.
  rewrite H1, H2, H3, H4, H5, H6. split; [|split].
  - destruct (of_category Boolean df) as [|col l] eqn:Hb; [reflexivity|].
    assert (Hin : In col (of_category Boolean df)) by (rewrite Hb; now left).
    apply of_category_In in Hin as (c & _ & Hc). unfold classify in Hc.
    destruct c as [xs|xs|xs|xs]; cbn in Hc; try discriminate.
    unfold object_category in Hc.
    destruct (length (dropna xs) =? 0)%nat; [discriminate|].
    destruct (astype_str (dropna xs)); [|discriminate]. cbn zeta in Hc.
    destruct (_ && _); [discriminate|]. destruct (above _ _); discriminate.
  - intros col cells Hin. apply of_category_In. exists (ColBool cells).
    split; [exact Hin|reflexivity].
  - apply of_category_lengths, Hall.
Qed.

Lemma boolean_columns_counted_numeric_witness :
  boolean (TypeCategories ["member"; "score"] ["country"] [] [] [] []) = []
  /\ (forall col cells, In (col, ColBool cells) Samples.survey ->
       In col (numeric (TypeCategories ["member"; "score"] ["country"] [] [] [] [])))
  /\ (length (numeric (TypeCategories ["member"; "score"] ["country"] [] [] [] []))
      + length (categorical (TypeCategories ["member"; "score"] ["country"] [] [] [] []))
      + length (datetime (TypeCategories ["member"; "score"] ["country"] [] [] [] []))
      + length (boolean (TypeCategories ["member"; "score"] ["country"] [] [] [] []))
      + length (text (TypeCategories ["member"; "score"] ["country"] [] [] [] []))
      + length (mixed (TypeCategories ["member"; "score"] ["country"] [] [] [] []))
      = ncols Samples.survey)%nat.
Proof.
  apply (boolean_columns_counted_numeric Samples.survey
           (TypeCategories ["member"; "score"] ["country"] [] [] [] [])).
  vm_compute. reflexivity.
Defined.

Lemma distinct_nil (vals : list pyobj) : distinct vals = [] -> vals = [].
Proof.
  induction vals as [|v vals IH]; [reflexivity|]. cbn [distinct].
  destruct (existsb (pyobj_eqb v) vals) eqn:Hex; [|discriminate].
  intros H. apply IH in H. subst. discriminate.
Qed.

Lemma ratio_below_tenth (a b : nat) :
  (0 < b)%nat ->
  Qlt_bool (inject_Z (Z.of_nat a) / inject_Z (Z.of_nat b)) (1 # 10) = true ->
  (10 * a < b)%nat.
Proof.
  intros Hb H. unfold Qlt_bool in H. apply negb_true_iff in H.
  assert (Hlt : (inject_Z (Z.of_nat a) / inject_Z (Z.of_nat b) < 1 # 10)%Q).
  { apply Qnot_le_lt. intros Hle. apply Qle_bool_iff in Hle. congruence. }
  assert (HB : (0 < inject_Z (Z.of_nat b))%Q).
  { change 0%Q with (inject_Z 0). rewrite <- Zlt_Qlt. lia. }
  assert (Hmul : (inject_Z (Z.of_nat b) * (inject_Z (Z.of_nat a) / inject_Z (Z.of_nat b))
                  == inject_Z (Z.of_nat a))%Q).
  { apply Qmult_div_r. lra. }
  assert (Hq : (inject_Z (10 * Z.of_nat a) < inject_Z (Z.of_nat b))%Q).
  { rewrite inject_Z_mult. change (inject_Z 10) with 10%Q.
    generalize dependent (inject_Z (Z.of_nat a) / inject_Z (Z.of_nat b))%Q.
    intros x _ Hlt Hmul.
    generalize dependent (inject_Z (Z.of_nat a)). intros A Hmul.
    generalize dependent (inject_Z (Z.of_nat b)). intros B HB Hmul. nra. }
  rewrite <- Zlt_Qlt in Hq. lia.
Qed.

(** X26. A text column is listed as categorical only if it has a value and
    more than ten times as many values as distinct values: a text
    column with at most ten values is never categorical. *)
Theorem categorical_needs_repetition (df : DataFrame) (t : type_categories)
    (col : string) :
  detect_data_types df = inr t ->
  In col (categorical t) ->
  exists cells, In (col, ColObject cells) df
                /\ (0 < nunique (dropna cells))%nat
                /\ (10 * nunique (dropna cells) < values_of cells)%nat.
Proof.
  intros H Hin. unfold detect_data_types in H.
  apply detect_loop_spec in H as (_ & H2 & _). cbn [categorical app] in H2.
  rewrite H2 in Hin. apply of_category_In in Hin as (c & Hc & Hk).
  unfold classify in Hk. destruct c as [xs|cells|xs|xs]; cbn in Hk; try discriminate.
  exists cells. split; [exact Hc|]. unfold object_category in Hk.
  destruct (Nat.eqb_spec (length (dropna cells)) 0) as [|Hlen]; [discriminate|].
  destruct (astype_str (dropna cells)); [|discriminate]. cbn zeta in Hk.
  destruct (Qlt_bool _ (1 # 10)) eqn:Hratio; cbn [andb] in Hk;
    [|destruct (above _ _); discriminate].
  split.
  - unfold nunique. destruct (distinct (dropna cells)) eqn:Hd; [|cbn; lia].
    apply distinct_nil in Hd. rewrite Hd in Hlen. now cbn in Hlen.
  - unfold values_of. apply ratio_below_tenth; [lia|exact Hratio].
Qed.

Lemma categorical_needs_repetition_witness :
  exists cells, In ("country", ColObject cells) Samples.survey
                /\ (0 < nunique (dropna cells))%nat
                /\ (10 * nunique (dropna cells) < values_of cells)%nat.
Proof.
  apply (categorical_needs_repetition Samples.survey
           (TypeCategories ["member"; "score"] ["country"] [] [] [] []) "country").
  - vm_compute. reflexivity.
  - left. reflexivity.
Defined.

(** X27. A frame with a text column that has no value cannot be
    classified: the division by the number of values raises, and so
    does [detect_data_types]. *)
Theorem empty_text_column_raises (df : DataFrame) (col : string)
    (cells : list (option pyobj)) :
  In (col, ColObject cells) df ->
  dropna cells = [] ->
  classify (ColObject cells) = inl ZeroDivisionError
  /\ exists e, detect_data_types df = inl e.
Proof.
  intros Hin Hnone.
  assert (Hc : classify (ColObject cells) = inl ZeroDivisionError).
  { unfold classify. cbn. unfold object_category. now rewrite Hnone. }
  split; [exact Hc|]. unfold detect_data_types.
  now apply (detect_loop_raises df col (ColObject cells) ZeroDivisionError).
Qed.

Lemma empty_text_column_raises_witness :
  classify (ColObject [None; None]) = inl ZeroDivisionError
  /\ exists e, detect_data_types Samples.blank_notes = inl e.
Proof.
  apply (empty_text_column_raises Samples.blank_notes "notes" [None; None]).
  - right. left. reflexivity.
  - reflexivity.
Defined.

End TypeDetection.

(** ** DataProcessor.suggest_visualizations *)

Section Suggestions.
Import Pandas DataProcessor Spec.

(** X28. Every suggestion can be drawn from the frame: the frame has at
    least [columns_needed] columns and, of each type, at least as many
    columns as [column_types] lists. No chart is recommended for a
    frame without a column of numbers, and the 3D scatter plot is
    offered only along with the scatter plot. *)
Theorem suggestions_are_drawable (df : DataFrame) :
  let r := suggest_visualizations df in
  (forall s, In s (recommended r ++ optional r) -> drawable df s)
  /\ (recommended r = [] <-> number_columns df = [])
  /\ (forall s, In s (optional r) -> type s = scatter_3d ->
        exists s', In s' (recommended r) /\ type s' = scatter_plot).
Proof.
  cbn zeta. unfold suggest_visualizations. rewrite !length_map.
  pose proof (column_kinds_le df) as Hle.
  assert (Hdraw : forall s,
             (columns_needed s <= length (number_columns df) + length (object_columns df))%nat ->
             (forall ty, (listed_times ty (column_types s) <= available ty df)%nat) ->
             drawable df s).
  { intros s H1 H2. split; [unfold ncols; lia|exact H2]. }
  destruct (number_columns df) as [|n1 [|n2 [|n3 ns]]] eqn:Hn;
    destruct (object_columns df) as [|c1 cs] eqn:Hc;
    cbn [length Nat.leb Nat.ltb andb app recommended optional] in *;
    (split; [|split]);
    try (split; intros; first [reflexivity|discriminate]);
    try (intros s Hs; cbn [In] in Hs;
         repeat destruct Hs as [Hs|Hs]; try contradiction; subst s;
         first [ discriminate
               | intros _; eexists; split; [left; reflexivity|reflexivity]
               | apply Hdraw;
                 [ cbn [columns_needed]; lia
                 | intros [|]; unfold available; rewrite ?Hn, ?Hc; cbn; lia ] ]).
Qed.

End Suggestions.

(** ** DataProcessor: the quality report and the column profiles *)

Section ReportAndProfiles.
Import Pandas DataProcessor Spec.

Lemma fold_left_add_shift {A} (f : A -> nat) (l : list A) (total : nat) :
  fold_left (fun total x => (total + f x)%nat) l total
  = (total + list_sum (map f l))%nat.
Proof.
  revert total. induction l as [|x l IH]; intros total; cbn [fold_left map list_sum foldr];
    [lia|]. rewrite IH. unfold list_sum. lia.
Qed.

Lemma profiles_of_columns (rows : nat) (columns : DataFrame)
    (profiles : list (string * profile)) :
  profiles_of rows columns = inr profiles ->
  Forall2 (fun (nc : string * column) (p : string * profile) =>
             fst p = fst nc /\ column_profile rows (fst nc) (snd nc) = inr (snd p))
          columns profiles.
Proof.
  revert profiles. induction columns as [|[col c] columns IH]; intros profiles H.
  - injection H as <-. constructor.
  - cbn [profiles_of] in H.
    destruct (column_profile rows col c) as [e|pr] eqn:Hpr; [discriminate|].
    destruct (profiles_of rows columns) as [e|ps]; [discriminate|].
    injection H as <-. constructor; [now split|]. now apply IH.
Qed.

(** X29. For a frame with rows, without a column of truth values and
    with text cells that convert to [str], the quality report and the
    column profiles are both there and count the same things: the
    outliers of the report are the sum of the outlier counts of the
    profiles, the missing cells the report counts are the sum of their
    null counts, and in every profile [count] and [null_count] add up
    to the length of the column. *)
Theorem quality_report_matches_profiles (df : DataFrame) :
  profiled df ->
  exists (r : quality_metrics) (profiles : list (string * profile)),
    generate_quality_report df = inr r
    /\ generate_column_profiles df = inr profiles
    /\ potential_outliers r
       = list_sum (map (fun p : string * profile => default O (outlier_count (snd p)))
                       profiles)
    /\ total_nulls df
       = list_sum (map (fun p : string * profile => null_count (snd p)) profiles)
    /\ Forall2 (fun (nc : string * column) (p : string * profile) =>
                  fst p = fst nc /\ name (snd p) = fst nc
                  /\ (DataProcessor.count (snd p) + null_count (snd p)
                      = col_len (snd nc))%nat)
               df profiles.
Proof.
  intros (Hrows & Hbool & Hconv).
  rewrite (quality_report_returns df (or_introl Hrows)).
  unfold generate_column_profiles.
  destruct (profiles_of_returns (len df) df Hrows Hbool Hconv) as [profiles Hp].
  rewrite Hp. eexists. exists profiles. split; [reflexivity|]. split; [reflexivity|].
  cbn [potential_outliers]. unfold total_outliers, total_nulls.
  rewrite fold_left_add_shift. cbn [Nat.add].
  apply profiles_of_columns in Hp. clear Hbool Hconv.
  generalize dependent (len df). intros rows Hrows Hp.
  destruct rows as [|rows]; [lia|]. clear Hrows.
  induction Hp as [|[col c] [col' pr] columns profiles [Hname Hpr] Hp IH].
  - repeat split. constructor.
  - destruct IH as (IH1 & IH2 & IH3). cbn [fst snd] in Hname, Hpr. subst col'.
    unfold column_profile in Hpr. cbn [Nat.eqb] in Hpr.
    assert (Hcount : name pr = col
                     /\ null_count pr = count_true (isnull c)
                     /\ (DataProcessor.count pr + null_count pr = col_len c)%nat
                     /\ default O (outlier_count pr)
                        = match c with
                          | ColNumber xs => outlier_rows xs
                          | _ => O
                          end).
    { pose proof (count_true_le (isnull c)) as Hle. unfold col_len in *.
      destruct c as [xs|cells|xs|xs]; try discriminate.
      - injection Hpr as <-.
        destruct (outside_count (bounds xs) xs) as (_ & _ & Hlen).
        split; [reflexivity|]. split; [reflexivity|].
        split; [unfold count_true in *; cbn in Hle |- *; lia|].
        change (length (outliers xs) = outlier_rows xs). exact Hlen.
      - destruct (astype_str (dropna cells)); [|discriminate].
        injection Hpr as <-. repeat split.
        unfold count_true in *; cbn in Hle |- *; lia.
      - injection Hpr as <-. repeat split.
        unfold count_true in *; cbn in Hle |- *; lia. }
    destruct Hcount as (Hn & Hnull & Hsum & Hout).
    cbn [map list_sum foldr fst snd]. rewrite Hout, Hnull.
    split; [|split].
    + unfold list_sum in IH1. rewrite <- IH1.
      destruct c; cbn [number_columns map foldr snd]; reflexivity.
    + unfold list_sum in IH2. now rewrite <- IH2.
    + constructor; [|exact IH3]. cbn [fst snd]. auto.
Qed.

Lemma quality_report_matches_profiles_witness :
  exists (r : quality_metrics) (profiles : list (string * profile)),
    generate_quality_report Samples.gaps = inr r
    /\ generate_column_profiles Samples.gaps = inr profiles
    /\ potential_outliers r
       = list_sum (map (fun p : string * profile => default O (outlier_count (snd p)))
                       profiles)
    /\ total_nulls Samples.gaps
       = list_sum (map (fun p : string * profile => null_count (snd p)) profiles)
    /\ Forall2 (fun (nc : string * column) (p : string * profile) =>
                  fst p = fst nc /\ name (snd p) = fst nc
                  /\ (DataProcessor.count (snd p) + null_count (snd p)
                      = col_len (snd nc))%nat)
               Samples.gaps profiles.
Proof.
  apply (quality_report_matches_profiles Samples.gaps).
  split; [cbn; lia|]. split; [repeat constructor|reflexivity].
Defined.

End ReportAndProfiles.
